(** * Leahe / LoLTimerApp: the cooldown-timer store

    A shallow embedding of [store/useTimerStore.ts] (the persisted store with
    per-slot summoner spells), of the earlier in-memory store variant that
    ships next to it, of the countdown computation of [hooks/useCountdown.ts]
    and of the press / text handlers of the [ChampionCard] component that
    drive the store.

    Conventions of the embedding.
    - In the store a JavaScript [number] is an exact rational ([Q]);
      comparisons are the rational ones and [==] is [Qeq].  The store model
      names the value of the formulas the code evaluates; it does not round.
      Where rounding, [NaN] or an infinity decides a statement, the formula
      is evaluated in binary64 ([calculateCooldown64], on the kernel's
      primitive floats), and where the source divides, the theorems on the
      rational quotient assume a non-zero divisor.
    - [number | null] is [option Q]; [null] is [None].
    - [Date.now()] is an explicit argument of every function that reads the
      clock, one argument per call of [Date.now()].
    - The zustand [set]/[get] pair is explicit state passing: an action is a
      function from the store state to the next store state.
    - The [enemies] array is a [list]; [enemies[i]] is stdpp's lookup and
      [enemies[i] = v] on the copied array is stdpp's insert. *)

From Stdlib Require Import ZArith QArith Qround Lqa String Ascii.
From Stdlib Require Import DecimalString DecimalNat.
From Stdlib Require Import PrimFloat FloatOps SpecFloat FloatAxioms Uint63.
From stdpp Require Import base list.

Local Open Scope Z_scope.

(* ------------------------------------------------------------------------- *)
(** ** Types                                                                 *)
(* ------------------------------------------------------------------------- *)

(** [type ChampionLevel = 1 | 6 | 11 | 16]. *)
Inductive ChampionLevel : Type := L1 | L6 | L11 | L16.

Definition ChampionLevel_eqb (a b : ChampionLevel) : bool :=
  match a, b with
  | L1, L1 | L6, L6 | L11, L11 | L16, L16 => true
  | _, _ => false
  end.

(** The numeric value of a level, as displayed by the card ("Lv 6"). *)
Definition levelNumber (l : ChampionLevel) : Z :=
  match l with L1 => 1 | L6 => 6 | L11 => 11 | L16 => 16 end.

Definition LEVEL_CYCLE : list ChampionLevel := [L1; L6; L11; L16].

(** [ultCooldownIndex]: the index inside [ultBaseCooldowns], [null] at
    level 1. *)
Definition ultCooldownIndex (level : ChampionLevel) : option nat :=
  match level with
  | L1 => None
  | L6 => Some 0%nat
  | L11 => Some 1%nat
  | L16 => Some 2%nat
  end.

(** [1 | 2], the summoner-spell slot of a champion. *)
Inductive SpellSlot : Type := Slot1 | Slot2.

(** The tuple type [[number, number, number]] and its indexing.  The index
    always comes from [ultCooldownIndex], so it is 0, 1 or 2. *)
Definition Cooldowns3 : Type := (Q * Q * Q)%type.

Definition tupleGet (t : Cooldowns3) (idx : nat) : Q :=
  match t, idx with
  | (a, _, _), O => a
  | (_, b, _), S O => b
  | (_, _, c), _ => c
  end.

(** [calculateCooldown(base, haste)]: [base / (1 + haste / 100)], as the
    exact value of the formula.  The engine rounds each operation to
    binary64 and gives an infinity or [NaN] on a zero divisor, where [Qdiv]
    gives 0: see [calculateCooldown64]. *)
Definition calculateCooldown (base haste : Q) : Q :=
  (base / (1 + haste / 100))%Q.

(** The comparison [a > b] and the truthiness of a number (every number but
    0 is truthy). *)
Definition Qgtb (a b : Q) : bool := negb (Qle_bool a b).

Definition truthy (a : Q) : bool := negb (Qeq_bool a 0).

(** [deriveActiveUltCooldown(level, ultBaseCooldowns)]. *)
Definition deriveActiveUltCooldown
    (level : ChampionLevel) (ultBaseCooldowns : Cooldowns3) : option Q :=
  match ultCooldownIndex level with
  | Some idx => Some (tupleGet ultBaseCooldowns idx)
  | None => None
  end.

(** [deriveSummonerHaste(ionianBoots, cosmicInsight)]. *)
Definition deriveSummonerHaste (ionianBoots cosmicInsight : bool) : Q :=
  ((if ionianBoots then 12 else 0) + (if cosmicInsight then 18 else 0))%Q.

(** [validIndex(index)]: the index itself, or [null] out of [0, 4]. *)
Definition validIndex (index : Z) : option Z :=
  if (index <? 0) || (index >? 4) then None else Some index.

(** [LEVEL_CYCLE.indexOf(level)]: the position of the first occurrence, or
    -1. *)
Fixpoint indexOfFrom (pos : Z) (l : list ChampionLevel) (x : ChampionLevel) : Z :=
  match l with
  | [] => -1
  | y :: l' => if ChampionLevel_eqb y x then pos else indexOfFrom (pos + 1) l' x
  end.

Definition indexOf (l : list ChampionLevel) (x : ChampionLevel) : Z :=
  indexOfFrom 0 l x.

(** The level after [level] in [cycleLevel]:
    [LEVEL_CYCLE[(LEVEL_CYCLE.indexOf(level) + 1) % LEVEL_CYCLE.length]].
    The remainder is below the length of the array, so the read succeeds; the
    fall-back value stands for JavaScript's [undefined] and is never taken. *)
Definition nextLevel (level : ChampionLevel) : ChampionLevel :=
  let currentIdx := indexOf LEVEL_CYCLE level in
  let nextIdx := Z.rem (currentIdx + 1) (Z.of_nat (length LEVEL_CYCLE)) in
  default level (LEVEL_CYCLE !! Z.to_nat nextIdx).

(* ------------------------------------------------------------------------- *)
(** ** The countdown of [useCountdown]                                       *)
(* ------------------------------------------------------------------------- *)

(** The value [useCountdown(endTime)] publishes when it synchronises with the
    clock: 0 for an inactive timer, else the [tick] computation
    [Math.max(0, Math.ceil((endTime - Date.now()) / 1000))]. *)
Definition remainingSeconds (endTime : option Q) (now : Q) : Z :=
  match endTime with
  | None => 0
  | Some e => Z.max 0 (Qceiling ((e - now) / 1000))
  end.

(* ------------------------------------------------------------------------- *)
(** ** The persisted store, [store/useTimerStore.ts]                         *)
(* ------------------------------------------------------------------------- *)

(** [interface EnemyChampion]. *)
Record EnemyChampion : Type := mkEnemyChampion {
  id : string;
  name : string;
  ultBaseCooldowns : Cooldowns3;
  activeUltCooldown : option Q;
  currentLevel : ChampionLevel;
  abilityHaste : Q;
  ionianBoots : bool;
  cosmicInsight : bool;
  summonerHaste : Q;
  spell1Id : string;
  spell2Id : string;
  spell1BaseCooldown : Q;
  spell2BaseCooldown : Q;
  ultEndTime : option Q;
  spell1EndTime : option Q;
  spell2EndTime : option Q
}.

(** [Partial<EnemyChampion>]: every field may be absent. *)
Record PartialEnemyChampion : Type := mkPartialEnemyChampion {
  p_id : option string;
  p_name : option string;
  p_ultBaseCooldowns : option Cooldowns3;
  p_activeUltCooldown : option (option Q);
  p_currentLevel : option ChampionLevel;
  p_abilityHaste : option Q;
  p_ionianBoots : option bool;
  p_cosmicInsight : option bool;
  p_summonerHaste : option Q;
  p_spell1Id : option string;
  p_spell2Id : option string;
  p_spell1BaseCooldown : option Q;
  p_spell2BaseCooldown : option Q;
  p_ultEndTime : option (option Q);
  p_spell1EndTime : option (option Q);
  p_spell2EndTime : option (option Q)
}.

(** The data part of [TimerStoreState]; the actions are the functions
    below. *)
Record TimerStoreState : Type := mkStore {
  enemies : list EnemyChampion
}.

(** The champion-detail record handed to [setChampionData]. *)
Record SpellDetail : Type := mkSpellDetail { cooldown : list Q }.

Record ChampionDetail : Type := mkChampionDetail {
  d_id : string;
  d_name : string;
  spells : list SpellDetail
}.

(** [createEmptyChampion()]. *)
Definition createEmptyChampion : EnemyChampion :=
  {| id := "";
     name := "";
     ultBaseCooldowns := (0, 0, 0)%Q;
     activeUltCooldown := None;
     currentLevel := L1;
     abilityHaste := 0%Q;
     ionianBoots := false;
     cosmicInsight := false;
     summonerHaste := 0%Q;
     spell1Id := "SummonerFlash";
     spell2Id := "SummonerFlash";
     spell1BaseCooldown := 300%Q;
     spell2BaseCooldown := 300%Q;
     ultEndTime := None;
     spell1EndTime := None;
     spell2EndTime := None |}.

(** [Array.from({ length: 5 }, createEmptyChampion)]. *)
Definition emptyEnemies : list EnemyChampion := replicate 5 createEmptyChampion.

Definition initialState : TimerStoreState := {| enemies := emptyEnemies |}.

(** Object spreads [{ ...champ, field: v }], one per field the store
    writes. *)
Definition with_activeUltCooldown (v : option Q) (c : EnemyChampion) : EnemyChampion :=
  mkEnemyChampion (id c) (name c) (ultBaseCooldowns c) v (currentLevel c)
    (abilityHaste c) (ionianBoots c) (cosmicInsight c) (summonerHaste c)
    (spell1Id c) (spell2Id c) (spell1BaseCooldown c) (spell2BaseCooldown c)
    (ultEndTime c) (spell1EndTime c) (spell2EndTime c).

Definition with_currentLevel (v : ChampionLevel) (c : EnemyChampion) : EnemyChampion :=
  mkEnemyChampion (id c) (name c) (ultBaseCooldowns c) (activeUltCooldown c) v
    (abilityHaste c) (ionianBoots c) (cosmicInsight c) (summonerHaste c)
    (spell1Id c) (spell2Id c) (spell1BaseCooldown c) (spell2BaseCooldown c)
    (ultEndTime c) (spell1EndTime c) (spell2EndTime c).

Definition with_abilityHaste (v : Q) (c : EnemyChampion) : EnemyChampion :=
  mkEnemyChampion (id c) (name c) (ultBaseCooldowns c) (activeUltCooldown c)
    (currentLevel c) v (ionianBoots c) (cosmicInsight c) (summonerHaste c)
    (spell1Id c) (spell2Id c) (spell1BaseCooldown c) (spell2BaseCooldown c)
    (ultEndTime c) (spell1EndTime c) (spell2EndTime c).

Definition with_ionianBoots (v : bool) (c : EnemyChampion) : EnemyChampion :=
  mkEnemyChampion (id c) (name c) (ultBaseCooldowns c) (activeUltCooldown c)
    (currentLevel c) (abilityHaste c) v (cosmicInsight c) (summonerHaste c)
    (spell1Id c) (spell2Id c) (spell1BaseCooldown c) (spell2BaseCooldown c)
    (ultEndTime c) (spell1EndTime c) (spell2EndTime c).

Definition with_cosmicInsight (v : bool) (c : EnemyChampion) : EnemyChampion :=
  mkEnemyChampion (id c) (name c) (ultBaseCooldowns c) (activeUltCooldown c)
    (currentLevel c) (abilityHaste c) (ionianBoots c) v (summonerHaste c)
    (spell1Id c) (spell2Id c) (spell1BaseCooldown c) (spell2BaseCooldown c)
    (ultEndTime c) (spell1EndTime c) (spell2EndTime c).

Definition with_summonerHaste (v : Q) (c : EnemyChampion) : EnemyChampion :=
  mkEnemyChampion (id c) (name c) (ultBaseCooldowns c) (activeUltCooldown c)
    (currentLevel c) (abilityHaste c) (ionianBoots c) (cosmicInsight c) v
    (spell1Id c) (spell2Id c) (spell1BaseCooldown c) (spell2BaseCooldown c)
    (ultEndTime c) (spell1EndTime c) (spell2EndTime c).

Definition with_spell1 (spellId : string) (cd : Q) (endTime : option Q)
    (c : EnemyChampion) : EnemyChampion :=
  mkEnemyChampion (id c) (name c) (ultBaseCooldowns c) (activeUltCooldown c)
    (currentLevel c) (abilityHaste c) (ionianBoots c) (cosmicInsight c)
    (summonerHaste c) spellId (spell2Id c) cd (spell2BaseCooldown c)
    (ultEndTime c) endTime (spell2EndTime c).

Definition with_spell2 (spellId : string) (cd : Q) (endTime : option Q)
    (c : EnemyChampion) : EnemyChampion :=
  mkEnemyChampion (id c) (name c) (ultBaseCooldowns c) (activeUltCooldown c)
    (currentLevel c) (abilityHaste c) (ionianBoots c) (cosmicInsight c)
    (summonerHaste c) (spell1Id c) spellId (spell1BaseCooldown c) cd
    (ultEndTime c) (spell1EndTime c) endTime.

Definition with_ultEndTime (v : option Q) (c : EnemyChampion) : EnemyChampion :=
  mkEnemyChampion (id c) (name c) (ultBaseCooldowns c) (activeUltCooldown c)
    (currentLevel c) (abilityHaste c) (ionianBoots c) (cosmicInsight c)
    (summonerHaste c) (spell1Id c) (spell2Id c) (spell1BaseCooldown c)
    (spell2BaseCooldown c) v (spell1EndTime c) (spell2EndTime c).

Definition with_spell1EndTime (v : option Q) (c : EnemyChampion) : EnemyChampion :=
  mkEnemyChampion (id c) (name c) (ultBaseCooldowns c) (activeUltCooldown c)
    (currentLevel c) (abilityHaste c) (ionianBoots c) (cosmicInsight c)
    (summonerHaste c) (spell1Id c) (spell2Id c) (spell1BaseCooldown c)
    (spell2BaseCooldown c) (ultEndTime c) v (spell2EndTime c).

Definition with_spell2EndTime (v : option Q) (c : EnemyChampion) : EnemyChampion :=
  mkEnemyChampion (id c) (name c) (ultBaseCooldowns c) (activeUltCooldown c)
    (currentLevel c) (abilityHaste c) (ionianBoots c) (cosmicInsight c)
    (summonerHaste c) (spell1Id c) (spell2Id c) (spell1BaseCooldown c)
    (spell2BaseCooldown c) (ultEndTime c) (spell1EndTime c) v.

(** The timer fields selected by a computed key
    [spellSlot === 1 ? "spell1EndTime" : "spell2EndTime"]. *)
Definition spellEndTime (spellSlot : SpellSlot) (c : EnemyChampion) : option Q :=
  match spellSlot with Slot1 => spell1EndTime c | Slot2 => spell2EndTime c end.

Definition with_spellEndTime (spellSlot : SpellSlot) (v : option Q)
    (c : EnemyChampion) : EnemyChampion :=
  match spellSlot with
  | Slot1 => with_spell1EndTime v c
  | Slot2 => with_spell2EndTime v c
  end.

Definition spellBaseCooldown (spellSlot : SpellSlot) (c : EnemyChampion) : Q :=
  match spellSlot with Slot1 => spell1BaseCooldown c | Slot2 => spell2BaseCooldown c end.

(** The spread [{ ...champ, ...data }]: a field of [data] that is present
    wins. *)
Definition mergePartial (c : EnemyChampion) (data : PartialEnemyChampion) : EnemyChampion :=
  {| id := default (id c) (p_id data);
     name := default (name c) (p_name data);
     ultBaseCooldowns := default (ultBaseCooldowns c) (p_ultBaseCooldowns data);
     activeUltCooldown := default (activeUltCooldown c) (p_activeUltCooldown data);
     currentLevel := default (currentLevel c) (p_currentLevel data);
     abilityHaste := default (abilityHaste c) (p_abilityHaste data);
     ionianBoots := default (ionianBoots c) (p_ionianBoots data);
     cosmicInsight := default (cosmicInsight c) (p_cosmicInsight data);
     summonerHaste := default (summonerHaste c) (p_summonerHaste data);
     spell1Id := default (spell1Id c) (p_spell1Id data);
     spell2Id := default (spell2Id c) (p_spell2Id data);
     spell1BaseCooldown := default (spell1BaseCooldown c) (p_spell1BaseCooldown data);
     spell2BaseCooldown := default (spell2BaseCooldown c) (p_spell2BaseCooldown data);
     ultEndTime := default (ultEndTime c) (p_ultEndTime data);
     spell1EndTime := default (spell1EndTime c) (p_spell1EndTime data);
     spell2EndTime := default (spell2EndTime c) (p_spell2EndTime data) |}.

(** The common shape of the [set] callbacks:
    [const enemies = [...state.enemies]; enemies[i] = f(enemies[i]);
     return { enemies }].
    The store always holds five slots and [i] has passed [validIndex], so
    [enemies[i]] is a slot.  On a shorter array, which the store never holds
    but a tampered persisted payload could, the source spreads [undefined]
    and grows the array; the model leaves the state as it is there, so the
    theorems that follow a write assume five slots or the presence of the
    slot. *)
Definition updateSlot (i : Z) (f : EnemyChampion -> EnemyChampion)
    (s : TimerStoreState) : TimerStoreState :=
  match enemies s !! Z.to_nat i with
  | Some champ => {| enemies := <[Z.to_nat i := f champ]> (enemies s) |}
  | None => s
  end.

(** *** Champion setup *)

Definition setChampion (index : Z) (data : PartialEnemyChampion)
    (s : TimerStoreState) : TimerStoreState :=
  match validIndex index with
  | None => s
  | Some i =>
      updateSlot i
        (fun champ =>
           let updated := mergePartial champ data in
           with_activeUltCooldown
             (deriveActiveUltCooldown (currentLevel updated) (ultBaseCooldowns updated))
             updated)
        s
  end.

(** [cd[k] ?? 0]. *)
Definition cooldownAt (cd : list Q) (k : nat) : Q := default 0%Q (cd !! k).

(** The triple [setChampionData] extracts:
    [const cd = detail.spells[3]?.cooldown ?? [0, 0, 0]] and then
    [[cd[0] ?? 0, cd[1] ?? 0, cd[2] ?? 0]]. *)
Definition extractUltBaseCooldowns (detail : ChampionDetail) : Cooldowns3 :=
  let cd :=
    match spells detail !! 3%nat with
    | Some ultSpell => cooldown ultSpell
    | None => [0; 0; 0]%Q
    end in
  (cooldownAt cd 0, cooldownAt cd 1, cooldownAt cd 2).

(** The slot [setChampionData] writes:
    [{ ...createEmptyChampion(), id, name, ultBaseCooldowns, currentLevel: 6,
       activeUltCooldown: ultBaseCooldowns[0] }]. *)
Definition championFromDetail (detail : ChampionDetail) : EnemyChampion :=
  let ubc := extractUltBaseCooldowns detail in
  {| id := d_id detail;
     name := d_name detail;
     ultBaseCooldowns := ubc;
     activeUltCooldown := Some (tupleGet ubc 0);
     currentLevel := L6;
     abilityHaste := abilityHaste createEmptyChampion;
     ionianBoots := ionianBoots createEmptyChampion;
     cosmicInsight := cosmicInsight createEmptyChampion;
     summonerHaste := summonerHaste createEmptyChampion;
     spell1Id := spell1Id createEmptyChampion;
     spell2Id := spell2Id createEmptyChampion;
     spell1BaseCooldown := spell1BaseCooldown createEmptyChampion;
     spell2BaseCooldown := spell2BaseCooldown createEmptyChampion;
     ultEndTime := ultEndTime createEmptyChampion;
     spell1EndTime := spell1EndTime createEmptyChampion;
     spell2EndTime := spell2EndTime createEmptyChampion |}.

Definition setChampionData (index : Z) (detail : ChampionDetail)
    (s : TimerStoreState) : TimerStoreState :=
  match validIndex index with
  | None => s
  | Some i => updateSlot i (fun _ => championFromDetail detail) s
  end.

Definition clearChampion (index : Z) (s : TimerStoreState) : TimerStoreState :=
  match validIndex index with
  | None => s
  | Some i => updateSlot i (fun _ => createEmptyChampion) s
  end.

(** *** Level toggle *)

Definition cycleLevel (index : Z) (s : TimerStoreState) : TimerStoreState :=
  match validIndex index with
  | None => s
  | Some i =>
      updateSlot i
        (fun champ0 =>
           let champ := with_currentLevel (nextLevel (currentLevel champ0)) champ0 in
           with_activeUltCooldown
             (deriveActiveUltCooldown (currentLevel champ) (ultBaseCooldowns champ))
             champ)
        s
  end.

(** *** Ability haste *)

Definition setAbilityHaste (index : Z) (haste : Q)
    (s : TimerStoreState) : TimerStoreState :=
  match validIndex index with
  | None => s
  | Some i => updateSlot i (with_abilityHaste haste) s
  end.

(** *** Summoner haste toggles *)

Definition toggleIonianBoots (index : Z) (s : TimerStoreState) : TimerStoreState :=
  match validIndex index with
  | None => s
  | Some i =>
      updateSlot i
        (fun champ0 =>
           let champ := with_ionianBoots (negb (ionianBoots champ0)) champ0 in
           with_summonerHaste
             (deriveSummonerHaste (ionianBoots champ) (cosmicInsight champ)) champ)
        s
  end.

Definition toggleCosmicInsight (index : Z) (s : TimerStoreState) : TimerStoreState :=
  match validIndex index with
  | None => s
  | Some i =>
      updateSlot i
        (fun champ0 =>
           let champ := with_cosmicInsight (negb (cosmicInsight champ0)) champ0 in
           with_summonerHaste
             (deriveSummonerHaste (ionianBoots champ) (cosmicInsight champ)) champ)
        s
  end.

(** *** Summoner spell selection *)

Definition setSummonerSpell (index : Z) (slot : SpellSlot) (spellId : string)
    (cooldown : Q) (s : TimerStoreState) : TimerStoreState :=
  match validIndex index with
  | None => s
  | Some i =>
      updateSlot i
        (match slot with
         | Slot1 => with_spell1 spellId cooldown None
         | Slot2 => with_spell2 spellId cooldown None
         end)
        s
  end.

(** *** Timers *)

(** [startUltTimer(index)]; [now] is the value of its [Date.now()].  On a
    valid index without a slot the source throws reading
    [champ.activeUltCooldown]; the model returns the store there, and the
    theorems on it assume five slots or the presence of the slot. *)
Definition startUltTimer (index : Z) (now : Q)
    (s : TimerStoreState) : TimerStoreState :=
  match validIndex index with
  | None => s
  | Some i =>
      match enemies s !! Z.to_nat i with
      | None => s
      | Some champ =>
          match activeUltCooldown champ with
          | None => s
          | Some active =>
              let effectiveCD := calculateCooldown active (abilityHaste champ) in
              updateSlot i (with_ultEndTime (Some (now + effectiveCD * 1000)%Q)) s
          end
      end
  end.

(** [startSpellTimer(index, spellSlot)]; [now] is the value of its
    [Date.now()].  On a valid index without a slot the source throws reading
    the base cooldown of [champ]; the model returns the store there, and the
    theorems on it assume five slots or the presence of the slot. *)
Definition startSpellTimer (index : Z) (spellSlot : SpellSlot) (now : Q)
    (s : TimerStoreState) : TimerStoreState :=
  match validIndex index with
  | None => s
  | Some i =>
      match enemies s !! Z.to_nat i with
      | None => s
      | Some champ =>
          let baseCooldown := spellBaseCooldown spellSlot champ in
          if Qle_bool baseCooldown 0 then s
          else
            let effectiveCD := calculateCooldown baseCooldown (summonerHaste champ) in
            let endTime := (now + effectiveCD * 1000)%Q in
            updateSlot i (with_spellEndTime spellSlot (Some endTime)) s
      end
  end.

Definition clearUltTimer (index : Z) (s : TimerStoreState) : TimerStoreState :=
  match validIndex index with
  | None => s
  | Some i => updateSlot i (with_ultEndTime None) s
  end.

Definition clearSpellTimer (index : Z) (spellSlot : SpellSlot)
    (s : TimerStoreState) : TimerStoreState :=
  match validIndex index with
  | None => s
  | Some i => updateSlot i (with_spellEndTime spellSlot None) s
  end.

Definition resetAll (s : TimerStoreState) : TimerStoreState :=
  {| enemies := emptyEnemies |}.

(** *** Rehydration *)

(** [v && v > now ? v : null] on a timer field: [null], 0 and any value not
    after [now] become [null]. *)
Definition keepIfFuture (now : Q) (v : option Q) : option Q :=
  match v with
  | None => None
  | Some t => if truthy t && Qgtb t now then Some t else None
  end.

(** One step of the [map] in [onRehydrateStorage]. *)
Definition cleanChampion (now : Q) (champ : EnemyChampion) : EnemyChampion :=
  mkEnemyChampion (id champ) (name champ) (ultBaseCooldowns champ)
    (activeUltCooldown champ) (currentLevel champ) (abilityHaste champ)
    (ionianBoots champ) (cosmicInsight champ) (summonerHaste champ)
    (spell1Id champ) (spell2Id champ) (spell1BaseCooldown champ)
    (spell2BaseCooldown champ)
    (keepIfFuture now (ultEndTime champ))
    (keepIfFuture now (spell1EndTime champ))
    (keepIfFuture now (spell2EndTime champ)).

(** The callback returned by [onRehydrateStorage]: [state] is the restored
    state ([None] for [undefined]), [error] tells whether the load failed,
    [now] is the value of [Date.now()], and [s] is the store the final
    [setState] acts on. *)
Definition onRehydrateStorage (state : option TimerStoreState) (error : bool)
    (now : Q) (s : TimerStoreState) : TimerStoreState :=
  if error then s
  else
    match state with
    | None => s
    | Some st => {| enemies := map (cleanChampion now) (enemies st) |}
    end.

(** *** The actions as data *)

(** One constructor per action of the store; a timer start carries the
    clock value its [Date.now()] returns. *)
Inductive Action : Type :=
| ASetChampion (index : Z) (data : PartialEnemyChampion)
| ASetChampionData (index : Z) (detail : ChampionDetail)
| AClearChampion (index : Z)
| ACycleLevel (index : Z)
| ASetAbilityHaste (index : Z) (haste : Q)
| AToggleIonianBoots (index : Z)
| AToggleCosmicInsight (index : Z)
| ASetSummonerSpell (index : Z) (slot : SpellSlot) (spellId : string) (cooldown : Q)
| AStartUltTimer (index : Z) (now : Q)
| AStartSpellTimer (index : Z) (spellSlot : SpellSlot) (now : Q)
| AClearUltTimer (index : Z)
| AClearSpellTimer (index : Z) (spellSlot : SpellSlot)
| AResetAll.

Definition step (a : Action) (s : TimerStoreState) : TimerStoreState :=
  match a with
  | ASetChampion index data => setChampion index data s
  | ASetChampionData index detail => setChampionData index detail s
  | AClearChampion index => clearChampion index s
  | ACycleLevel index => cycleLevel index s
  | ASetAbilityHaste index haste => setAbilityHaste index haste s
  | AToggleIonianBoots index => toggleIonianBoots index s
  | AToggleCosmicInsight index => toggleCosmicInsight index s
  | ASetSummonerSpell index slot spellId cd => setSummonerSpell index slot spellId cd s
  | AStartUltTimer index now => startUltTimer index now s
  | AStartSpellTimer index spellSlot now => startSpellTimer index spellSlot now s
  | AClearUltTimer index => clearUltTimer index s
  | AClearSpellTimer index spellSlot => clearSpellTimer index spellSlot s
  | AResetAll => resetAll s
  end.

(** The slot index an action takes; [resetAll] takes none. *)
Definition actionIndex (a : Action) : option Z :=
  match a with
  | ASetChampion index _ | ASetChampionData index _ | AClearChampion index
  | ACycleLevel index | ASetAbilityHaste index _ | AToggleIonianBoots index
  | AToggleCosmicInsight index | ASetSummonerSpell index _ _ _
  | AStartUltTimer index _ | AStartSpellTimer index _ _ | AClearUltTimer index
  | AClearSpellTimer index _ => Some index
  | AResetAll => None
  end.

(** Running a sequence of actions, first action first. *)
Fixpoint run (actions : list Action) (s : TimerStoreState) : TimerStoreState :=
  match actions with
  | [] => s
  | a :: rest => run rest (step a s)
  end.

(* ------------------------------------------------------------------------- *)
(** ** The handlers of [ChampionCard] that call the store                    *)
(* ------------------------------------------------------------------------- *)

(** [a[index]] on a JavaScript array for an integer index: [undefined]
    ([None]) outside the array. *)
Definition arrayGet {A : Type} (a : list A) (index : Z) : option A :=
  if index <? 0 then None else a !! Z.to_nat index.

(** [endTime !== null && endTime > now]. *)
Definition isRunning (endTime : option Q) (now : Q) : bool :=
  match endTime with
  | None => false
  | Some e => Qgtb e now
  end.

(** [parseInt(text, 10)] of ECMAScript on a string of ASCII characters:
    leading white space is skipped, one sign is accepted, the longest run of
    decimal digits is read, and the result is [NaN] ([None]) when there is no
    digit. *)
Definition isWhiteSpace (c : ascii) : bool :=
  let n := N_of_ascii c in
  ((9 <=? n) && (n <=? 13) || (n =? 32))%N.

Definition isDigit (c : ascii) : bool :=
  let n := N_of_ascii c in ((48 <=? n) && (n <=? 57))%N.

Definition digitValue (c : ascii) : Z := Z.of_N (N_of_ascii c) - 48.

Fixpoint trimStart (s : string) : string :=
  match s with
  | EmptyString => EmptyString
  | String c rest => if isWhiteSpace c then trimStart rest else s
  end.

Fixpoint readDigits (acc : Z) (s : string) : Z :=
  match s with
  | EmptyString => acc
  | String c rest => if isDigit c then readDigits (10 * acc + digitValue c) rest else acc
  end.

Definition startsWithDigit (s : string) : bool :=
  match s with
  | EmptyString => false
  | String c _ => isDigit c
  end.

Definition parseInt (text : string) : option Z :=
  let s := trimStart text in
  let '(sign, body) :=
    match s with
    | String "-"%char rest => (-1, rest)
    | String "+"%char rest => (1, rest)
    | _ => (1, s)
    end in
  if startsWithDigit body then Some (sign * readDigits 0 body) else None.

(** The value [handleHasteChange] passes on:
    [Number.isNaN(parsed) ? 0 : Math.max(0, parsed)]. *)
Definition clampHaste (parsed : option Z) : Z :=
  match parsed with
  | None => 0
  | Some p => Z.max 0 p
  end.

Definition handleHasteChange (index : Z) (text : string)
    (s : TimerStoreState) : TimerStoreState :=
  let parsed := parseInt text in
  setAbilityHaste index (inject_Z (clampHaste parsed)) s.

(** The press handlers read [state.enemies[index]] without [validIndex]; a
    missing slot makes the property read throw, which is [None] here.
    [nowGuard] is the clock read by the guard, [nowStart] the one read by the
    store action. *)
Definition handleUltPress (index : Z) (nowGuard nowStart : Q)
    (s : TimerStoreState) : option TimerStoreState :=
  match arrayGet (enemies s) index with
  | None => None
  | Some champ =>
      match activeUltCooldown champ with
      | None => Some s
      | Some _ =>
          if isRunning (ultEndTime champ) nowGuard then Some s
          else Some (startUltTimer index nowStart s)
      end
  end.

(** [handleSpell1Press] and [handleSpell2Press], by the slot they serve. *)
Definition handleSpellPress (spellSlot : SpellSlot) (index : Z)
    (nowGuard nowStart : Q) (s : TimerStoreState) : option TimerStoreState :=
  match arrayGet (enemies s) index with
  | None => None
  | Some champ =>
      if isRunning (spellEndTime spellSlot champ) nowGuard then Some s
      else Some (startSpellTimer index spellSlot nowStart s)
  end.

(* ------------------------------------------------------------------------- *)
(** ** The in-memory store variant (no stored summoner spells)               *)
(* ------------------------------------------------------------------------- *)

(** The second [useTimerStore] of the repository: no persistence, no
    summoner-spell fields, and [startSpellTimer] receives the base cooldown
    from its caller.  Its helper functions [ultCooldownIndex],
    [deriveActiveUltCooldown], [validIndex] and [calculateCooldown] are the
    ones above, word for word. *)
Module Simplified.

Record EnemyChampion : Type := mkEnemyChampion {
  id : string;
  name : string;
  ultBaseCooldowns : Cooldowns3;
  activeUltCooldown : option Q;
  currentLevel : ChampionLevel;
  abilityHaste : Q;
  ultEndTime : option Q;
  spell1EndTime : option Q;
  spell2EndTime : option Q
}.

Record PartialEnemyChampion : Type := mkPartialEnemyChampion {
  p_id : option string;
  p_name : option string;
  p_ultBaseCooldowns : option Cooldowns3;
  p_activeUltCooldown : option (option Q);
  p_currentLevel : option ChampionLevel;
  p_abilityHaste : option Q;
  p_ultEndTime : option (option Q);
  p_spell1EndTime : option (option Q);
  p_spell2EndTime : option (option Q)
}.

Record TimerStoreState : Type := mkStore {
  enemies : list EnemyChampion
}.

Definition createEmptyChampion : EnemyChampion :=
  {| id := "";
     name := "";
     ultBaseCooldowns := (0, 0, 0)%Q;
     activeUltCooldown := None;
     currentLevel := L1;
     abilityHaste := 0%Q;
     ultEndTime := None;
     spell1EndTime := None;
     spell2EndTime := None |}.

Definition emptyEnemies : list EnemyChampion := replicate 5 createEmptyChampion.

Definition initialState : TimerStoreState := {| enemies := emptyEnemies |}.

Definition with_activeUltCooldown (v : option Q) (c : EnemyChampion) : EnemyChampion :=
  mkEnemyChampion (id c) (name c) (ultBaseCooldowns c) v (currentLevel c)
    (abilityHaste c) (ultEndTime c) (spell1EndTime c) (spell2EndTime c).

Definition with_currentLevel (v : ChampionLevel) (c : EnemyChampion) : EnemyChampion :=
  mkEnemyChampion (id c) (name c) (ultBaseCooldowns c) (activeUltCooldown c) v
    (abilityHaste c) (ultEndTime c) (spell1EndTime c) (spell2EndTime c).

Definition with_abilityHaste (v : Q) (c : EnemyChampion) : EnemyChampion :=
  mkEnemyChampion (id c) (name c) (ultBaseCooldowns c) (activeUltCooldown c)
    (currentLevel c) v (ultEndTime c) (spell1EndTime c) (spell2EndTime c).

Definition with_ultEndTime (v : option Q) (c : EnemyChampion) : EnemyChampion :=
  mkEnemyChampion (id c) (name c) (ultBaseCooldowns c) (activeUltCooldown c)
    (currentLevel c) (abilityHaste c) v (spell1EndTime c) (spell2EndTime c).

Definition with_spell1EndTime (v : option Q) (c : EnemyChampion) : EnemyChampion :=
  mkEnemyChampion (id c) (name c) (ultBaseCooldowns c) (activeUltCooldown c)
    (currentLevel c) (abilityHaste c) (ultEndTime c) v (spell2EndTime c).

Definition with_spell2EndTime (v : option Q) (c : EnemyChampion) : EnemyChampion :=
  mkEnemyChampion (id c) (name c) (ultBaseCooldowns c) (activeUltCooldown c)
    (currentLevel c) (abilityHaste c) (ultEndTime c) (spell1EndTime c) v.

Definition spellEndTime (spellSlot : SpellSlot) (c : EnemyChampion) : option Q :=
  match spellSlot with Slot1 => spell1EndTime c | Slot2 => spell2EndTime c end.

Definition with_spellEndTime (spellSlot : SpellSlot) (v : option Q)
    (c : EnemyChampion) : EnemyChampion :=
  match spellSlot with
  | Slot1 => with_spell1EndTime v c
  | Slot2 => with_spell2EndTime v c
  end.

Definition mergePartial (c : EnemyChampion) (data : PartialEnemyChampion) : EnemyChampion :=
  {| id := default (id c) (p_id data);
     name := default (name c) (p_name data);
     ultBaseCooldowns := default (ultBaseCooldowns c) (p_ultBaseCooldowns data);
     activeUltCooldown := default (activeUltCooldown c) (p_activeUltCooldown data);
     currentLevel := default (currentLevel c) (p_currentLevel data);
     abilityHaste := default (abilityHaste c) (p_abilityHaste data);
     ultEndTime := default (ultEndTime c) (p_ultEndTime data);
     spell1EndTime := default (spell1EndTime c) (p_spell1EndTime data);
     spell2EndTime := default (spell2EndTime c) (p_spell2EndTime data) |}.

Definition updateSlot (i : Z) (f : EnemyChampion -> EnemyChampion)
    (s : TimerStoreState) : TimerStoreState :=
  match enemies s !! Z.to_nat i with
  | Some champ => {| enemies := <[Z.to_nat i := f champ]> (enemies s) |}
  | None => s
  end.

Definition setChampion (index : Z) (data : PartialEnemyChampion)
    (s : TimerStoreState) : TimerStoreState :=
  match validIndex index with
  | None => s
  | Some i =>
      updateSlot i
        (fun champ =>
           let updated := mergePartial champ data in
           with_activeUltCooldown
             (deriveActiveUltCooldown (currentLevel updated) (ultBaseCooldowns updated))
             updated)
        s
  end.

Definition clearChampion (index : Z) (s : TimerStoreState) : TimerStoreState :=
  match validIndex index with
  | None => s
  | Some i => updateSlot i (fun _ => createEmptyChampion) s
  end.

Definition cycleLevel (index : Z) (s : TimerStoreState) : TimerStoreState :=
  match validIndex index with
  | None => s
  | Some i =>
      updateSlot i
        (fun champ0 =>
           let champ := with_currentLevel (nextLevel (currentLevel champ0)) champ0 in
           with_activeUltCooldown
             (deriveActiveUltCooldown (currentLevel champ) (ultBaseCooldowns champ))
             champ)
        s
  end.

Definition setAbilityHaste (index : Z) (haste : Q)
    (s : TimerStoreState) : TimerStoreState :=
  match validIndex index with
  | None => s
  | Some i => updateSlot i (with_abilityHaste haste) s
  end.

Definition startUltTimer (index : Z) (now : Q)
    (s : TimerStoreState) : TimerStoreState :=
  match validIndex index with
  | None => s
  | Some i =>
      match enemies s !! Z.to_nat i with
      | None => s
      | Some champ =>
          match activeUltCooldown champ with
          | None => s
          | Some active =>
              let effectiveCD := calculateCooldown active (abilityHaste champ) in
              updateSlot i (with_ultEndTime (Some (now + effectiveCD * 1000)%Q)) s
          end
      end
  end.

(** [startSpellTimer(index, spellSlot, baseCooldown)]: the base cooldown is
    an argument and is not tested. *)
Definition startSpellTimer (index : Z) (spellSlot : SpellSlot) (baseCooldown : Q)
    (now : Q) (s : TimerStoreState) : TimerStoreState :=
  match validIndex index with
  | None => s
  | Some i =>
      match enemies s !! Z.to_nat i with
      | None => s
      | Some champ =>
          let effectiveCD := calculateCooldown baseCooldown (abilityHaste champ) in
          let endTime := (now + effectiveCD * 1000)%Q in
          updateSlot i (with_spellEndTime spellSlot (Some endTime)) s
      end
  end.

Definition clearUltTimer (index : Z) (s : TimerStoreState) : TimerStoreState :=
  match validIndex index with
  | None => s
  | Some i => updateSlot i (with_ultEndTime None) s
  end.

Definition clearSpellTimer (index : Z) (spellSlot : SpellSlot)
    (s : TimerStoreState) : TimerStoreState :=
  match validIndex index with
  | None => s
  | Some i => updateSlot i (with_spellEndTime spellSlot None) s
  end.

Definition resetAll (s : TimerStoreState) : TimerStoreState :=
  {| enemies := emptyEnemies |}.

Inductive Action : Type :=
| ASetChampion (index : Z) (data : PartialEnemyChampion)
| AClearChampion (index : Z)
| ACycleLevel (index : Z)
| ASetAbilityHaste (index : Z) (haste : Q)
| AStartUltTimer (index : Z) (now : Q)
| AStartSpellTimer (index : Z) (spellSlot : SpellSlot) (baseCooldown : Q) (now : Q)
| AClearUltTimer (index : Z)
| AClearSpellTimer (index : Z) (spellSlot : SpellSlot)
| AResetAll.

Definition step (a : Action) (s : TimerStoreState) : TimerStoreState :=
  match a with
  | ASetChampion index data => setChampion index data s
  | AClearChampion index => clearChampion index s
  | ACycleLevel index => cycleLevel index s
  | ASetAbilityHaste index haste => setAbilityHaste index haste s
  | AStartUltTimer index now => startUltTimer index now s
  | AStartSpellTimer index spellSlot base now => startSpellTimer index spellSlot base now s
  | AClearUltTimer index => clearUltTimer index s
  | AClearSpellTimer index spellSlot => clearSpellTimer index spellSlot s
  | AResetAll => resetAll s
  end.

Definition actionIndex (a : Action) : option Z :=
  match a with
  | ASetChampion index _ | AClearChampion index | ACycleLevel index
  | ASetAbilityHaste index _ | AStartUltTimer index _
  | AStartSpellTimer index _ _ _ | AClearUltTimer index
  | AClearSpellTimer index _ => Some index
  | AResetAll => None
  end.

(** [const DEFAULT_SPELL_CD = 300] of the card that drives this store. *)
Definition DEFAULT_SPELL_CD : Q := 300%Q.

(** [handleSpell1Press] / [handleSpell2Press] of that card. *)
Definition handleSpellPress (spellSlot : SpellSlot) (index : Z)
    (nowGuard nowStart : Q) (s : TimerStoreState) : option TimerStoreState :=
  match arrayGet (enemies s) index with
  | None => None
  | Some champ =>
      if isRunning (spellEndTime spellSlot champ) nowGuard then Some s
      else Some (startSpellTimer index spellSlot DEFAULT_SPELL_CD nowStart s)
  end.

End Simplified.

(* ------------------------------------------------------------------------- *)
(** ** Predicates on store states                                            *)
(* ------------------------------------------------------------------------- *)

(** The store holds exactly five slots. *)
Definition fiveSlots (s : TimerStoreState) : Prop := length (enemies s) = 5%nat.

(** The index names one of the slots 0-4. *)
Definition slotIndex (i : Z) : Prop := 0 <= i <= 4.

(** A slot whose [activeUltCooldown] is the value derived from its level and
    its base cooldowns. *)
Definition slotConsistent (c : EnemyChampion) : Prop :=
  activeUltCooldown c = deriveActiveUltCooldown (currentLevel c) (ultBaseCooldowns c).

(** The three timer fields of a slot. *)
Inductive TimerField : Type := UltTimer | Spell1Timer | Spell2Timer.

Definition timerEndTime (f : TimerField) (c : EnemyChampion) : option Q :=
  match f with
  | UltTimer => ultEndTime c
  | Spell1Timer => spell1EndTime c
  | Spell2Timer => spell2EndTime c
  end.

(** The level cycle as the documentation of [cycleLevel] words it:
    1 -> 6 -> 11 -> 16 -> 1. *)
Definition levelAfter (l : ChampionLevel) : ChampionLevel :=
  match l with L1 => L6 | L6 => L11 | L11 => L16 | L16 => L1 end.

(** The derived field spelled out by level: nothing at level 1, else the
    base cooldown of the rank reached (6 -> first, 11 -> second,
    16 -> third). *)
Definition activeMatchesLevel (c : EnemyChampion) : Prop :=
  let '(cd0, cd1, cd2) := ultBaseCooldowns c in
  match currentLevel c with
  | L1 => activeUltCooldown c = None
  | L6 => activeUltCooldown c = Some cd0
  | L11 => activeUltCooldown c = Some cd1
  | L16 => activeUltCooldown c = Some cd2
  end.

(** Two slots that agree on every field except the level and the derived
    active cooldown. *)
Definition sameExceptLevel (c c' : EnemyChampion) : Prop :=
  id c' = id c /\ name c' = name c /\
  ultBaseCooldowns c' = ultBaseCooldowns c /\
  abilityHaste c' = abilityHaste c /\
  ionianBoots c' = ionianBoots c /\ cosmicInsight c' = cosmicInsight c /\
  summonerHaste c' = summonerHaste c /\
  spell1Id c' = spell1Id c /\ spell2Id c' = spell2Id c /\
  spell1BaseCooldown c' = spell1BaseCooldown c /\
  spell2BaseCooldown c' = spell2BaseCooldown c.

(** Example data: the detail record of the interface's own example, Lux,
    whose ultimate (fourth spell) has the base cooldowns 80, 60, 40; and a
    detail record that lists no spell at all. *)
Definition luxDetail : ChampionDetail :=
  {| d_id := "Lux";
     d_name := "Lux";
     spells := [ {| cooldown := [10; 9.5; 9; 8.5; 8]%Q |};
                 {| cooldown := [14; 13; 12; 11; 10]%Q |};
                 {| cooldown := [10; 10; 10; 10; 10]%Q |};
                 {| cooldown := [80; 60; 40]%Q |} ] |}.

Definition bareDetail : ChampionDetail :=
  {| d_id := "Bare"; d_name := "Bare"; spells := [] |}.

(* ------------------------------------------------------------------------- *)
(** ** Further handlers and predicates                                       *)
(* ------------------------------------------------------------------------- *)

(** [handleUltLongPress] of the card: a long press clears the ultimate timer
    when it is running and does nothing otherwise. *)
Definition handleUltLongPress (index : Z) (now : Q)
    (s : TimerStoreState) : option TimerStoreState :=
  match arrayGet (enemies s) index with
  | None => None
  | Some champ =>
      if isRunning (ultEndTime champ) now then Some (clearUltTimer index s)
      else Some s
  end.

(** [handleSpell1LongPress] / [handleSpell2LongPress] of the card that drives
    the persisted store: a running timer is cleared; on an idle timer the
    spell picker is opened for the slot.  The second component is the
    argument of [setSpellPickerSlot] when it is called. *)
Definition handleSpellLongPress (spellSlot : SpellSlot) (index : Z) (now : Q)
    (s : TimerStoreState) : option (TimerStoreState * option SpellSlot) :=
  match arrayGet (enemies s) index with
  | None => None
  | Some champ =>
      if isRunning (spellEndTime spellSlot champ) now
      then Some (clearSpellTimer index spellSlot s, None)
      else Some (s, Some spellSlot)
  end.

(** The fields of [DataDragonSummonerSpellEntry] the picker reads. *)
Record SummonerSpellEntry : Type := mkSummonerSpellEntry {
  ss_id : string;
  ss_name : string;
  ss_cooldown : list Q;
  ss_modes : list string
}.

(** [handleSelect] of [SummonerSpellPicker]:
    [const cooldown = spell.cooldown[0] ?? 300;
     setSummonerSpell(index, slot, spell.id, cooldown)]. *)
Definition pickerHandleSelect (index : Z) (slot : SpellSlot)
    (spell : SummonerSpellEntry) (s : TimerStoreState) : TimerStoreState :=
  let cooldown := default 300%Q (ss_cooldown spell !! 0%nat) in
  setSummonerSpell index slot (ss_id spell) cooldown s.

(** A slot whose [summonerHaste] is the value derived from its two
    toggles. *)
Definition summonerConsistent (c : EnemyChampion) : Prop :=
  summonerHaste c = deriveSummonerHaste (ionianBoots c) (cosmicInsight c).

(** The actions other than [setChampion]. *)
Definition notSetChampion (a : Action) : Prop :=
  match a with ASetChampion _ _ => False | _ => True end.

(** The spell id and base cooldown selected by a computed key. *)
Definition spellId (spellSlot : SpellSlot) (c : EnemyChampion) : string :=
  match spellSlot with Slot1 => spell1Id c | Slot2 => spell2Id c end.

Definition otherSlot (spellSlot : SpellSlot) : SpellSlot :=
  match spellSlot with Slot1 => Slot2 | Slot2 => Slot1 end.

(** Iterating an action on one index. *)
Fixpoint iterate {A : Type} (n : nat) (f : A -> A) (x : A) : A :=
  match n with
  | O => x
  | S n' => f (iterate n' f x)
  end.

(** Running a sequence of actions of the in-memory store, and its slot
    consistency. *)
Fixpoint simplifiedRun (actions : list Simplified.Action)
    (s : Simplified.TimerStoreState) : Simplified.TimerStoreState :=
  match actions with
  | [] => s
  | a :: rest => simplifiedRun rest (Simplified.step a s)
  end.

Definition simplifiedSlotConsistent (c : Simplified.EnemyChampion) : Prop :=
  Simplified.activeUltCooldown c =
  deriveActiveUltCooldown (Simplified.currentLevel c) (Simplified.ultBaseCooldowns c).

(* ------------------------------------------------------------------------- *)
(** ** The polling of [useCountdown]                                         *)
(* ------------------------------------------------------------------------- *)

(** The mutable state one [useCountdown] call owns or affects: the
    [remaining] state variable, [intervalRef.current], the ids of the
    intervals that were set and not cleared (what [setInterval] and
    [clearInterval] act on), the next id [setInterval] returns, and whether
    the [AppState] listener is subscribed. *)
Record Countdown : Type := mkCountdown {
  remaining : Z;
  intervalRef : option nat;
  liveIntervals : list nat;
  nextIntervalId : nat;
  subscribed : bool
}.

(** The state at the first render: [useState(0)], [useRef(null)]. *)
Definition countdownInit : Countdown :=
  {| remaining := 0; intervalRef := None; liveIntervals := [];
     nextIntervalId := 0%nat; subscribed := false |}.

(** [intervalRef.current = setInterval(tick, ...)]. *)
Definition setIntervalRef (st : Countdown) : Countdown :=
  {| remaining := remaining st;
     intervalRef := Some (nextIntervalId st);
     liveIntervals := nextIntervalId st :: liveIntervals st;
     nextIntervalId := S (nextIntervalId st);
     subscribed := subscribed st |}.

(** [if (intervalRef.current !== null) {
       clearInterval(intervalRef.current); intervalRef.current = null; }]. *)
Definition clearIntervalRef (st : Countdown) : Countdown :=
  match intervalRef st with
  | None => st
  | Some h =>
      {| remaining := remaining st;
         intervalRef := None;
         liveIntervals := filter (fun k => k <> h) (liveIntervals st);
         nextIntervalId := nextIntervalId st;
         subscribed := subscribed st |}
  end.

Definition setRemaining (v : Z) (st : Countdown) : Countdown :=
  {| remaining := v; intervalRef := intervalRef st;
     liveIntervals := liveIntervals st; nextIntervalId := nextIntervalId st;
     subscribed := subscribed st |}.

Definition setSubscribed (b : bool) (st : Countdown) : Countdown :=
  {| remaining := remaining st; intervalRef := intervalRef st;
     liveIntervals := liveIntervals st; nextIntervalId := nextIntervalId st;
     subscribed := b |}.

(** The closure [tick] of an effect run for the end-time [endTime]. *)
Definition tick (endTime now : Q) (st : Countdown) : Countdown :=
  let diff := Z.max 0 (Qceiling ((endTime - now) / 1000)) in
  let st1 := setRemaining diff st in
  if diff =? 0 then clearIntervalRef st1 else st1.

(** The body of the effect, run for [endTime] at clock [now]: for [null] it
    sets [remaining] to 0 and registers no cleanup; otherwise it ticks once,
    sets the interval and subscribes the [AppState] listener. *)
Definition runEffect (endTime : option Q) (now : Q) (st : Countdown) : Countdown :=
  match endTime with
  | None => setRemaining 0 st
  | Some e => setSubscribed true (setIntervalRef (tick e now st))
  end.

(** The listener [handleAppState(nextState)]; [active] tells whether
    [nextState === "active"], [now1] is the clock of its [tick], [now2] the
    clock of its own test. *)
Definition handleAppState (endTime : Q) (active : bool) (now1 now2 : Q)
    (st : Countdown) : Countdown :=
  if active then
    let st1 := tick endTime now1 st in
    if Qgtb (endTime - now2) 0 && negb (bool_decide (is_Some (intervalRef st1)))
    then setIntervalRef st1 else st1
  else st.

(** The cleanup the effect returns. *)
Definition runCleanup (st : Countdown) : Countdown :=
  setSubscribed false (clearIntervalRef st).

(** What can happen to a mounted hook.  [phase] is the end-time of the effect
    whose cleanup is pending, if any. *)
Inductive HookEvent : Type :=
| EvEffect (endTime : option Q) (now : Q)
| EvIntervalFires (handle : nat) (now : Q)
| EvAppState (active : bool) (now1 now2 : Q)
| EvCleanup.

(** One event, when React and the timers can deliver it: an effect runs only
    when no cleanup is pending, an interval fires only while it is live, the
    listener is called only while subscribed, and the cleanup runs only when
    pending.  [None] marks an event that cannot happen in that state. *)
Definition hookStep (ev : HookEvent) (ps : option Q * Countdown)
    : option (option Q * Countdown) :=
  let '(phase, st) := ps in
  match ev, phase with
  | EvEffect endTime now, None => Some (endTime, runEffect endTime now st)
  | EvIntervalFires h now, Some e =>
      if bool_decide (h ∈ liveIntervals st) then Some (phase, tick e now st) else None
  | EvAppState active now1 now2, Some e =>
      if subscribed st then Some (phase, handleAppState e active now1 now2 st) else None
  | EvCleanup, Some _ => Some (None, runCleanup st)
  | _, _ => None
  end.

Fixpoint hookRun (evs : list HookEvent) (ps : option Q * Countdown)
    : option (option Q * Countdown) :=
  match evs with
  | [] => Some ps
  | ev :: rest =>
      match hookStep ev ps with
      | Some ps' => hookRun rest ps'
      | None => None
      end
  end.

(** No interval is live but the one [intervalRef] holds. *)
Definition noLeakedInterval (st : Countdown) : Prop :=
  liveIntervals st = match intervalRef st with Some h => [h] | None => [] end.

(** The invariant of a mounted hook: no interval leaks, and while no cleanup
    is pending there is no interval and no listener at all. *)
Definition hookInvariant (ps : option Q * Countdown) : Prop :=
  noLeakedInterval (snd ps) /\
  (fst ps = None -> intervalRef (snd ps) = None /\ subscribed (snd ps) = false) /\
  (is_Some (fst ps) -> subscribed (snd ps) = true) /\
  (0 <= remaining (snd ps))%Z.

(* ------------------------------------------------------------------------- *)
(** ** [TimerCircle]                                                         *)
(* ------------------------------------------------------------------------- *)

(** [n.toString()] and the template [${n}] for a non-negative integer (below
    the 10^21 from which JavaScript switches to exponent notation). *)
Definition numberToString (n : Z) : string :=
  DecimalString.NilEmpty.string_of_uint (Nat.to_uint (Z.to_nat n)).

(** [text.padStart(2, "0")]. *)
Definition padStart2 (text : string) : string :=
  match String.length text with
  | O => "00"
  | S O => String "0" text
  | _ => text
  end.

(** [formatTime(seconds)] on a whole number of seconds. *)
Definition formatTime (seconds : Z) : string :=
  if seconds <=? 0 then "0"%string
  else
    let m := seconds / 60 in
    let s := Z.rem seconds 60 in
    if m >? 0
    then (numberToString m ++ ":" ++ padStart2 (numberToString s))%string
    else numberToString s.



(* ------------------------------------------------------------------------- *)
(** ** [constants/dataDragon.ts]: URL builders                               *)
(* ------------------------------------------------------------------------- *)

Definition DDRAGON_BASE : string := "https://ddragon.leagueoflegends.com".

Definition getChampionListUrl (version : string) : string :=
  (DDRAGON_BASE ++ "/cdn/" ++ version ++ "/data/en_US/champion.json")%string.

Definition getChampionIconUrl (version championId : string) : string :=
  (DDRAGON_BASE ++ "/cdn/" ++ version ++ "/img/champion/" ++ championId ++ ".png")%string.

Definition getSummonerSpellListUrl (version : string) : string :=
  (DDRAGON_BASE ++ "/cdn/" ++ version ++ "/data/en_US/summoner.json")%string.

Definition getSummonerSpellIconUrl (version spellId : string) : string :=
  (DDRAGON_BASE ++ "/cdn/" ++ version ++ "/img/spell/" ++ spellId ++ ".png")%string.

Definition getAbilityIconUrl (version imageFullName : string) : string :=
  (DDRAGON_BASE ++ "/cdn/" ++ version ++ "/img/spell/" ++ imageFullName)%string.

Definition getChampionDetailUrl (version championId : string) : string :=
  (DDRAGON_BASE ++ "/cdn/" ++ version ++ "/data/en_US/champion/"
   ++ championId ++ ".json")%string.

(** The actions that change a setting of a slot and are not meant to touch
    its timers: the level toggle, the ability haste and the two summoner
    haste toggles. *)
Definition isSettingAction (a : Action) : Prop :=
  match a with
  | ACycleLevel _ | ASetAbilityHaste _ _ | AToggleIonianBoots _
  | AToggleCosmicInsight _ => True
  | _ => False
  end.

(** The partial update that names no field, and the one that names only the
    level. *)
Definition emptyPartial : PartialEnemyChampion :=
  mkPartialEnemyChampion None None None None None None None None
                         None None None None None None None None.

Definition levelPartial (l : ChampionLevel) : PartialEnemyChampion :=
  mkPartialEnemyChampion None None None None (Some l) None None None
                         None None None None None None None None.

(* ------------------------------------------------------------------------- *)
(** ** The formula in binary64                                               *)
(* ------------------------------------------------------------------------- *)

(** [calculateCooldown] as the engine evaluates it: the same expression on
    binary64 numbers, each operation rounded to nearest-even. *)
Definition calculateCooldown64 (base haste : float) : float :=
  (base / (1 + haste / 100))%float.


(** The value [startUltTimer] and [startSpellTimer] assign to the end-time,
    [Date.now() + effectiveCD * 1000], in binary64. *)
Definition endTime64 (now base haste : float) : float :=
  (now + calculateCooldown64 base haste * 1000)%float.





(* ------------------------------------------------------------------------- *)
(** ** Hydration by the persist middleware                                   *)
(* ------------------------------------------------------------------------- *)

(** What reading the storage gave: a failure, no stored item, or the stored
    payload. *)
Inductive StorageRead : Type :=
| ReadFailed
| ReadNothing
| ReadState (persisted : TimerStoreState).

(** The store states that follow one another during hydration, in the order
    the persist middleware of zustand (a dependency, not part of the
    repository) produces them: it sets the restored state in the store, and
    only then calls the callback of [onRehydrateStorage] with that state;
    the callback's own [setState] is a further update.  On a failed read the
    callback is called with the error and no state is set.  [s0] is the
    store before hydration. *)
Definition hydrate (read : StorageRead) (now : Q) (s0 : TimerStoreState)
    : list TimerStoreState :=
  match read with
  | ReadFailed => [onRehydrateStorage None true now s0]
  | ReadNothing => [s0; onRehydrateStorage (Some s0) false now s0]
  | ReadState st => [st; onRehydrateStorage (Some st) false now st]
  end.

(* ------------------------------------------------------------------------- *)
(** ** The cooldown formula                                                  *)
(* ------------------------------------------------------------------------- *)

Section Formula.

Local Open Scope Q_scope.





(** *** The formula in binary64 *)










End Formula.

(* ------------------------------------------------------------------------- *)
(** ** Indices and slot updates                                              *)
(* ------------------------------------------------------------------------- *)

Lemma validIndex_slot (i : Z) : slotIndex i -> validIndex i = Some i.
Proof.
  unfold slotIndex, validIndex. intros [Hlo Hhi].
  destruct (i <? 0) eqn:E1; [apply Z.ltb_lt in E1; lia |].
  destruct (i >? 4) eqn:E2; [| reflexivity].
  rewrite Z.gtb_ltb in E2. apply Z.ltb_lt in E2. lia.
Qed.

Lemma validIndex_outside (i : Z) : i < 0 \/ 4 < i -> validIndex i = None.
Proof.
  unfold validIndex. intros [H | H].
  - apply Z.ltb_lt in H. now rewrite H.
  - apply Z.ltb_lt in H. rewrite Z.gtb_ltb, H. now rewrite orb_true_r.
Qed.

Lemma validIndex_Some (index i : Z) :
  validIndex index = Some i -> i = index /\ slotIndex index.
Proof.
  unfold validIndex, slotIndex.
  destruct (index <? 0) eqn:E1; [discriminate |].
  destruct (index >? 4) eqn:E2; [discriminate |].
  intros [= <-]. apply Z.ltb_ge in E1.
  rewrite Z.gtb_ltb in E2. apply Z.ltb_ge in E2. lia.
Qed.

Lemma fiveSlots_lookup (s : TimerStoreState) (i : Z) :
  fiveSlots s -> slotIndex i -> exists c, enemies s !! Z.to_nat i = Some c.
Proof.
  unfold fiveSlots, slotIndex. intros Hlen Hi.
  apply lookup_lt_is_Some_2. lia.
Qed.

Lemma updateSlot_lookup (s : TimerStoreState) (i : Z) f c :
  enemies s !! Z.to_nat i = Some c ->
  enemies (updateSlot i f s) !! Z.to_nat i = Some (f c).
Proof.
  intros H. unfold updateSlot. rewrite H. simpl.
  apply list_lookup_insert_eq. eapply lookup_lt_Some, H.
Qed.

Lemma updateSlot_lookup_ne (s : TimerStoreState) (i : Z) f (j : nat) :
  j <> Z.to_nat i ->
  enemies (updateSlot i f s) !! j = enemies s !! j.
Proof.
  intros H. unfold updateSlot.
  destruct (enemies s !! Z.to_nat i); [| reflexivity].
  simpl. apply list_lookup_insert_ne. congruence.
Qed.

Lemma updateSlot_length (s : TimerStoreState) (i : Z) f :
  length (enemies (updateSlot i f s)) = length (enemies s).
Proof.
  unfold updateSlot. destruct (enemies s !! Z.to_nat i); [| reflexivity].
  simpl. apply length_insert.
Qed.

Lemma updateSlot_Forall (P : EnemyChampion -> Prop) (s : TimerStoreState) (i : Z) f :
  (forall c, P c -> P (f c)) ->
  Forall P (enemies s) -> Forall P (enemies (updateSlot i f s)).
Proof.
  intros Hf Hall. unfold updateSlot.
  destruct (enemies s !! Z.to_nat i) as [c |] eqn:E; [| assumption].
  simpl. apply Forall_insert; [assumption |].
  apply Hf. eapply Forall_lookup_1; eassumption.
Qed.

(** An update that rebuilds the slot it finds is the identity. *)
Lemma updateSlot_id (s : TimerStoreState) (i : Z) f :
  (forall c, enemies s !! Z.to_nat i = Some c -> f c = c) ->
  updateSlot i f s = s.
Proof.
  intros Hf. unfold updateSlot.
  destruct (enemies s !! Z.to_nat i) as [c |] eqn:E; [| reflexivity].
  rewrite (Hf c eq_refl). destruct s as [l]. simpl in *. f_equal.
  now apply list_insert_id.
Qed.

Lemma nextLevel_levelAfter (l : ChampionLevel) : nextLevel l = levelAfter l.
Proof. destruct l; reflexivity. Qed.

Lemma slotConsistent_activeMatchesLevel (c : EnemyChampion) :
  slotConsistent c <-> activeMatchesLevel c.
Proof.
  unfold slotConsistent, activeMatchesLevel, deriveActiveUltCooldown.
  destruct (ultBaseCooldowns c) as [[cd0 cd1] cd2].
  destruct (currentLevel c); simpl; tauto.
Qed.

(* ------------------------------------------------------------------------- *)
(** ** The level toggle                                                      *)
(* ------------------------------------------------------------------------- *)

(** C4: on a valid index, [cycleLevel] moves the slot's level one step along
    1 -> 6 -> 11 -> 16 -> 1 and recomputes [activeUltCooldown] for the new
    level; the three timer end-times of the slot, its other fields, and all
    the other slots stay as they were. *)
Theorem cycleLevel_advances_and_frames (s : TimerStoreState) (i : Z) :
  fiveSlots s -> slotIndex i ->
  exists c c',
    enemies s !! Z.to_nat i = Some c /\
    enemies (cycleLevel i s) !! Z.to_nat i = Some c' /\
    currentLevel c' = levelAfter (currentLevel c) /\
    activeUltCooldown c' =
      deriveActiveUltCooldown (levelAfter (currentLevel c)) (ultBaseCooldowns c) /\
    activeMatchesLevel c' /\
    ultEndTime c' = ultEndTime c /\
    spell1EndTime c' = spell1EndTime c /\
    spell2EndTime c' = spell2EndTime c /\
    sameExceptLevel c c' /\
    (forall j : nat, j <> Z.to_nat i ->
       enemies (cycleLevel i s) !! j = enemies s !! j) /\
    length (enemies (cycleLevel i s)) = length (enemies s).
Proof.
  intros Hfive Hi.
  destruct (fiveSlots_lookup s i Hfive Hi) as [c Hc].
  unfold cycleLevel. rewrite (validIndex_slot i Hi).
  eexists c, _. split; [exact Hc |].
  split; [apply updateSlot_lookup; exact Hc |].
  simpl. rewrite nextLevel_levelAfter.
  split; [reflexivity |]. split; [reflexivity |].
  split.
  { apply slotConsistent_activeMatchesLevel. reflexivity. }
  do 3 (split; [reflexivity |]).
  split; [repeat split |].
  split; [| apply updateSlot_length].
  intros j Hj. now apply updateSlot_lookup_ne.
Qed.

(** The theorem at slot 2 of a store whose slot 2 holds a champion with a
    running ultimate timer. *)
Lemma cycleLevel_advances_and_frames_witness :
  let s := startUltTimer 2 1000
             (setChampionData 2
                {| d_id := "Lux"; d_name := "Lux";
                   spells := replicate 4 {| cooldown := [80; 60; 40]%Q |} |}
                initialState) in
  fiveSlots s /\ slotIndex 2 /\
  exists c c',
    enemies s !! 2%nat = Some c /\
    enemies (cycleLevel 2 s) !! 2%nat = Some c' /\
    currentLevel c = L6 /\ currentLevel c' = L11 /\
    ultEndTime c' = ultEndTime c.
Proof.
  intros s.
  assert (Hfive : fiveSlots s) by reflexivity.
  assert (Hi : slotIndex 2) by (unfold slotIndex; lia).
  split; [exact Hfive |]. split; [exact Hi |].
  destruct (cycleLevel_advances_and_frames s 2 Hfive Hi)
    as (c & c' & Hc & Hc' & Hlvl & _ & _ & Hult & _).
  exists c, c'. split; [exact Hc |]. split; [exact Hc' |].
  assert (Hl : currentLevel c = L6).
  { vm_compute in Hc. injection Hc as <-. reflexivity. }
  split; [exact Hl |]. split; [| exact Hult].
  rewrite Hlvl, Hl. reflexivity.
Defined.

(* ------------------------------------------------------------------------- *)
(** ** Assigning a champion                                                  *)
(* ------------------------------------------------------------------------- *)

(** C6: on a valid index, [setChampionData] replaces the slot by one built
    from the detail record alone: the three ultimate base cooldowns are
    [detail.spells[3].cooldown[0..2]] with 0 for every missing entry, the
    level is 6, the three timers are inactive, [activeUltCooldown] is the
    first base cooldown, the remaining fields are those of the empty
    champion; every other slot is unchanged. *)
Theorem setChampionData_replaces_slot
    (s : TimerStoreState) (i : Z) (detail : ChampionDetail) :
  fiveSlots s -> slotIndex i ->
  let ultEntry (k : nat) : Q :=
    match spells detail !! 3%nat with
    | Some ultSpell => default 0%Q (cooldown ultSpell !! k)
    | None => 0%Q
    end in
  exists c',
    enemies (setChampionData i detail s) = <[Z.to_nat i := c']> (enemies s) /\
    enemies (setChampionData i detail s) !! Z.to_nat i = Some c' /\
    ultBaseCooldowns c' = (ultEntry 0%nat, ultEntry 1%nat, ultEntry 2%nat) /\
    currentLevel c' = L6 /\
    ultEndTime c' = None /\ spell1EndTime c' = None /\ spell2EndTime c' = None /\
    activeUltCooldown c' = Some (ultEntry 0%nat) /\
    id c' = d_id detail /\ name c' = d_name detail /\
    abilityHaste c' = 0%Q /\
    ionianBoots c' = false /\ cosmicInsight c' = false /\
    summonerHaste c' = 0%Q /\
    spell1Id c' = "SummonerFlash"%string /\
    spell2Id c' = "SummonerFlash"%string /\
    spell1BaseCooldown c' = 300%Q /\ spell2BaseCooldown c' = 300%Q /\
    (forall j : nat, j <> Z.to_nat i ->
       enemies (setChampionData i detail s) !! j = enemies s !! j).
Proof.
  intros Hfive Hi ultEntry.
  destruct (fiveSlots_lookup s i Hfive Hi) as [c Hc].
  exists (championFromDetail detail).
  unfold setChampionData. rewrite (validIndex_slot i Hi).
  split; [unfold updateSlot; now rewrite Hc |].
  split; [now rewrite (updateSlot_lookup s i _ c Hc) |].
  assert (Hubc : ultBaseCooldowns (championFromDetail detail)
                 = (ultEntry 0%nat, ultEntry 1%nat, ultEntry 2%nat)).
  { unfold championFromDetail, extractUltBaseCooldowns, cooldownAt, ultEntry. simpl.
    destruct (spells detail !! 3%nat) as [ultSpell |]; reflexivity. }
  split; [exact Hubc |].
  do 4 (split; [reflexivity |]).
  split.
  { change (activeUltCooldown (championFromDetail detail))
      with (Some (tupleGet (ultBaseCooldowns (championFromDetail detail)) 0)).
    now rewrite Hubc. }
  do 10 (split; [reflexivity |]).
  intros j Hj. now apply updateSlot_lookup_ne.
Qed.

(** The theorem at slot 0 of the initial store with Lux's detail record,
    whose fourth spell has the cooldowns 80, 60, 40. *)
Lemma setChampionData_replaces_slot_witness :
  let detail := {| d_id := "Lux"; d_name := "Lux";
                   spells := [ {| cooldown := [10; 9; 8]%Q |};
                               {| cooldown := [14; 13; 12]%Q |};
                               {| cooldown := [10; 10; 10]%Q |};
                               {| cooldown := [80; 60; 40]%Q |} ] |} in
  fiveSlots initialState /\ slotIndex 0 /\
  exists c',
    enemies (setChampionData 0 detail initialState) !! 0%nat = Some c' /\
    ultBaseCooldowns c' = (80, 60, 40)%Q /\
    currentLevel c' = L6 /\
    activeUltCooldown c' = Some 80%Q.
Proof.
  intros detail.
  assert (Hfive : fiveSlots initialState) by reflexivity.
  assert (Hi : slotIndex 0) by (unfold slotIndex; lia).
  split; [exact Hfive |]. split; [exact Hi |].
  destruct (setChampionData_replaces_slot initialState 0 detail Hfive Hi)
    as (c' & _ & Hc' & Hcd & Hlvl & _ & _ & _ & Hact & _).
  exists c'. split; [exact Hc' |].
  split; [exact Hcd |]. split; [exact Hlvl | exact Hact].
Defined.

(* ------------------------------------------------------------------------- *)
(** ** Out-of-range indices                                                  *)
(* ------------------------------------------------------------------------- *)

(** Unfolds whichever store action heads the goal. *)
Ltac unfold_action :=
  unfold setChampion, setChampionData, clearChampion, cycleLevel,
    setAbilityHaste, toggleIonianBoots, toggleCosmicInsight, setSummonerSpell,
    startUltTimer, startSpellTimer, clearUltTimer, clearSpellTimer, resetAll.

Ltac unfold_simplified_action :=
  unfold Simplified.setChampion, Simplified.clearChampion,
    Simplified.cycleLevel, Simplified.setAbilityHaste,
    Simplified.startUltTimer, Simplified.startSpellTimer,
    Simplified.clearUltTimer, Simplified.clearSpellTimer, Simplified.resetAll.

(** C7: every action that takes a slot index returns the store unchanged
    (and, being a total function, raises nothing) when the index is below 0
    or above 4; this holds in the persisted store and in the in-memory
    variant. *)
Theorem invalid_index_is_noop (i : Z) :
  i < 0 \/ 4 < i ->
  (forall (a : Action) (s : TimerStoreState),
      actionIndex a = Some i -> step a s = s) /\
  (forall (a : Simplified.Action) (s : Simplified.TimerStoreState),
      Simplified.actionIndex a = Some i -> Simplified.step a s = s).
Proof.
  intros Hout. pose proof (validIndex_outside i Hout) as Hv.
  split.
  - intros a s Ha.
    destruct a; simpl in Ha; try discriminate; injection Ha as ->; simpl;
      unfold_action; now rewrite Hv.
  - intros a s Ha.
    destruct a; simpl in Ha; try discriminate; injection Ha as ->; simpl;
      unfold_simplified_action; now rewrite Hv.
Qed.

(** The theorem at index 5 and at index -1, on a store with a champion in
    slot 0. *)
Lemma invalid_index_is_noop_witness :
  let s := setChampionData 0
             {| d_id := "Lux"; d_name := "Lux";
                spells := replicate 4 {| cooldown := [80; 60; 40]%Q |} |}
             initialState in
  (4 < 5) /\ (-1 < 0) /\
  cycleLevel 5 s = s /\
  startUltTimer (-1) 1000 s = s /\
  Simplified.startSpellTimer 5 Slot1 300 1000 Simplified.initialState
    = Simplified.initialState.
Proof.
  intros s.
  split; [lia |]. split; [lia |].
  destruct (invalid_index_is_noop 5 ltac:(right; lia)) as [H5 H5'].
  destruct (invalid_index_is_noop (-1) ltac:(left; lia)) as [Hm _].
  split; [exact (H5 (ACycleLevel 5) s eq_refl) |].
  split; [exact (Hm (AStartUltTimer (-1) 1000) s eq_refl) |].
  exact (H5' (Simplified.AStartSpellTimer 5 Slot1 300 1000)
             Simplified.initialState eq_refl).
Defined.

(* ------------------------------------------------------------------------- *)
(** ** The derived active cooldown                                           *)
(* ------------------------------------------------------------------------- *)

Lemma emptyEnemies_consistent : Forall slotConsistent emptyEnemies.
Proof. repeat constructor. Qed.

Lemma step_preserves_consistent (a : Action) (s : TimerStoreState) :
  Forall slotConsistent (enemies s) -> Forall slotConsistent (enemies (step a s)).
Proof.
  intros Hall.
  destruct a; simpl; unfold_action; [.. | apply emptyEnemies_consistent];
    (destruct (validIndex index) as [k |]; [| assumption]);
    try (destruct (enemies s !! Z.to_nat k) as [champ |]; [| assumption]);
    try (destruct (activeUltCooldown champ); [| assumption]);
    try (destruct (Qle_bool _ _); [assumption |]);
    (apply updateSlot_Forall; [| assumption]); intros c Hc;
    try destruct slot; try destruct spellSlot;
    first [exact Hc | reflexivity].
Qed.

Lemma run_preserves_consistent (actions : list Action) (s : TimerStoreState) :
  Forall slotConsistent (enemies s) ->
  Forall slotConsistent (enemies (run actions s)).
Proof.
  revert s. induction actions as [| a rest IH]; intros s Hs; simpl.
  - exact Hs.
  - apply IH, step_preserves_consistent, Hs.
Qed.

Lemma step_preserves_fiveSlots (a : Action) (s : TimerStoreState) :
  fiveSlots s -> fiveSlots (step a s).
Proof.
  unfold fiveSlots. intros Hs.
  destruct a; simpl; unfold_action; [.. | reflexivity];
    destruct (validIndex index); try assumption;
    try (destruct (enemies s !! Z.to_nat z) as [champ |]; [| assumption]);
    try (destruct (activeUltCooldown champ); [| assumption]);
    try (destruct (Qle_bool _ _); [assumption |]);
    now rewrite updateSlot_length.
Qed.

Lemma run_preserves_fiveSlots (actions : list Action) (s : TimerStoreState) :
  fiveSlots s -> fiveSlots (run actions s).
Proof.
  revert s. induction actions as [| a rest IH]; intros s Hs; simpl.
  - exact Hs.
  - apply IH, step_preserves_fiveSlots, Hs.
Qed.

(** C5: in every store state reached from the initial state by a sequence of
    store actions there are five slots, and in each of them
    [activeUltCooldown] is [null] at level 1 and the base cooldown of the
    level's rank otherwise (6 -> entry 0, 11 -> entry 1, 16 -> entry 2), that
    is, the value [deriveActiveUltCooldown] gives for the slot's level and
    base cooldowns. *)
Theorem activeUltCooldown_always_derived (actions : list Action) :
  fiveSlots (run actions initialState) /\
  Forall (fun c => slotConsistent c /\ activeMatchesLevel c)
         (enemies (run actions initialState)).
Proof.
  split.
  - apply run_preserves_fiveSlots. reflexivity.
  - eapply Forall_impl.
    + apply run_preserves_consistent. apply emptyEnemies_consistent.
    + intros c Hc. split; [exact Hc |].
      now apply slotConsistent_activeMatchesLevel.
Qed.

(* ------------------------------------------------------------------------- *)
(** ** Rehydration                                                           *)
(* ------------------------------------------------------------------------- *)

Section Rehydration.

Local Open Scope Q_scope.

Lemma Qgtb_true (a b : Q) : Qgtb a b = true <-> b < a.
Proof.
  unfold Qgtb. rewrite negb_true_iff. split.
  - intros H. apply Qnot_le_lt. intros Hle.
    apply Qle_bool_iff in Hle. congruence.
  - intros H. destruct (Qle_bool a b) eqn:E; [| reflexivity].
    apply Qle_bool_iff in E. lra.
Qed.

Lemma Qgtb_false (a b : Q) : Qgtb a b = false <-> a <= b.
Proof.
  unfold Qgtb. rewrite negb_false_iff. apply Qle_bool_iff.
Qed.

Lemma truthy_nonzero (a : Q) : ~ a == 0 -> truthy a = true.
Proof.
  intros H. unfold truthy. apply negb_true_iff.
  destruct (Qeq_bool a 0) eqn:E; [| reflexivity].
  apply Qeq_bool_iff in E. contradiction.
Qed.

Lemma keepIfFuture_expired (now e : Q) : e <= now -> keepIfFuture now (Some e) = None.
Proof.
  intros H. unfold keepIfFuture.
  apply Qgtb_false in H. rewrite H. now rewrite andb_false_r.
Qed.

Lemma keepIfFuture_future (now e : Q) :
  0 <= now -> now < e -> keepIfFuture now (Some e) = Some e.
Proof.
  intros H0 H. unfold keepIfFuture.
  rewrite truthy_nonzero by lra.
  apply Qgtb_true in H. now rewrite H.
Qed.

Lemma remainingSeconds_nonneg (endTime : option Q) (now : Q) :
  (0 <= remainingSeconds endTime now)%Z.
Proof. destruct endTime; simpl; lia. Qed.

Lemma cleanChampion_timer (now : Q) (f : TimerField) (c : EnemyChampion) :
  timerEndTime f (cleanChampion now c) = keepIfFuture now (timerEndTime f c).
Proof. destruct f; reflexivity. Qed.

(** The callback maps every restored slot to a slot in which each of the
    three timer end-times that was at or before the clock reading is [null],
    and keeps an end-time strictly after the clock reading as it is.  The
    clock reading is a [Date.now()] value, milliseconds since the epoch,
    hence not negative. *)
Lemma onRehydrateStorage_cleans_slot
    (st s0 : TimerStoreState) (now : Q) (j : nat) (c : EnemyChampion) :
  0 <= now ->
  enemies st !! j = Some c ->
  exists c',
    enemies (onRehydrateStorage (Some st) false now s0) !! j = Some c' /\
    sameExceptLevel c c' /\
    currentLevel c' = currentLevel c /\
    activeUltCooldown c' = activeUltCooldown c /\
    forall f : TimerField,
      (forall e, timerEndTime f c = Some e -> e <= now ->
         timerEndTime f c' = None /\
         forall later, remainingSeconds (timerEndTime f c') later = 0%Z) /\
      (forall e, timerEndTime f c = Some e -> now < e ->
         timerEndTime f c' = Some e) /\
      (timerEndTime f c = None -> timerEndTime f c' = None) /\
      (forall later, (0 <= remainingSeconds (timerEndTime f c') later)%Z).
Proof.
  intros Hnow Hc.
  exists (cleanChampion now c).
  split.
  { simpl. rewrite list_lookup_fmap, Hc. reflexivity. }
  split; [repeat split |].
  split; [reflexivity |]. split; [reflexivity |].
  intros f. rewrite cleanChampion_timer.
  split; [| split; [| split]].
  - intros e He Hle. rewrite He, (keepIfFuture_expired now e Hle).
    split; reflexivity.
  - intros e He Hlt. rewrite He. now apply keepIfFuture_future.
  - intros He. now rewrite He.
  - intros later. apply remainingSeconds_nonneg.
Qed.

End Rehydration.

(* ------------------------------------------------------------------------- *)
(** ** Starting a timer                                                      *)
(* ------------------------------------------------------------------------- *)

Section Starting.

Local Open Scope Q_scope.

Lemma arrayGet_slot {A : Type} (l : list A) (i : Z) :
  slotIndex i -> arrayGet l i = l !! Z.to_nat i.
Proof.
  unfold slotIndex, arrayGet. intros [Hlo _].
  destruct (i <? 0)%Z eqn:E; [apply Z.ltb_lt in E; lia | reflexivity].
Qed.

Lemma isRunning_true (endTime : option Q) (now e : Q) :
  endTime = Some e -> now < e -> isRunning endTime now = true.
Proof. intros -> H. simpl. now apply Qgtb_true. Qed.

Lemma updateSlot_twice (s : TimerStoreState) (i : Z) f :
  (forall c, f (f c) = f c) ->
  updateSlot i f (updateSlot i f s) = updateSlot i f s.
Proof.
  intros Hf. apply updateSlot_id. intros c' Hc'.
  destruct (enemies s !! Z.to_nat i) as [c |] eqn:E.
  - rewrite (updateSlot_lookup s i f c E) in Hc'. injection Hc' as <-. apply Hf.
  - unfold updateSlot in Hc'. rewrite E in Hc'. congruence.
Qed.

Lemma startUltTimer_same_clock (i : Z) (now : Q) (s : TimerStoreState) :
  startUltTimer i now (startUltTimer i now s) = startUltTimer i now s.
Proof.
  unfold startUltTimer at 2 3.
  destruct (validIndex i) as [k |] eqn:Hv.
  2: { unfold startUltTimer. now rewrite Hv. }
  destruct (enemies s !! Z.to_nat k) as [c |] eqn:Hc.
  2: { unfold startUltTimer. now rewrite Hv, Hc. }
  destruct (activeUltCooldown c) as [active |] eqn:Ha.
  2: { unfold startUltTimer. now rewrite Hv, Hc, Ha. }
  cbv zeta. unfold startUltTimer. rewrite Hv.
  rewrite (updateSlot_lookup s k _ c Hc). simpl. rewrite Ha.
  apply updateSlot_twice. reflexivity.
Qed.

Lemma startSpellTimer_same_clock (i : Z) (slot : SpellSlot) (now : Q)
    (s : TimerStoreState) :
  startSpellTimer i slot now (startSpellTimer i slot now s)
  = startSpellTimer i slot now s.
Proof.
  unfold startSpellTimer at 2 3.
  destruct (validIndex i) as [k |] eqn:Hv.
  2: { unfold startSpellTimer. now rewrite Hv. }
  destruct (enemies s !! Z.to_nat k) as [c |] eqn:Hc.
  2: { unfold startSpellTimer. now rewrite Hv, Hc. }
  cbv zeta.
  destruct (Qle_bool (spellBaseCooldown slot c) 0) eqn:Hb.
  { unfold startSpellTimer. now rewrite Hv, Hc, Hb. }
  unfold startSpellTimer. rewrite Hv.
  rewrite (updateSlot_lookup s k _ c Hc). cbv zeta.
  assert (Hbase : spellBaseCooldown slot
            (with_spellEndTime slot
               (Some (now + calculateCooldown (spellBaseCooldown slot c)
                                 (summonerHaste c) * 1000)) c)
          = spellBaseCooldown slot c) by (destruct slot; reflexivity).
  rewrite Hbase, Hb.
  assert (Hh : summonerHaste
            (with_spellEndTime slot
               (Some (now + calculateCooldown (spellBaseCooldown slot c)
                                 (summonerHaste c) * 1000)) c)
          = summonerHaste c) by (destruct slot; reflexivity).
  rewrite Hh.
  apply updateSlot_twice. intros c0. destruct slot; reflexivity.
Qed.

(** C1, as the code has it: the running-timer guard is in the press handlers
    of the card, which return without touching the store when the timer's
    end-time is set and after the clock reading; the store's start actions
    have no such guard: whatever the current end-time, [startUltTimer] (active
    cooldown not null) and [startSpellTimer] (stored base cooldown positive)
    write [now + effective * 1000], so that a second start at the same clock
    reading writes the same end-time and leaves the store as the first start
    left it. *)
Theorem running_timer_guard_is_in_press_handlers
    (s : TimerStoreState) (i : Z) (c : EnemyChampion) :
  slotIndex i ->
  enemies s !! Z.to_nat i = Some c ->
  (forall nowGuard nowStart e,
      ultEndTime c = Some e -> nowGuard < e ->
      handleUltPress i nowGuard nowStart s = Some s) /\
  (forall slot nowGuard nowStart e,
      spellEndTime slot c = Some e -> nowGuard < e ->
      handleSpellPress slot i nowGuard nowStart s = Some s) /\
  (forall now,
      startUltTimer i now (startUltTimer i now s) = startUltTimer i now s) /\
  (forall slot now,
      startSpellTimer i slot now (startSpellTimer i slot now s)
      = startSpellTimer i slot now s) /\
  (forall now active,
      activeUltCooldown c = Some active ->
      enemies (startUltTimer i now s) !! Z.to_nat i
      = Some (with_ultEndTime
                (Some (now + calculateCooldown active (abilityHaste c) * 1000)) c)) /\
  (forall slot now,
      0 < spellBaseCooldown slot c ->
      enemies (startSpellTimer i slot now s) !! Z.to_nat i
      = Some (with_spellEndTime slot
                (Some (now + calculateCooldown (spellBaseCooldown slot c)
                                 (summonerHaste c) * 1000)) c)).
Proof.
  intros Hi Hc. repeat split.
  - intros nowGuard nowStart e He Hlt. unfold handleUltPress.
    rewrite (arrayGet_slot _ i Hi), Hc.
    destruct (activeUltCooldown c); [| reflexivity].
    now rewrite (isRunning_true _ _ _ He Hlt).
  - intros slot nowGuard nowStart e He Hlt. unfold handleSpellPress.
    rewrite (arrayGet_slot _ i Hi), Hc.
    now rewrite (isRunning_true _ _ _ He Hlt).
  - intros now. apply startUltTimer_same_clock.
  - intros slot now. apply startSpellTimer_same_clock.
  - intros now active Ha. unfold startUltTimer.
    rewrite (validIndex_slot i Hi), Hc, Ha. cbv zeta.
    now apply updateSlot_lookup.
  - intros slot now Hbase. unfold startSpellTimer.
    rewrite (validIndex_slot i Hi), Hc. cbv zeta.
    assert (Hb : Qle_bool (spellBaseCooldown slot c) 0 = false).
    { destruct (Qle_bool (spellBaseCooldown slot c) 0) eqn:E; [| reflexivity].
      apply Qle_bool_iff in E. lra. }
    rewrite Hb. now apply updateSlot_lookup.
Qed.

(** The theorem at slot 0 holding Lux at level 6 with the ultimate timer
    started at clock 1000: a press at clock 2000 changes nothing. *)
Lemma running_timer_guard_is_in_press_handlers_witness :
  let s := startUltTimer 0 1000 (setChampionData 0 luxDetail initialState) in
  slotIndex 0 /\
  exists c e,
    enemies s !! 0%nat = Some c /\
    ultEndTime c = Some e /\ 2000 < e /\
    handleUltPress 0 2000 2001 s = Some s.
Proof.
  intros s.
  assert (Hi : slotIndex 0) by (unfold slotIndex; lia).
  split; [exact Hi |].
  destruct (enemies s !! 0%nat) as [c |] eqn:Hc; [| discriminate Hc].
  destruct (ultEndTime c) as [e |] eqn:He.
  2: { vm_compute in Hc. injection Hc as <-. discriminate He. }
  assert (Hlt : 2000 < e).
  { vm_compute in Hc. injection Hc as <-. injection He as <-. reflexivity. }
  exists c, e. split; [reflexivity |]. split; [exact He |]. split; [exact Hlt |].
  destruct (running_timer_guard_is_in_press_handlers s 0 c Hi Hc) as (Hult & _).
  exact (Hult 2000 2001 e He Hlt).
Defined.

(** C1 as stated fails on the store: with Lux in slot 0 and the ultimate
    timer started at clock 1000 (end-time 81000, so running at clock 2000),
    [startUltTimer] at clock 2000 moves the end-time to 82000; likewise the
    first summoner-spell timer of the empty slot 1 goes from 301000 to
    302000. *)
Lemma start_on_running_timer_restarts_it :
  let s1 := startSpellTimer 1 Slot1 1000
              (startUltTimer 0 1000 (setChampionData 0 luxDetail initialState)) in
  (exists c1 e1 c2 e2,
      enemies s1 !! 0%nat = Some c1 /\ ultEndTime c1 = Some e1 /\
      e1 == 81000 /\ 2000 < e1 /\
      enemies (startUltTimer 0 2000 s1) !! 0%nat = Some c2 /\
      ultEndTime c2 = Some e2 /\ e2 == 82000 /\ ~ e2 == e1) /\
  (exists c1 e1 c2 e2,
      enemies s1 !! 1%nat = Some c1 /\ spell1EndTime c1 = Some e1 /\
      e1 == 301000 /\ 2000 < e1 /\
      enemies (startSpellTimer 1 Slot1 2000 s1) !! 1%nat = Some c2 /\
      spell1EndTime c2 = Some e2 /\ e2 == 302000 /\ ~ e2 == e1) /\
  startUltTimer 0 2000 s1 <> s1 /\
  startSpellTimer 1 Slot1 2000 s1 <> s1.
Proof.
  intros s1. split; [| split; [| split]].
  - eexists _, _, _, _.
    split; [vm_compute; reflexivity |]. split; [reflexivity |].
    split; [reflexivity |]. split; [reflexivity |].
    split; [vm_compute; reflexivity |]. split; [reflexivity |].
    split; [reflexivity |]. discriminate.
  - eexists _, _, _, _.
    split; [vm_compute; reflexivity |]. split; [reflexivity |].
    split; [reflexivity |]. split; [reflexivity |].
    split; [vm_compute; reflexivity |]. split; [reflexivity |].
    split; [reflexivity |]. discriminate.
  - vm_compute. discriminate.
  - vm_compute. discriminate.
Qed.

End Starting.

(* ------------------------------------------------------------------------- *)
(** ** Ability haste                                                         *)
(* ------------------------------------------------------------------------- *)

Section Haste.

Local Open Scope Q_scope.

Lemma clampHaste_spec (parsed : option Z) :
  (0 <= clampHaste parsed)%Z /\
  match parsed with
  | None => clampHaste parsed = 0%Z
  | Some p => ((0 <= p)%Z -> clampHaste parsed = p) /\
              ((p < 0)%Z -> clampHaste parsed = 0%Z)
  end.
Proof. destruct parsed as [p |]; simpl; lia. Qed.

Lemma inject_Z_nonneg (n : Z) : (0 <= n)%Z -> 0 <= inject_Z n.
Proof. intros H. unfold Qle. simpl. lia. Qed.

(** C8, as the code has it: [setAbilityHaste] stores the value it is given,
    whatever its sign; the clamp is in the card's [handleHasteChange], which
    stores [max(0, parsed)] for a text [parseInt] reads as an integer and 0
    for a text it does not, so the haste written through the handler is a
    non-negative integer. *)
Theorem haste_is_clamped_by_the_handler (s : TimerStoreState) (i : Z) :
  fiveSlots s -> slotIndex i ->
  (forall v : Q,
      exists c c',
        enemies s !! Z.to_nat i = Some c /\
        enemies (setAbilityHaste i v s) !! Z.to_nat i = Some c' /\
        c' = with_abilityHaste v c /\ abilityHaste c' = v) /\
  (forall text : string,
      exists c c' (n : Z),
        enemies s !! Z.to_nat i = Some c /\
        enemies (handleHasteChange i text s) !! Z.to_nat i = Some c' /\
        c' = with_abilityHaste (inject_Z n) c /\
        abilityHaste c' = inject_Z n /\
        (0 <= n)%Z /\ 0 <= abilityHaste c' /\
        match parseInt text with
        | None => n = 0%Z
        | Some p => ((0 <= p)%Z -> n = p) /\ ((p < 0)%Z -> n = 0%Z)
        end).
Proof.
  intros Hfive Hi.
  destruct (fiveSlots_lookup s i Hfive Hi) as [c Hc].
  split.
  - intros v. exists c, (with_abilityHaste v c).
    split; [exact Hc |].
    unfold setAbilityHaste. rewrite (validIndex_slot i Hi).
    split; [now apply updateSlot_lookup |]. split; reflexivity.
  - intros text.
    destruct (clampHaste_spec (parseInt text)) as [Hn Hcases].
    exists c, (with_abilityHaste (inject_Z (clampHaste (parseInt text))) c),
      (clampHaste (parseInt text)).
    split; [exact Hc |].
    unfold handleHasteChange, setAbilityHaste. rewrite (validIndex_slot i Hi).
    split; [now apply updateSlot_lookup |].
    split; [reflexivity |]. split; [reflexivity |].
    split; [exact Hn |]. split; [now apply inject_Z_nonneg | exact Hcases].
Qed.

(** The theorem at slot 3 of the initial store, for the texts "45", "-7"
    and "abc". *)
Lemma haste_is_clamped_by_the_handler_witness :
  fiveSlots initialState /\ slotIndex 3 /\
  (exists c', enemies (handleHasteChange 3 "45" initialState) !! 3%nat = Some c' /\
              abilityHaste c' = 45) /\
  (exists c', enemies (handleHasteChange 3 "-7" initialState) !! 3%nat = Some c' /\
              abilityHaste c' = 0) /\
  (exists c', enemies (handleHasteChange 3 "abc" initialState) !! 3%nat = Some c' /\
              abilityHaste c' = 0).
Proof.
  assert (Hfive : fiveSlots initialState) by reflexivity.
  assert (Hi : slotIndex 3) by (unfold slotIndex; lia).
  split; [exact Hfive |]. split; [exact Hi |].
  destruct (haste_is_clamped_by_the_handler initialState 3 Hfive Hi) as [_ H].
  split; [| split].
  - destruct (H "45"%string) as (c & c' & n & _ & Hc' & _ & Hn & _ & _ & Hcase).
    exists c'. split; [exact Hc' |].
    change (parseInt "45") with (Some 45%Z) in Hcase. destruct Hcase as [Hpos _].
    rewrite Hn, (Hpos ltac:(lia)). reflexivity.
  - destruct (H "-7"%string) as (c & c' & n & _ & Hc' & _ & Hn & _ & _ & Hcase).
    exists c'. split; [exact Hc' |].
    change (parseInt "-7") with (Some (-7)%Z) in Hcase. destruct Hcase as [_ Hneg].
    rewrite Hn, (Hneg ltac:(lia)). reflexivity.
  - destruct (H "abc"%string) as (c & c' & n & _ & Hc' & _ & Hn & _ & _ & Hcase).
    exists c'. split; [exact Hc' |].
    change (parseInt "abc") with (@None Z) in Hcase. rewrite Hn, Hcase. reflexivity.
Defined.

(** C8 as stated fails on the store: [setAbilityHaste(0, -5)] on the initial
    store leaves slot 0 with the ability haste -5, which is negative and is
    not 0. *)
Lemma setAbilityHaste_stores_negative_haste :
  exists c',
    enemies (setAbilityHaste 0 (-5) initialState) !! 0%nat = Some c' /\
    abilityHaste c' == -5 /\
    abilityHaste c' < 0 /\
    ~ abilityHaste c' == 0.
Proof.
  eexists. split; [vm_compute; reflexivity |].
  split; [reflexivity |]. split; [reflexivity | discriminate].
Qed.

End Haste.

(* ------------------------------------------------------------------------- *)
(** ** Timers of zero length                                                 *)
(* ------------------------------------------------------------------------- *)

Section ZeroLength.

Local Open Scope Q_scope.




(** C10: [startUltTimer] refuses only when [activeUltCooldown] is [null]; for
    every other value it writes [now + effective * 1000].  A slot filled by
    [setChampionData] from a detail record without a fourth spell has level 6
    and the active cooldown 0; on a slot whose active cooldown is 0 (and
    whose haste is not -100, where the source divides by zero)
    [startUltTimer] writes an end-time equal to the clock reading, a timer
    whose countdown is 0 from the start. *)
Theorem startUltTimer_accepts_zero_cooldown (i : Z) :
  slotIndex i ->
  (forall (s : TimerStoreState) (detail : ChampionDetail),
      fiveSlots s -> spells detail !! 3%nat = None ->
      exists c,
        enemies (setChampionData i detail s) !! Z.to_nat i = Some c /\
        currentLevel c = L6 /\ activeUltCooldown c = Some 0) /\
  (forall (s : TimerStoreState) (c : EnemyChampion) (now active : Q),
      enemies s !! Z.to_nat i = Some c ->
      activeUltCooldown c = Some active ->
      exists e,
        enemies (startUltTimer i now s) !! Z.to_nat i
          = Some (with_ultEndTime (Some e) c) /\
        e = now + calculateCooldown active (abilityHaste c) * 1000 /\
        (active == 0 -> ~ 1 + abilityHaste c / 100 == 0 ->
         e == now + 0 /\
         forall later, now <= later -> remainingSeconds (Some e) later = 0%Z)) /\
  (forall (s : TimerStoreState) (c : EnemyChampion) (now : Q),
      enemies s !! Z.to_nat i = Some c ->
      activeUltCooldown c = None ->
      startUltTimer i now s = s).
Proof.
  intros Hi. split; [| split].
  - intros s detail Hfive Hnone.
    destruct (fiveSlots_lookup s i Hfive Hi) as [c0 Hc0].
    exists (championFromDetail detail).
    unfold setChampionData. rewrite (validIndex_slot i Hi).
    split; [now rewrite (updateSlot_lookup s i _ c0 Hc0) |].
    split; [reflexivity |].
    unfold championFromDetail, extractUltBaseCooldowns, cooldownAt. simpl.
    now rewrite Hnone.
  - intros s c now active Hc Ha.
    eexists. split.
    { unfold startUltTimer. rewrite (validIndex_slot i Hi), Hc, Ha. cbv zeta.
      now apply updateSlot_lookup. }
    split; [reflexivity |].
    intros Hzero Hdiv.
    assert (He : now + calculateCooldown active (abilityHaste c) * 1000 == now + 0).
    { unfold calculateCooldown. rewrite Hzero. field.
      intros H. apply Hdiv.
      assert (Hh : abilityHaste c == -100) by lra.
      rewrite Hh. reflexivity. }
    split; [exact He |].
    intros later Hlater. simpl.
    assert (Hle : (Qceiling ((now + calculateCooldown active (abilityHaste c) * 1000
                              - later) / 1000) <= 0)%Z).
    { assert (Hq : (now + calculateCooldown active (abilityHaste c) * 1000 - later)
                   / 1000 <= 0).
      { rewrite He. apply Qle_shift_div_r; [reflexivity | lra]. }
      apply Qceiling_resp_le in Hq. exact Hq. }
    lia.
  - intros s c now Hc Ha. unfold startUltTimer.
    now rewrite (validIndex_slot i Hi), Hc, Ha.
Qed.

(** The theorem at slot 0 of the initial store filled from a detail record
    that lists no spell: the ultimate timer started at clock 5000 ends at
    5000. *)
Lemma startUltTimer_accepts_zero_cooldown_witness :
  let s := setChampionData 0 bareDetail initialState in
  slotIndex 0 /\ fiveSlots initialState /\
  spells bareDetail !! 3%nat = None /\
  exists c e,
    enemies s !! 0%nat = Some c /\
    currentLevel c = L6 /\ activeUltCooldown c = Some 0 /\
    ~ 1 + abilityHaste c / 100 == 0 /\
    enemies (startUltTimer 0 5000 s) !! 0%nat = Some (with_ultEndTime (Some e) c) /\
    e == 5000 /\
    remainingSeconds (Some e) 5000 = 0%Z.
Proof.
  intros s.
  assert (Hi : slotIndex 0) by (unfold slotIndex; lia).
  assert (Hfive : fiveSlots initialState) by reflexivity.
  assert (Hsp : spells bareDetail !! 3%nat = None) by reflexivity.
  split; [exact Hi |]. split; [exact Hfive |]. split; [exact Hsp |].
  destruct (startUltTimer_accepts_zero_cooldown 0 Hi) as (Hset & Hstart & _).
  destruct (Hset initialState bareDetail Hfive Hsp) as (c & Hc & Hlvl & Hact).
  assert (Hdiv : ~ 1 + abilityHaste c / 100 == 0).
  { vm_compute in Hc. injection Hc as <-. discriminate. }
  destruct (Hstart s c 5000 0 Hc Hact) as (e & He & _ & Hzero).
  destruct (Hzero ltac:(reflexivity) Hdiv) as (Heq & Hrem).
  exists c, e. split; [exact Hc |]. split; [exact Hlvl |]. split; [exact Hact |].
  split; [exact Hdiv |]. split; [exact He |].
  split; [rewrite Heq; reflexivity |].
  apply Hrem. discriminate.
Defined.

(** At ability haste -100, which [setAbilityHaste] stores as given, a slot
    whose active cooldown is 0 does not get the end-time [now + 0]: the
    divisor [1 + haste / 100] is 0, the cooldown [0 / 0] is NaN in binary64,
    and so is the end-time [now + NaN * 1000] that [startUltTimer] writes. *)
Lemma startUltTimer_zero_cooldown_at_haste_minus_100 :
  let s := setAbilityHaste 0 (-100) (setChampionData 0 bareDetail initialState) in
  (exists c,
     enemies s !! 0%nat = Some c /\
     activeUltCooldown c = Some 0 /\
     abilityHaste c = (-100) /\
     1 + abilityHaste c / 100 == 0 /\
     (exists e, enemies (startUltTimer 0 5000 s) !! 0%nat
                = Some (with_ultEndTime (Some e) c))) /\
  is_nan (calculateCooldown64 0 (-100)) = true /\
  is_nan (endTime64 5000 0 (-100)) = true /\
  (endTime64 5000 0 (-100) =? 5000)%float = false.
Proof.
  intros s. split.
  - eexists. split; [reflexivity |]. split; [reflexivity |].
    split; [reflexivity |]. split; [reflexivity |].
    eexists. reflexivity.
  - vm_compute. repeat split.
Qed.

End ZeroLength.

(* ------------------------------------------------------------------------- *)
(** ** The documented scenarios, evaluated                                   *)
(* ------------------------------------------------------------------------- *)

Section Scenarios.

Local Open Scope Q_scope.

Example nextLevel_cycle :
  map nextLevel LEVEL_CYCLE = [L6; L11; L16; L1].
Proof. reflexivity. Qed.

Example parseInt_examples :
  parseInt "120" = Some 120%Z /\ parseInt "  42px" = Some 42%Z /\
  parseInt "-3" = Some (-3)%Z /\ parseInt "+8" = Some 8%Z /\
  parseInt "" = None /\ parseInt "-" = None /\ parseInt "x9" = None.
Proof. repeat split. Qed.

(** Lux in slot 0 (level 6, base 80), ability haste 100, ultimate started at
    clock 0: the timer ends at 40000 ms; the countdown reads 40 at once, 1
    after 39.5 s and 0 after 41 s. *)
Example lux_with_100_haste :
  let s := startUltTimer 0 0
             (setAbilityHaste 0 100 (setChampionData 0 luxDetail initialState)) in
  exists c e,
    enemies s !! 0%nat = Some c /\ ultEndTime c = Some e /\ e == 40000 /\
    remainingSeconds (ultEndTime c) 0 = 40%Z /\
    remainingSeconds (ultEndTime c) 39500 = 1%Z /\
    remainingSeconds (ultEndTime c) 41000 = 0%Z.
Proof.
  eexists _, _. split; [vm_compute; reflexivity |].
  split; [reflexivity |]. repeat split.
Qed.

(** Both summoner-haste toggles on (12 + 18 = 30), Flash (300 s) started at
    clock 0: 300 / 1.3 is about 230.77 s and the first tick shows 231. *)
Example flash_with_both_toggles :
  let s := startSpellTimer 0 Slot1 0
             (toggleCosmicInsight 0 (toggleIonianBoots 0 initialState)) in
  exists c,
    enemies s !! 0%nat = Some c /\ summonerHaste c == 30 /\
    remainingSeconds (spell1EndTime c) 0 = 231%Z.
Proof.
  eexists. split; [vm_compute; reflexivity |]. split; reflexivity.
Qed.

(** Four level toggles bring a slot back to its level and derived
    cooldown. *)
Example four_toggles_round_trip :
  let s := setChampionData 0 luxDetail initialState in
  cycleLevel 0 (cycleLevel 0 (cycleLevel 0 (cycleLevel 0 s))) = s.
Proof. reflexivity. Qed.

End Scenarios.

(* ------------------------------------------------------------------------- *)
(** ** Slots are independent                                                 *)
(* ------------------------------------------------------------------------- *)

Lemma updateSlot_compose (s : TimerStoreState) (i : Z) f g :
  updateSlot i g (updateSlot i f s) = updateSlot i (fun c => g (f c)) s.
Proof.
  destruct (enemies s !! Z.to_nat i) as [c |] eqn:E.
  - unfold updateSlot at 1. rewrite (updateSlot_lookup s i f c E).
    unfold updateSlot. rewrite E. simpl. f_equal.
    apply list_insert_insert_eq.
  - unfold updateSlot. rewrite E. now rewrite E.
Qed.

Lemma updateSlot_ext (s : TimerStoreState) (i : Z) f g :
  (forall c, enemies s !! Z.to_nat i = Some c -> f c = g c) ->
  updateSlot i f s = updateSlot i g s.
Proof.
  intros H. unfold updateSlot.
  destruct (enemies s !! Z.to_nat i) as [c |] eqn:E; [| reflexivity].
  now rewrite (H c eq_refl).
Qed.

Lemma updateSlot_commute (s : TimerStoreState) (i j : Z) f g :
  Z.to_nat i <> Z.to_nat j ->
  updateSlot i f (updateSlot j g s) = updateSlot j g (updateSlot i f s).
Proof.
  intros Hne. unfold updateSlot at 1 3.
  rewrite (updateSlot_lookup_ne s j g (Z.to_nat i) Hne).
  rewrite (updateSlot_lookup_ne s i f (Z.to_nat j) (not_eq_sym Hne)).
  destruct (enemies s !! Z.to_nat i) as [ci |] eqn:Ei;
    destruct (enemies s !! Z.to_nat j) as [cj |] eqn:Ej;
    unfold updateSlot; rewrite ?Ei, ?Ej; simpl; try reflexivity.
  f_equal. apply list_insert_insert_ne. congruence.
Qed.

(** X1: on a five-slot store an action that takes a slot index changes no
    slot but that one and keeps the five slots, whatever the index. *)
Theorem indexed_action_touches_one_slot
    (a : Action) (s : TimerStoreState) (i : Z) (j : nat) :
  fiveSlots s ->
  actionIndex a = Some i -> Z.of_nat j <> i ->
  enemies (step a s) !! j = enemies s !! j /\
  length (enemies (step a s)) = length (enemies s) /\
  fiveSlots (step a s).
Proof.
  intros Hfive Ha Hj.
  assert (Hgoal : enemies (step a s) !! j = enemies s !! j /\
                  length (enemies (step a s)) = length (enemies s)).
  { assert (Hback : forall k, validIndex i = Some k -> j <> Z.to_nat k).
    { intros k Hk. apply validIndex_Some in Hk as [-> [Hlo _]]. lia. }
    destruct a; simpl in Ha; try discriminate; injection Ha as ->; simpl;
      unfold_action;
      (destruct (validIndex i) as [k |] eqn:Hv; [| split; reflexivity]);
      specialize (Hback k eq_refl);
      try (destruct (enemies s !! Z.to_nat k) as [champ |]; [| split; reflexivity]);
      try (destruct (activeUltCooldown champ); [| split; reflexivity]);
      try (destruct (Qle_bool _ _); [split; reflexivity |]);
      (split; [now apply updateSlot_lookup_ne | apply updateSlot_length]). }
  destruct Hgoal as [Hsame Hlen].
  split; [exact Hsame |]. split; [exact Hlen |].
  now apply step_preserves_fiveSlots.
Qed.

(** The theorem for [startUltTimer] on slot 2: slot 0 keeps its champion. *)
Lemma indexed_action_touches_one_slot_witness :
  let s := cycleLevel 2 (setChampionData 0 luxDetail initialState) in
  fiveSlots s /\
  enemies (startUltTimer 2 1000 s) !! 0%nat = enemies s !! 0%nat /\
  length (enemies (startUltTimer 2 1000 s)) = 5%nat.
Proof.
  intros s.
  assert (Hfive : fiveSlots s) by reflexivity.
  destruct (indexed_action_touches_one_slot (AStartUltTimer 2 1000) s 2 0
              Hfive eq_refl ltac:(lia)) as (Hsame & _ & Hlen).
  split; [exact Hfive |]. split; [exact Hsame | exact Hlen].
Defined.

(* ------------------------------------------------------------------------- *)
(** ** The level cycle closes                                                *)
(* ------------------------------------------------------------------------- *)

Lemma cycleLevel_as_update (i k : Z) (s : TimerStoreState) :
  validIndex i = Some k ->
  cycleLevel i s =
  updateSlot k
    (fun c => with_activeUltCooldown
                (deriveActiveUltCooldown (nextLevel (currentLevel c))
                                         (ultBaseCooldowns c))
                (with_currentLevel (nextLevel (currentLevel c)) c)) s.
Proof. intros Hv. unfold cycleLevel. now rewrite Hv. Qed.

(** X2: on a five-slot store, four level toggles on a slot whose active
    cooldown is the derived one bring the store back to where it was; after
    one, two or three toggles the level differs from the starting one. *)
Theorem cycleLevel_four_times_is_identity (s : TimerStoreState) (i : Z) :
  fiveSlots s ->
  (forall c, enemies s !! Z.to_nat i = Some c -> slotConsistent c) ->
  iterate 4 (cycleLevel i) s = s /\
  forall c n c',
    slotIndex i -> enemies s !! Z.to_nat i = Some c ->
    (0 < n < 4)%nat ->
    enemies (iterate n (cycleLevel i) s) !! Z.to_nat i = Some c' ->
    currentLevel c' <> currentLevel c.
Proof.
  intros _ Hcons. split.
  - simpl. destruct (validIndex i) as [k |] eqn:Hv.
    2: { unfold cycleLevel. now rewrite Hv. }
    pose proof (validIndex_Some _ _ Hv) as [-> _].
    rewrite !(cycleLevel_as_update i i _ Hv), !updateSlot_compose.
    apply updateSlot_id. intros c Hc. specialize (Hcons c Hc).
    unfold slotConsistent in Hcons. destruct c as [? ? ubc act lvl ? ? ? ? ? ? ? ? ? ? ?].
    simpl in *. subst act. destruct lvl; reflexivity.
  - intros c n c' Hi Hc Hn Hc'.
    pose proof (validIndex_slot i Hi) as Hv.
    destruct n as [| [| [| [| n]]]]; try lia; simpl in Hc';
      rewrite !(cycleLevel_as_update i i _ Hv), ?updateSlot_compose in Hc';
      rewrite (updateSlot_lookup s i _ c Hc) in Hc'; injection Hc' as <-;
      simpl; destruct (currentLevel c); discriminate.
Qed.

Lemma cycleLevel_four_times_is_identity_witness :
  let s := setChampionData 1 luxDetail initialState in
  fiveSlots s /\
  (forall c, enemies s !! 1%nat = Some c -> slotConsistent c) /\
  cycleLevel 1 (cycleLevel 1 (cycleLevel 1 (cycleLevel 1 s))) = s.
Proof.
  intros s.
  assert (Hfive : fiveSlots s) by reflexivity.
  assert (H : forall c, enemies s !! Z.to_nat 1 = Some c -> slotConsistent c).
  { intros c Hc. vm_compute in Hc. injection Hc as <-. reflexivity. }
  split; [exact Hfive |]. split; [exact H |].
  exact (proj1 (cycleLevel_four_times_is_identity s 1 Hfive H)).
Defined.

(* ------------------------------------------------------------------------- *)
(** ** Summoner haste                                                        *)
(* ------------------------------------------------------------------------- *)

Section SummonerHaste.

Local Open Scope Q_scope.

Lemma toggleIonianBoots_as_update (i k : Z) (s : TimerStoreState) :
  validIndex i = Some k ->
  toggleIonianBoots i s =
  updateSlot k
    (fun c => with_summonerHaste
                (deriveSummonerHaste (negb (ionianBoots c)) (cosmicInsight c))
                (with_ionianBoots (negb (ionianBoots c)) c)) s.
Proof. intros Hv. unfold toggleIonianBoots. now rewrite Hv. Qed.

Lemma toggleCosmicInsight_as_update (i k : Z) (s : TimerStoreState) :
  validIndex i = Some k ->
  toggleCosmicInsight i s =
  updateSlot k
    (fun c => with_summonerHaste
                (deriveSummonerHaste (ionianBoots c) (negb (cosmicInsight c)))
                (with_cosmicInsight (negb (cosmicInsight c)) c)) s.
Proof. intros Hv. unfold toggleCosmicInsight. now rewrite Hv. Qed.

(** X3: the two summoner-haste toggles commute, on the same slot and on
    different slots, whatever the store. *)
Theorem summoner_toggles_commute (s : TimerStoreState) (i j : Z) :
  toggleIonianBoots i (toggleCosmicInsight j s)
  = toggleCosmicInsight j (toggleIonianBoots i s).
Proof.
  destruct (validIndex i) as [k |] eqn:Hi.
  2: { unfold toggleIonianBoots. now rewrite Hi. }
  destruct (validIndex j) as [l |] eqn:Hj.
  2: { unfold toggleCosmicInsight. now rewrite Hj. }
  rewrite !(toggleIonianBoots_as_update i k _ Hi),
          !(toggleCosmicInsight_as_update j l _ Hj).
  destruct (decide (Z.to_nat k = Z.to_nat l)) as [Heq | Hne].
  - apply validIndex_Some in Hi as [-> [Hk _]].
    apply validIndex_Some in Hj as [-> [Hl _]].
    assert (i = j) by lia. subst j.
    rewrite !updateSlot_compose. apply updateSlot_ext. intros c _.
    destruct c; reflexivity.
  - now apply updateSlot_commute.
Qed.

(** X4: a summoner-haste toggle leaves the slot with the haste of its two
    flags, one of 0, 12, 18 and 30; pressing the same toggle twice restores
    a slot whose haste was the one of its flags. *)
Theorem summoner_toggle_derives_and_undoes (s : TimerStoreState) (i : Z) (c : EnemyChampion) :
  slotIndex i -> enemies s !! Z.to_nat i = Some c ->
  (exists c1,
      enemies (toggleIonianBoots i s) !! Z.to_nat i = Some c1 /\
      ionianBoots c1 = negb (ionianBoots c) /\
      cosmicInsight c1 = cosmicInsight c /\
      summonerConsistent c1 /\
      summonerHaste c1 ==
        (if ionianBoots c1 then 12 else 0) + (if cosmicInsight c1 then 18 else 0)) /\
  (exists c2,
      enemies (toggleCosmicInsight i s) !! Z.to_nat i = Some c2 /\
      cosmicInsight c2 = negb (cosmicInsight c) /\
      ionianBoots c2 = ionianBoots c /\
      summonerConsistent c2 /\
      (summonerHaste c2 == 0 \/ summonerHaste c2 == 12 \/
       summonerHaste c2 == 18 \/ summonerHaste c2 == 30)) /\
  (summonerConsistent c ->
      toggleIonianBoots i (toggleIonianBoots i s) = s /\
      toggleCosmicInsight i (toggleCosmicInsight i s) = s).
Proof.
  intros Hi Hc. pose proof (validIndex_slot i Hi) as Hv.
  split; [| split].
  - eexists. rewrite (toggleIonianBoots_as_update i i s Hv).
    split; [apply updateSlot_lookup; exact Hc |].
    repeat split; reflexivity.
  - eexists. rewrite (toggleCosmicInsight_as_update i i s Hv).
    split; [apply updateSlot_lookup; exact Hc |].
    split; [reflexivity |]. split; [reflexivity |]. split; [reflexivity |].
    simpl. destruct (ionianBoots c), (cosmicInsight c); simpl;
      [ right; left | right; right; right | left | right; right; left ];
      reflexivity.
  - intros Hcons. unfold summonerConsistent in Hcons.
    rewrite !(toggleIonianBoots_as_update i i _ Hv),
            !(toggleCosmicInsight_as_update i i _ Hv), !updateSlot_compose.
    split; apply updateSlot_id; intros c0 Hc0;
      rewrite Hc in Hc0; injection Hc0 as <-;
      destruct c as [? ? ? ? ? ? boots cosmic sh ? ? ? ? ? ? ?];
      simpl in *; subst sh; rewrite negb_involutive; reflexivity.
Qed.

Lemma summoner_toggle_derives_and_undoes_witness :
  slotIndex 4 /\
  enemies initialState !! 4%nat = Some createEmptyChampion /\
  summonerConsistent createEmptyChampion /\
  toggleIonianBoots 4 (toggleIonianBoots 4 initialState) = initialState /\
  exists c2,
    enemies (toggleCosmicInsight 4 initialState) !! 4%nat = Some c2 /\
    cosmicInsight c2 = true.
Proof.
  assert (Hi : slotIndex 4) by (unfold slotIndex; lia).
  assert (Hc : enemies initialState !! Z.to_nat 4 = Some createEmptyChampion)
    by reflexivity.
  assert (Hcons : summonerConsistent createEmptyChampion) by reflexivity.
  destruct (summoner_toggle_derives_and_undoes initialState 4 createEmptyChampion Hi Hc)
    as (_ & (c2 & Hc2 & Hflag & _) & Hundo).
  split; [exact Hi |]. split; [exact Hc |]. split; [exact Hcons |].
  split; [exact (proj1 (Hundo Hcons)) |].
  exists c2. split; [exact Hc2 | exact Hflag].
Defined.

Lemma step_preserves_summonerConsistent (a : Action) (s : TimerStoreState) :
  notSetChampion a ->
  Forall summonerConsistent (enemies s) ->
  Forall summonerConsistent (enemies (step a s)).
Proof.
  intros Hns Hall.
  destruct a; simpl in Hns; try contradiction; simpl; unfold_action;
    [.. | repeat constructor];
    (destruct (validIndex index) as [k |]; [| assumption]);
    try (destruct (enemies s !! Z.to_nat k) as [champ |]; [| assumption]);
    try (destruct (activeUltCooldown champ); [| assumption]);
    try (destruct (Qle_bool _ _); [assumption |]);
    (apply updateSlot_Forall; [| assumption]); intros c Hc;
    try destruct slot; try destruct spellSlot;
    first [exact Hc | reflexivity].
Qed.

(** X5: as long as [setChampion] is not used, every slot's [summonerHaste]
    is the value of its two toggles, in every state reached from the initial
    one.  [setChampion] re-derives [activeUltCooldown] but not
    [summonerHaste]: a partial update with [summonerHaste: 50] leaves the
    slot with haste 50 and both toggles off. *)
Theorem summonerHaste_derived_without_setChampion :
  (forall actions : list Action,
      Forall notSetChampion actions ->
      Forall summonerConsistent (enemies (run actions initialState))) /\
  (exists data c,
      enemies (setChampion 0 data initialState) !! 0%nat = Some c /\
      summonerHaste c == 50 /\
      deriveSummonerHaste (ionianBoots c) (cosmicInsight c) == 0).
Proof.
  split.
  - intros actions.
    assert (Hinit : Forall summonerConsistent (enemies initialState))
      by (repeat constructor).
    revert Hinit. generalize initialState as s.
    induction actions as [| a rest IH]; intros s Hs Hall; simpl.
    + exact Hs.
    + inversion Hall as [| ? ? Ha Hrest]; subst.
      apply IH; [| exact Hrest].
      now apply step_preserves_summonerConsistent.
  - exists (mkPartialEnemyChampion None None None None None None None None
              (Some 50) None None None None None None None).
    eexists. split; [vm_compute; reflexivity |]. split; reflexivity.
Qed.

Lemma summonerHaste_derived_without_setChampion_witness :
  let actions := [AToggleIonianBoots 0; ASetChampionData 0 luxDetail;
                  AToggleCosmicInsight 0; AStartSpellTimer 0 Slot1 1000] in
  Forall notSetChampion actions /\
  Forall summonerConsistent (enemies (run actions initialState)).
Proof.
  intros actions.
  assert (H : Forall notSetChampion actions) by (repeat constructor).
  split; [exact H |].
  exact (proj1 summonerHaste_derived_without_setChampion actions H).
Defined.

End SummonerHaste.

(* ------------------------------------------------------------------------- *)
(** ** Choosing a summoner spell                                             *)
(* ------------------------------------------------------------------------- *)

(** X6: choosing a spell in the picker stores its id and the first entry of
    its cooldown list (300 when the list is empty) in the chosen spell slot
    and clears that slot's timer, running or not; the other spell slot, the
    ultimate timer and the rest of the champion are untouched. *)
Theorem picker_select_assigns_spell_and_clears_timer
    (s : TimerStoreState) (i : Z) (slot : SpellSlot)
    (spell : SummonerSpellEntry) (c : EnemyChampion) :
  slotIndex i -> enemies s !! Z.to_nat i = Some c ->
  exists c',
    enemies (pickerHandleSelect i slot spell s) !! Z.to_nat i = Some c' /\
    spellId slot c' = ss_id spell /\
    spellBaseCooldown slot c' =
      match ss_cooldown spell with [] => 300%Q | cd :: _ => cd end /\
    spellEndTime slot c' = None /\
    spellId (otherSlot slot) c' = spellId (otherSlot slot) c /\
    spellBaseCooldown (otherSlot slot) c' = spellBaseCooldown (otherSlot slot) c /\
    spellEndTime (otherSlot slot) c' = spellEndTime (otherSlot slot) c /\
    ultEndTime c' = ultEndTime c /\
    currentLevel c' = currentLevel c /\
    activeUltCooldown c' = activeUltCooldown c /\
    ultBaseCooldowns c' = ultBaseCooldowns c /\
    abilityHaste c' = abilityHaste c /\
    summonerHaste c' = summonerHaste c /\
    ionianBoots c' = ionianBoots c /\ cosmicInsight c' = cosmicInsight c /\
    id c' = id c /\ name c' = name c.
Proof.
  intros Hi Hc. eexists.
  unfold pickerHandleSelect, setSummonerSpell. rewrite (validIndex_slot i Hi).
  split; [apply updateSlot_lookup; exact Hc |].
  destruct slot; simpl; (split; [reflexivity |]);
    (split; [destruct (ss_cooldown spell); reflexivity |]);
    repeat split; reflexivity.
Qed.

(** The theorem for Ignite (cooldown 180) chosen for the second spell of
    slot 0 while that spell's timer is running. *)
Lemma picker_select_assigns_spell_and_clears_timer_witness :
  let s := startSpellTimer 0 Slot2 1000 initialState in
  let ignite := {| ss_id := "SummonerDot"; ss_name := "Ignite";
                   ss_cooldown := [180%Q]; ss_modes := ["CLASSIC"%string] |} in
  slotIndex 0 /\
  exists c c',
    enemies s !! 0%nat = Some c /\ spell2EndTime c <> None /\
    enemies (pickerHandleSelect 0 Slot2 ignite s) !! 0%nat = Some c' /\
    spell2Id c' = "SummonerDot"%string /\ spell2BaseCooldown c' = 180%Q /\
    spell2EndTime c' = None.
Proof.
  intros s ignite.
  assert (Hi : slotIndex 0) by (unfold slotIndex; lia).
  split; [exact Hi |].
  destruct (enemies s !! 0%nat) as [c |] eqn:Hc; [| discriminate Hc].
  assert (Hrun : spell2EndTime c <> None).
  { vm_compute in Hc. injection Hc as <-. discriminate. }
  destruct (picker_select_assigns_spell_and_clears_timer s 0 Slot2 ignite c Hi Hc)
    as (c' & Hc' & Hid & Hcd & Hend & _).
  exists c, c'. split; [reflexivity |]. split; [exact Hrun |].
  split; [exact Hc' |]. split; [exact Hid |]. split; [exact Hcd | exact Hend].
Defined.

(* ------------------------------------------------------------------------- *)
(** ** Clearing                                                              *)
(* ------------------------------------------------------------------------- *)

Lemma clearUltTimer_as_update (i k : Z) (s : TimerStoreState) :
  validIndex i = Some k -> clearUltTimer i s = updateSlot k (with_ultEndTime None) s.
Proof. intros Hv. unfold clearUltTimer. now rewrite Hv. Qed.

Lemma clearSpellTimer_as_update (i k : Z) (slot : SpellSlot) (s : TimerStoreState) :
  validIndex i = Some k ->
  clearSpellTimer i slot s = updateSlot k (with_spellEndTime slot None) s.
Proof. intros Hv. unfold clearSpellTimer. now rewrite Hv. Qed.

(** X7: on a five-slot store, clearing a timer right after starting it
    gives the same store as clearing it without the start, for the ultimate
    and for both spells, whatever the index and the clock. *)
Theorem clear_absorbs_start (s : TimerStoreState) (i : Z) (now : Q) :
  fiveSlots s ->
  clearUltTimer i (startUltTimer i now s) = clearUltTimer i s /\
  forall slot : SpellSlot,
    clearSpellTimer i slot (startSpellTimer i slot now s) = clearSpellTimer i slot s.
Proof.
  intros _.
  destruct (validIndex i) as [k |] eqn:Hv.
  2: { split; [| intros slot]; unfold clearUltTimer, clearSpellTimer,
         startUltTimer, startSpellTimer; now rewrite Hv. }
  split.
  - rewrite !(clearUltTimer_as_update i k _ Hv).
    unfold startUltTimer. rewrite Hv.
    destruct (enemies s !! Z.to_nat k) as [c |]; [| reflexivity].
    destruct (activeUltCooldown c); [| reflexivity].
    cbv zeta. rewrite updateSlot_compose. apply updateSlot_ext. reflexivity.
  - intros slot. rewrite !(clearSpellTimer_as_update i k _ _ Hv).
    unfold startSpellTimer. rewrite Hv.
    destruct (enemies s !! Z.to_nat k) as [c |]; [| reflexivity].
    cbv zeta. destruct (Qle_bool _ _); [reflexivity |].
    rewrite updateSlot_compose. apply updateSlot_ext.
    intros c0 _. destruct slot; reflexivity.
Qed.

(** The theorem for Lux in slot 0: starting the ultimate at clock 1000 and
    clearing it gives the store an immediate clear gives, here the store
    itself. *)
Lemma clear_absorbs_start_witness :
  let s := setChampionData 0 luxDetail initialState in
  fiveSlots s /\
  startUltTimer 0 1000 s <> s /\
  clearUltTimer 0 (startUltTimer 0 1000 s) = s.
Proof.
  intros s.
  assert (Hfive : fiveSlots s) by reflexivity.
  split; [exact Hfive |]. split; [vm_compute; discriminate |].
  rewrite (proj1 (clear_absorbs_start s 0 1000%Q Hfive)). reflexivity.
Defined.

(** X8: after a clear on a valid index the timer is inactive, whatever it
    was, so its countdown reads 0 at any clock; the clear changes nothing
    else in the slot, and on an inactive timer it changes nothing at all. *)
Theorem clear_makes_timer_inactive (s : TimerStoreState) (i : Z) (c : EnemyChampion) :
  slotIndex i -> enemies s !! Z.to_nat i = Some c ->
  enemies (clearUltTimer i s) !! Z.to_nat i = Some (with_ultEndTime None c) /\
  (forall now, remainingSeconds (ultEndTime (with_ultEndTime None c)) now = 0) /\
  (ultEndTime c = None -> clearUltTimer i s = s) /\
  forall slot : SpellSlot,
    enemies (clearSpellTimer i slot s) !! Z.to_nat i
      = Some (with_spellEndTime slot None c) /\
    spellEndTime slot (with_spellEndTime slot None c) = None /\
    spellEndTime (otherSlot slot) (with_spellEndTime slot None c)
      = spellEndTime (otherSlot slot) c /\
    (spellEndTime slot c = None -> clearSpellTimer i slot s = s).
Proof.
  intros Hi Hc. pose proof (validIndex_slot i Hi) as Hv.
  split; [| split; [| split]].
  - rewrite (clearUltTimer_as_update i i s Hv). now apply updateSlot_lookup.
  - reflexivity.
  - intros Hnone. rewrite (clearUltTimer_as_update i i s Hv).
    apply updateSlot_id. intros c0 Hc0. rewrite Hc in Hc0. injection Hc0 as <-.
    destruct c. simpl in *. now subst.
  - intros slot. rewrite (clearSpellTimer_as_update i i slot s Hv).
    split; [now apply updateSlot_lookup |].
    split; [destruct slot; reflexivity |].
    split; [destruct slot; reflexivity |].
    intros Hnone. apply updateSlot_id. intros c0 Hc0.
    rewrite Hc in Hc0. injection Hc0 as <-.
    destruct c, slot; simpl in *; now subst.
Qed.

Lemma clear_makes_timer_inactive_witness :
  let s := startUltTimer 0 1000 (setChampionData 0 luxDetail initialState) in
  slotIndex 0 /\
  exists c c',
    enemies s !! 0%nat = Some c /\ ultEndTime c <> None /\
    enemies (clearUltTimer 0 s) !! 0%nat = Some c' /\ ultEndTime c' = None.
Proof.
  intros s.
  assert (Hi : slotIndex 0) by (unfold slotIndex; lia).
  split; [exact Hi |].
  destruct (enemies s !! 0%nat) as [c |] eqn:Hc; [| discriminate Hc].
  assert (Hrun : ultEndTime c <> None).
  { vm_compute in Hc. injection Hc as <-. discriminate. }
  destruct (clear_makes_timer_inactive s 0 c Hi Hc) as (Hclr & _).
  exists c, (with_ultEndTime None c).
  split; [reflexivity |]. split; [exact Hrun |]. split; [exact Hclr | reflexivity].
Defined.

(** X9: [clearChampion] puts the empty champion in the slot, and clearing
    the five slots one after the other is [resetAll], which gives the initial
    store. *)
Theorem clearing_every_slot_is_resetAll (s : TimerStoreState) :
  fiveSlots s ->
  (forall i, slotIndex i ->
     enemies (clearChampion i s) !! Z.to_nat i = Some createEmptyChampion) /\
  clearChampion 0 (clearChampion 1 (clearChampion 2
    (clearChampion 3 (clearChampion 4 s)))) = resetAll s /\
  resetAll s = initialState.
Proof.
  intros Hfive. split; [| split; [| reflexivity]].
  - intros i Hi. destruct (fiveSlots_lookup s i Hfive Hi) as [c Hc].
    unfold clearChampion. rewrite (validIndex_slot i Hi).
    now rewrite (updateSlot_lookup s i _ c Hc).
  - destruct s as [l]. unfold fiveSlots in Hfive. simpl in Hfive.
    destruct l as [| c0 [| c1 [| c2 [| c3 [| c4 [| c5 l]]]]]];
      try discriminate Hfive.
    reflexivity.
Qed.

Lemma clearing_every_slot_is_resetAll_witness :
  let s := startUltTimer 0 1000 (setChampionData 0 luxDetail initialState) in
  fiveSlots s /\ s <> initialState /\
  clearChampion 0 (clearChampion 1 (clearChampion 2
    (clearChampion 3 (clearChampion 4 s)))) = initialState.
Proof.
  intros s.
  assert (Hfive : fiveSlots s) by reflexivity.
  split; [exact Hfive |]. split; [vm_compute; discriminate |].
  destruct (clearing_every_slot_is_resetAll s Hfive) as (_ & Hall & Hreset).
  now rewrite Hall.
Defined.

(* ------------------------------------------------------------------------- *)
(** ** The countdown and the running test                                    *)
(* ------------------------------------------------------------------------- *)

Section Countdown.

Local Open Scope Q_scope.

Lemma Qceiling_pos (x : Q) : 0 < x -> (0 < Qceiling x)%Z.
Proof.
  intros Hx. pose proof (Qle_ceiling x) as Hc.
  assert (H : 0 < inject_Z (Qceiling x)) by lra.
  unfold Qlt in H. simpl in H. lia.
Qed.

Lemma Qceiling_nonpos (x : Q) : x <= 0 -> (Qceiling x <= 0)%Z.
Proof. intros Hx. apply (Qceiling_resp_le x 0) in Hx. exact Hx. Qed.

Lemma div1000_pos (x : Q) : 0 < x <-> 0 < x / 1000.
Proof.
  split; intros H.
  - apply Qlt_shift_div_l; [reflexivity | lra].
  - assert (E : x == x / 1000 * 1000) by field. lra.
Qed.

Lemma remainingSeconds_running (endTime : option Q) (now : Q) :
  (isRunning endTime now = true <-> (0 < remainingSeconds endTime now)%Z) /\
  (isRunning endTime now = false <-> remainingSeconds endTime now = 0%Z) /\
  (forall e, endTime = Some e -> now < e ->
     inject_Z (remainingSeconds endTime now - 1) * 1000 < e - now /\
     e - now <= inject_Z (remainingSeconds endTime now) * 1000) /\
  (forall later, now <= later ->
     (remainingSeconds endTime later <= remainingSeconds endTime now)%Z).
Proof.
  assert (Hiff : isRunning endTime now = true <-> (0 < remainingSeconds endTime now)%Z).
  { destruct endTime as [e |]; simpl; [| split; [discriminate | lia]].
    rewrite Qgtb_true. split.
    - intros Hlt. assert (0 < (e - now) / 1000) by (apply (proj1 (div1000_pos (e - now))); lra).
      pose proof (Qceiling_pos _ H). lia.
    - intros Hpos. destruct (Qlt_le_dec now e) as [Hlt | Hle]; [exact Hlt |].
      assert ((e - now) / 1000 <= 0).
      { apply Qle_shift_div_r; [reflexivity | lra]. }
      pose proof (Qceiling_nonpos _ H). lia. }
  split; [exact Hiff |]. split; [| split].
  - pose proof (remainingSeconds_nonneg endTime now) as Hnn.
    destruct (isRunning endTime now) eqn:E.
    + split; [discriminate |]. intros H0. apply proj1 in Hiff.
      specialize (Hiff eq_refl). rewrite H0 in Hiff. lia.
    + split; [| reflexivity]. intros _.
      destruct (Z.eq_dec (remainingSeconds endTime now) 0%Z) as [H0 | Hne];
        [exact H0 |].
      assert (Hpos : (0 < remainingSeconds endTime now)%Z) by lia.
      apply Hiff in Hpos. discriminate.
  - intros e -> Hlt. simpl.
    assert (Hx : 0 < (e - now) / 1000) by (apply (proj1 (div1000_pos (e - now))); lra).
    pose proof (Qceiling_pos _ Hx) as Hpos.
    rewrite Z.max_r by lia.
    pose proof (Qle_ceiling ((e - now) / 1000)) as Hup.
    pose proof (Qceiling_lt ((e - now) / 1000)) as Hlo.
    assert (E : e - now == (e - now) / 1000 * 1000) by field.
    split; lra.
  - intros later Hlater. destruct endTime as [e |]; simpl; [| lia].
    assert (Hle : (e - later) / 1000 <= (e - now) / 1000).
    { unfold Qdiv. apply Qmult_le_compat_r; [lra | discriminate]. }
    apply Qceiling_resp_le in Hle. lia.
Qed.

(** X10: the countdown is positive exactly when the timer is running in the
    sense of the press handlers (end-time set and after the clock), so the
    circle's [isActive] and the handlers' guard agree; while it is positive
    it is the number of started seconds left,
    [(remaining - 1) * 1000 < endTime - now <= remaining * 1000]; and it
    never grows as the clock advances. *)
Theorem countdown_positive_iff_running (endTime : option Q) (now : Q) :
  (isRunning endTime now = true <-> (0 < remainingSeconds endTime now)%Z) /\
  (isRunning endTime now = false <-> remainingSeconds endTime now = 0%Z) /\
  (forall e, endTime = Some e -> now < e ->
     inject_Z (remainingSeconds endTime now - 1) * 1000 < e - now /\
     e - now <= inject_Z (remainingSeconds endTime now) * 1000) /\
  (forall later, now <= later ->
     (remainingSeconds endTime later <= remainingSeconds endTime now)%Z).
Proof. exact (remainingSeconds_running endTime now). Qed.

Lemma countdown_positive_iff_running_witness :
  1000 < 3500 /\
  remainingSeconds (Some 3500) 1000 = 3%Z /\
  inject_Z (3 - 1) * 1000 < 3500 - 1000 /\
  3500 - 1000 <= inject_Z 3 * 1000.
Proof.
  split; [reflexivity |]. split; [reflexivity |].
  destruct (countdown_positive_iff_running (Some 3500) 1000) as (_ & _ & Hb & _).
  exact (Hb 3500 eq_refl ltac:(reflexivity)).
Defined.

End Countdown.

(* ------------------------------------------------------------------------- *)
(** ** Which haste a timer uses                                              *)
(* ------------------------------------------------------------------------- *)

Section WhichHaste.

Local Open Scope Q_scope.

Lemma setAbilityHaste_as_update (i k : Z) (h : Q) (s : TimerStoreState) :
  validIndex i = Some k -> setAbilityHaste i h s = updateSlot k (with_abilityHaste h) s.
Proof. intros Hv. unfold setAbilityHaste. now rewrite Hv. Qed.

Lemma updateSlot_missing (s : TimerStoreState) (i : Z) f :
  enemies s !! Z.to_nat i = None -> updateSlot i f s = s.
Proof. intros H. unfold updateSlot. now rewrite H. Qed.

(** X12: in the persisted store the ability haste plays no part in a
    summoner-spell timer: on a five-slot store, setting the ability haste
    before or after [startSpellTimer] gives the same store, for any two
    indices. *)
Theorem spell_timer_ignores_ability_haste
    (s : TimerStoreState) (i j : Z) (h : Q) (slot : SpellSlot) (now : Q) :
  fiveSlots s ->
  startSpellTimer j slot now (setAbilityHaste i h s)
  = setAbilityHaste i h (startSpellTimer j slot now s).
Proof.
  intros _.
  destruct (validIndex i) as [ki |] eqn:Hi.
  2: { unfold setAbilityHaste. now rewrite Hi. }
  destruct (validIndex j) as [kj |] eqn:Hj.
  2: { unfold startSpellTimer. now rewrite Hj. }
  rewrite !(setAbilityHaste_as_update i ki h _ Hi).
  unfold startSpellTimer. rewrite Hj.
  destruct (decide (Z.to_nat kj = Z.to_nat ki)) as [Heq | Hne].
  - apply validIndex_Some in Hi as [-> [Hki _]].
    apply validIndex_Some in Hj as [-> [Hkj _]].
    assert (j = i) by lia. subst j.
    destruct (enemies s !! Z.to_nat i) as [c |] eqn:Hc.
    + rewrite (updateSlot_lookup s i _ c Hc). cbv zeta.
      assert (Hb : spellBaseCooldown slot (with_abilityHaste h c)
                   = spellBaseCooldown slot c) by (destruct slot; reflexivity).
      rewrite Hb. change (summonerHaste (with_abilityHaste h c)) with (summonerHaste c).
      destruct (Qle_bool (spellBaseCooldown slot c) 0); [reflexivity |].
      rewrite !updateSlot_compose. apply updateSlot_ext.
      intros c0 _. destruct slot; reflexivity.
    + rewrite (updateSlot_missing s i _ Hc), Hc. reflexivity.
  - rewrite (updateSlot_lookup_ne s ki _ (Z.to_nat kj) Hne).
    destruct (enemies s !! Z.to_nat kj) as [c |]; [| reflexivity].
    cbv zeta. destruct (Qle_bool _ _); [reflexivity |].
    now apply updateSlot_commute.
Qed.

(** The theorem for Flash in slot 0 of the initial store and the ability
    haste 100: the spell timer ends at 301000 either way. *)
Lemma spell_timer_ignores_ability_haste_witness :
  fiveSlots initialState /\
  startSpellTimer 0 Slot1 1000 (setAbilityHaste 0 100 initialState)
  = setAbilityHaste 0 100 (startSpellTimer 0 Slot1 1000 initialState) /\
  exists c e,
    enemies (startSpellTimer 0 Slot1 1000 (setAbilityHaste 0 100 initialState))
      !! 0%nat = Some c /\
    spell1EndTime c = Some e /\ e == 301000.
Proof.
  assert (Hfive : fiveSlots initialState) by reflexivity.
  split; [exact Hfive |].
  split; [exact (spell_timer_ignores_ability_haste initialState 0 0 100 Slot1 1000 Hfive) |].
  eexists _, _. split; [vm_compute; reflexivity |]. split; reflexivity.
Defined.

End WhichHaste.

(* ------------------------------------------------------------------------- *)
(** ** More on rehydration                                                   *)
(* ------------------------------------------------------------------------- *)

Section RehydrationAgain.

Local Open Scope Q_scope.

Lemma keepIfFuture_running (now : Q) (v : option Q) :
  keepIfFuture now v = None \/ isRunning (keepIfFuture now v) now = true.
Proof.
  destruct v as [t |]; [| now left]. unfold keepIfFuture.
  destruct (truthy t); simpl; [| now left].
  destruct (Qgtb t now) eqn:E; [right; exact E | now left].
Qed.

Lemma keepIfFuture_later (now later : Q) (v : option Q) :
  now <= later -> keepIfFuture later (keepIfFuture now v) = keepIfFuture later v.
Proof.
  intros Hle. destruct v as [t |]; [| reflexivity]. unfold keepIfFuture at 2.
  destruct (truthy t) eqn:Et; simpl.
  - destruct (Qgtb t now) eqn:Eg; [reflexivity |].
    apply Qgtb_false in Eg. simpl. rewrite Et.
    assert (Hl : Qgtb t later = false) by (apply Qgtb_false; lra).
    now rewrite Hl.
  - simpl. now rewrite Et.
Qed.

Lemma cleanChampion_later (now later : Q) (c : EnemyChampion) :
  now <= later -> cleanChampion later (cleanChampion now c) = cleanChampion later c.
Proof.
  intros Hle. unfold cleanChampion. simpl.
  now rewrite !(keepIfFuture_later now later _ Hle).
Qed.

(** X14: after rehydration every timer of every slot is either inactive or
    running at the clock of the load (there is no expired end-time left),
    the number of slots is the persisted one, and a slot whose active
    cooldown was the derived one still has the derived one. *)
Theorem rehydration_leaves_only_running_timers
    (st s0 : TimerStoreState) (now : Q) :
  let s' := onRehydrateStorage (Some st) false now s0 in
  length (enemies s') = length (enemies st) /\
  (forall j c' f, enemies s' !! j = Some c' ->
     timerEndTime f c' = None \/ isRunning (timerEndTime f c') now = true) /\
  (Forall slotConsistent (enemies st) -> Forall slotConsistent (enemies s')) /\
  (Forall summonerConsistent (enemies st) -> Forall summonerConsistent (enemies s')).
Proof.
  simpl. split; [apply length_map |]. split; [| split].
  - intros j c' f Hc'. rewrite list_lookup_fmap in Hc'.
    destruct (enemies st !! j) as [c |]; [| discriminate].
    simpl in Hc'. injection Hc' as <-. rewrite cleanChampion_timer.
    apply keepIfFuture_running.
  - intros Hall. apply Forall_fmap. eapply Forall_impl; [exact Hall |].
    intros c Hc. exact Hc.
  - intros Hall. apply Forall_fmap. eapply Forall_impl; [exact Hall |].
    intros c Hc. exact Hc.
Qed.

(** X15: rehydrating a rehydrated state at the same or a later clock gives
    what one rehydration at the later clock gives (so the pass is
    idempotent); a failed load or a missing state leaves the store as it
    is. *)
Theorem rehydration_composes (st s0 s1 : TimerStoreState) (now later : Q) :
  now <= later ->
  onRehydrateStorage (Some (onRehydrateStorage (Some st) false now s0)) false later s1
    = onRehydrateStorage (Some st) false later s1 /\
  onRehydrateStorage (Some (onRehydrateStorage (Some st) false now s0)) false now s1
    = onRehydrateStorage (Some st) false now s0 /\
  onRehydrateStorage None false now s0 = s0 /\
  onRehydrateStorage (Some st) true now s0 = s0.
Proof.
  intros Hle. simpl. split; [| split; [| split; reflexivity]].
  - f_equal. rewrite map_map. apply map_ext.
    intros c. now apply cleanChampion_later.
  - f_equal. rewrite map_map. apply map_ext.
    intros c. apply cleanChampion_later. lra.
Qed.

(** The theorem for a slot whose ultimate timer ends at 5000: a load at
    clock 1000 followed by one at clock 6000 clears it, like one load at
    6000. *)
Lemma rehydration_composes_witness :
  let st := {| enemies := [with_ultEndTime (Some 5000) createEmptyChampion] |} in
  1000 <= 6000 /\
  onRehydrateStorage (Some (onRehydrateStorage (Some st) false 1000 initialState))
                     false 6000 initialState
  = {| enemies := [createEmptyChampion] |} /\
  onRehydrateStorage (Some st) false 1000 initialState = st.
Proof.
  intros st.
  assert (H : 1000 <= 6000) by discriminate.
  split; [exact H |]. split; [| reflexivity].
  rewrite (proj1 (rehydration_composes st initialState initialState 1000 6000 H)).
  reflexivity.
Defined.

End RehydrationAgain.

(* ------------------------------------------------------------------------- *)
(** ** Hydration: the restored state, then the cleaned one                   *)
(* ------------------------------------------------------------------------- *)

Section Hydration.

Local Open Scope Q_scope.

Lemma remainingSeconds_expired (e later : Q) :
  e <= later -> remainingSeconds (Some e) later = 0%Z.
Proof.
  intros Hle.
  apply (proj1 (proj1 (proj2 (remainingSeconds_running (Some e) later)))).
  simpl. now apply Qgtb_false.
Qed.

(** C2: hydration from a stored payload produces two store states, the
    restored state as it was stored and then the state the rehydration
    callback writes.  In the second, every timer end-time of every slot that
    was at or before the clock reading of the load is [null] and every
    end-time strictly after it is unchanged, as is the rest of the slot.  In
    the first the expired end-time is still present; the countdown of that
    timer nevertheless reads 0 at the load and at any later moment in both
    states, and no countdown is ever negative. *)
Theorem rehydration_cleans_after_the_restored_state
    (st s0 : TimerStoreState) (now : Q) (j : nat) (c : EnemyChampion) :
  0 <= now ->
  enemies st !! j = Some c ->
  exists cleaned c',
    hydrate (ReadState st) now s0 = [st; cleaned] /\
    cleaned = onRehydrateStorage (Some st) false now st /\
    length (enemies cleaned) = length (enemies st) /\
    enemies cleaned !! j = Some c' /\
    sameExceptLevel c c' /\
    currentLevel c' = currentLevel c /\
    activeUltCooldown c' = activeUltCooldown c /\
    forall f : TimerField,
      (forall e, timerEndTime f c = Some e -> e <= now ->
         timerEndTime f c' = None /\
         (forall later, remainingSeconds (timerEndTime f c') later = 0%Z) /\
         (forall later, now <= later ->
            remainingSeconds (timerEndTime f c) later = 0%Z)) /\
      (forall e, timerEndTime f c = Some e -> now < e ->
         timerEndTime f c' = Some e) /\
      (timerEndTime f c = None -> timerEndTime f c' = None) /\
      (forall later,
         (0 <= remainingSeconds (timerEndTime f c) later)%Z /\
         (0 <= remainingSeconds (timerEndTime f c') later)%Z).
Proof.
  intros Hnow Hc.
  destruct (onRehydrateStorage_cleans_slot st st now j c Hnow Hc)
    as (c' & Hc' & Hsame & Hlevel & Hactive & Htimers).
  exists (onRehydrateStorage (Some st) false now st), c'.
  split; [reflexivity |]. split; [reflexivity |].
  split; [simpl; apply length_map |].
  split; [exact Hc' |]. split; [exact Hsame |].
  split; [exact Hlevel |]. split; [exact Hactive |].
  intros f. destruct (Htimers f) as (Hexp & Hkeep & Hnone & Hnn).
  split; [| split; [exact Hkeep | split; [exact Hnone |]]].
  - intros e He Hle. destruct (Hexp e He Hle) as [Hn Hz].
    split; [exact Hn |]. split; [exact Hz |].
    intros later Hlater. rewrite He. apply remainingSeconds_expired. lra.
  - intros later. split; [apply remainingSeconds_nonneg | apply Hnn].
Qed.

(** The theorem at the documented scenario: a stored slot whose first
    summoner-spell timer ended 10 seconds before the load and whose ultimate
    timer ends 30 seconds after it. *)
Lemma rehydration_cleans_after_the_restored_state_witness :
  let now := 1700000000000 in
  let c := with_spell1EndTime (Some (now - 10000))
             (with_ultEndTime (Some (now + 30000)) createEmptyChampion) in
  let st := {| enemies := [c; createEmptyChampion; createEmptyChampion;
                           createEmptyChampion; createEmptyChampion] |} in
  0 <= now /\
  enemies st !! 0%nat = Some c /\
  exists cleaned c',
    hydrate (ReadState st) now initialState = [st; cleaned] /\
    enemies cleaned !! 0%nat = Some c' /\
    spell1EndTime c' = None /\
    remainingSeconds (spell1EndTime c') now = 0%Z /\
    remainingSeconds (spell1EndTime c) now = 0%Z /\
    ultEndTime c' = Some (now + 30000).
Proof.
  intros now c st.
  assert (Hnow : 0 <= now) by discriminate.
  assert (Hc : enemies st !! 0%nat = Some c) by reflexivity.
  split; [exact Hnow |]. split; [exact Hc |].
  destruct (rehydration_cleans_after_the_restored_state
              st initialState now 0%nat c Hnow Hc)
    as (cleaned & c' & Hhyd & _ & _ & Hc' & _ & _ & _ & Htimers).
  exists cleaned, c'. split; [exact Hhyd |]. split; [exact Hc' |].
  destruct (Htimers Spell1Timer) as (Hexp & _).
  destruct (Hexp (now - 10000) eq_refl ltac:(discriminate))
    as (Hnone & Hzero & Hrestored).
  split; [exact Hnone |]. split; [exact (Hzero now) |].
  split; [exact (Hrestored now ltac:(discriminate)) |].
  destruct (Htimers UltTimer) as (_ & Hkeep & _).
  exact (Hkeep (now + 30000) eq_refl ltac:(reflexivity)).
Defined.

(** The store state that hydration makes visible first holds the stored
    end-time that is already 10 seconds in the past, not [null]; the state
    written by the callback, which holds [null], is the second one. *)
Lemma hydration_first_shows_the_expired_timer :
  let now := 1700000000000 in
  let c := with_spell1EndTime (Some (now - 10000)) createEmptyChampion in
  let st := {| enemies := [c; createEmptyChampion; createEmptyChampion;
                           createEmptyChampion; createEmptyChampion] |} in
  now - 10000 <= now /\
  exists first second,
    hydrate (ReadState st) now initialState = [first; second] /\
    (exists c1, enemies first !! 0%nat = Some c1 /\
                spell1EndTime c1 = Some (now - 10000) /\
                spell1EndTime c1 <> None) /\
    (exists c2, enemies second !! 0%nat = Some c2 /\
                spell1EndTime c2 = None).
Proof.
  intros now c st. split; [discriminate |].
  exists st, (onRehydrateStorage (Some st) false now st).
  split; [reflexivity |]. split.
  - exists c. split; [reflexivity |]. split; [reflexivity | discriminate].
  - eexists. split; [reflexivity | reflexivity].
Qed.

End Hydration.

(* ------------------------------------------------------------------------- *)
(** ** The card's handlers                                                   *)
(* ------------------------------------------------------------------------- *)

Section Handlers.

Local Open Scope Q_scope.

Lemma arrayGet_None {A : Type} (l : list A) (i : Z) :
  arrayGet l i = None <-> (i < 0 \/ Z.of_nat (length l) <= i)%Z.
Proof.
  unfold arrayGet. destruct (i <? 0)%Z eqn:E.
  - apply Z.ltb_lt in E. split; [intros _; now left | reflexivity].
  - apply Z.ltb_ge in E. rewrite lookup_ge_None. split.
    + intros H. right. lia.
    + intros [H | H]; lia.
Qed.

(** X16: on a five-slot store the card's press and long-press handlers fail
    (the property read on [undefined] throws) exactly when the index is
    outside 0-4, where the store's own actions are silent no-ops. *)
Theorem handlers_throw_exactly_outside_the_slots
    (s : TimerStoreState) (i : Z) (nowGuard nowStart : Q) (slot : SpellSlot) :
  fiveSlots s ->
  (handleUltPress i nowGuard nowStart s = None <-> ~ slotIndex i) /\
  (handleSpellPress slot i nowGuard nowStart s = None <-> ~ slotIndex i) /\
  (handleUltLongPress i nowGuard s = None <-> ~ slotIndex i) /\
  (handleSpellLongPress slot i nowGuard s = None <-> ~ slotIndex i) /\
  (~ slotIndex i ->
     startUltTimer i nowStart s = s /\ startSpellTimer i slot nowStart s = s /\
     clearUltTimer i s = s /\ clearSpellTimer i slot s = s).
Proof.
  intros Hfive. unfold fiveSlots in Hfive.
  assert (Hget : arrayGet (enemies s) i = None <-> ~ slotIndex i).
  { rewrite arrayGet_None, Hfive. unfold slotIndex. lia. }
  unfold handleUltPress, handleSpellPress, handleUltLongPress, handleSpellLongPress.
  destruct (arrayGet (enemies s) i) as [c |] eqn:E.
  - assert (Hin : slotIndex i).
    { destruct (decide (slotIndex i)) as [H | H]; [exact H |].
      apply Hget in H. discriminate. }
    assert (Hsome : forall (A : Type) (x : option A),
               x <> None -> (x = None <-> ~ slotIndex i)).
    { intros A x Hx. split; [intros H0; contradiction | intros H0; contradiction]. }
    split; [apply Hsome; destruct (activeUltCooldown c);
              [destruct (isRunning _ _) |]; discriminate |].
    split; [apply Hsome; destruct (isRunning _ _); discriminate |].
    split; [apply Hsome; destruct (isRunning _ _); discriminate |].
    split; [apply Hsome; destruct (isRunning _ _); discriminate |].
    intros Hout. contradiction.
  - pose proof (proj1 Hget eq_refl) as Hout.
    assert (Hv : validIndex i = None)
      by (apply validIndex_outside; unfold slotIndex in Hout; lia).
    do 4 (split; [split; [intros _; exact Hout | reflexivity] |]).
    intros _. unfold_action. rewrite Hv. repeat split.
Qed.

Lemma handlers_throw_exactly_outside_the_slots_witness :
  fiveSlots initialState /\
  handleUltPress 5 0 0 initialState = None /\
  handleSpellLongPress Slot1 (-1) 0 initialState = None /\
  startUltTimer 5 0 initialState = initialState.
Proof.
  assert (Hfive : fiveSlots initialState) by reflexivity.
  split; [exact Hfive |].
  destruct (handlers_throw_exactly_outside_the_slots initialState 5 0 0 Slot1 Hfive)
    as (H5 & _ & _ & _ & Hnoop).
  destruct (handlers_throw_exactly_outside_the_slots initialState (-1) 0 0 Slot1 Hfive)
    as (_ & _ & _ & Hm & _).
  assert (Hout5 : ~ slotIndex 5) by (unfold slotIndex; lia).
  assert (Houtm : ~ slotIndex (-1)) by (unfold slotIndex; lia).
  split; [exact (proj2 H5 Hout5) |]. split; [exact (proj2 Hm Houtm) |].
  exact (proj1 (Hnoop Hout5)).
Defined.

Lemma isRunning_false (endTime : option Q) (now e : Q) :
  endTime = Some e -> e <= now -> isRunning endTime now = false.
Proof. intros -> H. simpl. now apply Qgtb_false. Qed.

(** X17: for a slot with an ultimate (active cooldown not null): a long
    press on the running ultimate timer clears it, and a press after that
    starts the timer as if it had never run; a press on an expired timer
    restarts it in the same way, and a long press on an expired timer
    changes nothing. *)
Theorem ult_long_press_then_press_restarts
    (s : TimerStoreState) (i : Z) (c : EnemyChampion) (active e : Q) :
  slotIndex i -> enemies s !! Z.to_nat i = Some c ->
  activeUltCooldown c = Some active -> ultEndTime c = Some e ->
  (forall now, now < e ->
     handleUltLongPress i now s = Some (clearUltTimer i s)) /\
  (forall nowGuard nowStart,
     handleUltPress i nowGuard nowStart (clearUltTimer i s)
     = Some (startUltTimer i nowStart s)) /\
  (forall nowGuard nowStart, e <= nowGuard ->
     handleUltPress i nowGuard nowStart s = Some (startUltTimer i nowStart s)) /\
  (forall now, e <= now -> handleUltLongPress i now s = Some s) /\
  (forall nowStart,
     enemies (startUltTimer i nowStart s) !! Z.to_nat i
     = Some (with_ultEndTime
               (Some (nowStart + calculateCooldown active (abilityHaste c) * 1000)) c)).
Proof.
  intros Hi Hc Ha He. pose proof (validIndex_slot i Hi) as Hv.
  assert (Hclr : enemies (clearUltTimer i s) !! Z.to_nat i
                 = Some (with_ultEndTime None c)).
  { rewrite (clearUltTimer_as_update i i s Hv). now apply updateSlot_lookup. }
  split; [| split; [| split; [| split]]].
  - intros now Hlt. unfold handleUltLongPress.
    rewrite (arrayGet_slot _ i Hi), Hc. now rewrite (isRunning_true _ _ _ He Hlt).
  - intros nowGuard nowStart. unfold handleUltPress.
    rewrite (arrayGet_slot _ i Hi), Hclr. simpl. rewrite Ha. f_equal.
    unfold startUltTimer. rewrite Hv, Hclr, Hc. simpl. rewrite Ha.
    rewrite (clearUltTimer_as_update i i s Hv), updateSlot_compose.
    apply updateSlot_ext. reflexivity.
  - intros nowGuard nowStart Hle. unfold handleUltPress.
    rewrite (arrayGet_slot _ i Hi), Hc, Ha.
    now rewrite (isRunning_false _ _ _ He Hle).
  - intros now Hle. unfold handleUltLongPress.
    rewrite (arrayGet_slot _ i Hi), Hc.
    now rewrite (isRunning_false _ _ _ He Hle).
  - intros nowStart. unfold startUltTimer. rewrite Hv, Hc, Ha. cbv zeta.
    now apply updateSlot_lookup.
Qed.

Lemma ult_long_press_then_press_restarts_witness :
  let s := startUltTimer 0 1000 (setChampionData 0 luxDetail initialState) in
  slotIndex 0 /\
  exists c e,
    enemies s !! 0%nat = Some c /\ activeUltCooldown c = Some 80 /\
    ultEndTime c = Some e /\ 2000 < e /\
    handleUltLongPress 0 2000 s = Some (clearUltTimer 0 s) /\
    handleUltPress 0 3000 3001 (clearUltTimer 0 s) = Some (startUltTimer 0 3001 s).
Proof.
  intros s.
  assert (Hi : slotIndex 0) by (unfold slotIndex; lia).
  split; [exact Hi |].
  destruct (enemies s !! 0%nat) as [c |] eqn:Hc; [| discriminate Hc].
  assert (Ha : activeUltCooldown c = Some 80).
  { vm_compute in Hc. injection Hc as <-. reflexivity. }
  destruct (ultEndTime c) as [e |] eqn:He.
  2: { vm_compute in Hc. injection Hc as <-. discriminate He. }
  assert (Hlt : 2000 < e).
  { vm_compute in Hc. injection Hc as <-. injection He as <-. reflexivity. }
  destruct (ult_long_press_then_press_restarts s 0 c 80 e Hi Hc Ha He)
    as (Hlong & Hpress & _).
  exists c, e. split; [reflexivity |]. split; [exact Ha |].
  split; [exact He |]. split; [exact Hlt |].
  split; [exact (Hlong 2000 Hlt) | exact (Hpress 3000 3001)].
Defined.

(** X18: for a spell slot with a positive stored base cooldown: a long
    press on the running spell timer clears it without opening the picker,
    and a press after that starts the timer as if it had never run; a long
    press on a timer that is not running leaves the store alone and opens
    the picker for that slot; a press on a timer that is not running starts
    it. *)
Theorem spell_long_press_clears_or_opens_picker
    (s : TimerStoreState) (i : Z) (slot : SpellSlot) (c : EnemyChampion) :
  slotIndex i -> enemies s !! Z.to_nat i = Some c ->
  0 < spellBaseCooldown slot c ->
  (forall now e, spellEndTime slot c = Some e -> now < e ->
     handleSpellLongPress slot i now s = Some (clearSpellTimer i slot s, None)) /\
  (forall nowGuard nowStart,
     handleSpellPress slot i nowGuard nowStart (clearSpellTimer i slot s)
     = Some (startSpellTimer i slot nowStart s)) /\
  (forall now, isRunning (spellEndTime slot c) now = false ->
     handleSpellLongPress slot i now s = Some (s, Some slot) /\
     forall nowStart,
       handleSpellPress slot i now nowStart s
       = Some (startSpellTimer i slot nowStart s)) /\
  (forall nowStart,
     enemies (startSpellTimer i slot nowStart s) !! Z.to_nat i
     = Some (with_spellEndTime slot
               (Some (nowStart + calculateCooldown (spellBaseCooldown slot c)
                                   (summonerHaste c) * 1000)) c)).
Proof.
  intros Hi Hc Hbase. pose proof (validIndex_slot i Hi) as Hv.
  assert (Hb : Qle_bool (spellBaseCooldown slot c) 0 = false).
  { destruct (Qle_bool (spellBaseCooldown slot c) 0) eqn:E; [| reflexivity].
    apply Qle_bool_iff in E. lra. }
  assert (Hclr : enemies (clearSpellTimer i slot s) !! Z.to_nat i
                 = Some (with_spellEndTime slot None c)).
  { rewrite (clearSpellTimer_as_update i i slot s Hv). now apply updateSlot_lookup. }
  assert (Hb' : spellBaseCooldown slot (with_spellEndTime slot None c)
                = spellBaseCooldown slot c) by (destruct slot; reflexivity).
  assert (Hh' : summonerHaste (with_spellEndTime slot None c) = summonerHaste c)
    by (destruct slot; reflexivity).
  split; [| split; [| split]].
  - intros now e He Hlt. unfold handleSpellLongPress.
    rewrite (arrayGet_slot _ i Hi), Hc. now rewrite (isRunning_true _ _ _ He Hlt).
  - intros nowGuard nowStart. unfold handleSpellPress.
    rewrite (arrayGet_slot _ i Hi), Hclr.
    assert (Hnone : spellEndTime slot (with_spellEndTime slot None c) = None)
      by (destruct slot; reflexivity).
    rewrite Hnone. simpl. f_equal.
    unfold startSpellTimer. rewrite Hv, Hclr, Hc. cbv zeta.
    rewrite Hb', Hh', Hb.
    rewrite (clearSpellTimer_as_update i i slot s Hv), updateSlot_compose.
    apply updateSlot_ext. intros c0 _. destruct slot; reflexivity.
  - intros now Hidle. unfold handleSpellLongPress, handleSpellPress.
    rewrite (arrayGet_slot _ i Hi), Hc, Hidle. split; reflexivity.
  - intros nowStart. unfold startSpellTimer. rewrite Hv, Hc. cbv zeta. rewrite Hb.
    now apply updateSlot_lookup.
Qed.

Lemma spell_long_press_clears_or_opens_picker_witness :
  slotIndex 2 /\
  enemies initialState !! 2%nat = Some createEmptyChampion /\
  0 < spellBaseCooldown Slot2 createEmptyChampion /\
  handleSpellLongPress Slot2 2 1000 initialState = Some (initialState, Some Slot2) /\
  handleSpellPress Slot2 2 1000 1001 initialState
  = Some (startSpellTimer 2 Slot2 1001 initialState).
Proof.
  assert (Hi : slotIndex 2) by (unfold slotIndex; lia).
  assert (Hc : enemies initialState !! Z.to_nat 2 = Some createEmptyChampion)
    by reflexivity.
  assert (Hb : 0 < spellBaseCooldown Slot2 createEmptyChampion) by reflexivity.
  split; [exact Hi |]. split; [exact Hc |]. split; [exact Hb |].
  destruct (spell_long_press_clears_or_opens_picker initialState 2 Slot2
              createEmptyChampion Hi Hc Hb) as (_ & _ & Hidle & _).
  destruct (Hidle 1000 eq_refl) as [Hlong Hpress].
  split; [exact Hlong | exact (Hpress 1001)].
Defined.

End Handlers.

(* ------------------------------------------------------------------------- *)
(** ** The haste text field                                                  *)
(* ------------------------------------------------------------------------- *)

Lemma digitValue_range (c : ascii) : isDigit c = true -> 0 <= digitValue c <= 9.
Proof.
  unfold isDigit, digitValue. intros H.
  apply andb_true_iff in H as [H1 H2].
  apply N.leb_le in H1. apply N.leb_le in H2. lia.
Qed.

Lemma readDigits_bounds (s : string) (acc : Z) :
  0 <= acc ->
  acc <= readDigits acc s /\
  readDigits acc s < (acc + 1) * 10 ^ Z.of_nat (String.length s).
Proof.
  revert acc. induction s as [| c rest IH]; intros acc Hacc.
  - simpl. lia.
  - cbn [readDigits String.length].
    assert (Hpow : 10 ^ Z.of_nat (S (String.length rest))
                   = 10 * 10 ^ Z.of_nat (String.length rest)).
    { rewrite Nat2Z.inj_succ, Z.pow_succ_r by lia. reflexivity. }
    assert (Hp : 0 < 10 ^ Z.of_nat (String.length rest))
      by (apply Z.pow_pos_nonneg; lia).
    rewrite Hpow.
    destruct (isDigit c) eqn:Ed.
    + pose proof (digitValue_range c Ed) as Hd.
      destruct (IH (10 * acc + digitValue c) ltac:(lia)) as [Hlo Hhi].
      split; [lia |]. nia.
    + split; [lia |]. nia.
Qed.

Lemma trimStart_length (s : string) :
  (String.length (trimStart s) <= String.length s)%nat.
Proof.
  induction s as [| c rest IH]; simpl; [lia |].
  destruct (isWhiteSpace c); simpl; lia.
Qed.

Lemma parseInt_bounds (text : string) (p : Z) :
  parseInt text = Some p ->
  - 10 ^ Z.of_nat (String.length text) < p < 10 ^ Z.of_nat (String.length text).
Proof.
  unfold parseInt. pose proof (trimStart_length text) as Hlen.
  assert (Hmono : forall n m : nat, (n <= m)%nat -> 10 ^ Z.of_nat n <= 10 ^ Z.of_nat m).
  { intros n m Hnm. apply Z.pow_le_mono_r; lia. }
  assert (Hbody : forall body : string,
             (String.length body <= String.length text)%nat ->
             0 <= readDigits 0 body < 10 ^ Z.of_nat (String.length text)).
  { intros body Hb. destruct (readDigits_bounds body 0 ltac:(lia)) as [Hlo Hhi].
    specialize (Hmono _ _ Hb). lia. }
  destruct (trimStart text) as [| c rest] eqn:Et.
  - simpl. discriminate.
  - rewrite ?Et in Hlen. simpl in Hlen.
    destruct (Ascii.eqb c "-"%char) eqn:Em; [apply Ascii.eqb_eq in Em; subst c |].
    { destruct (startsWithDigit rest); [| discriminate].
      intros [= <-]. specialize (Hbody rest ltac:(lia)). lia. }
    destruct (Ascii.eqb c "+"%char) eqn:Ep; [apply Ascii.eqb_eq in Ep; subst c |].
    { destruct (startsWithDigit rest); [| discriminate].
      intros [= <-]. specialize (Hbody rest ltac:(lia)). lia. }
    assert (Hgen :
      (let '(sign, body) :=
         match String c rest with
         | String "-"%char r => (-1, r)
         | String "+"%char r => (1, r)
         | _ => (1, String c rest)
         end in
       if startsWithDigit body then Some (sign * readDigits 0 body) else None)
      = if startsWithDigit (String c rest)
        then Some (1 * readDigits 0 (String c rest)) else None).
    { destruct c as [[] [] [] [] [] [] [] []]; try reflexivity;
        simpl in Em, Ep; discriminate. }
    rewrite Hgen. destruct (startsWithDigit (String c rest)); [| discriminate].
    intros [= <-]. specialize (Hbody (String c rest) ltac:(simpl; lia)).
    cbn [readDigits] in Hbody. lia.
Qed.

(** X19: whatever text of at most three characters reaches
    [handleHasteChange] (the field has [maxLength] 3), the ability haste it
    stores in a valid slot is an integer between 0 and 999. *)
Theorem haste_field_stores_0_to_999 (s : TimerStoreState) (i : Z) (text : string) :
  fiveSlots s -> slotIndex i -> (String.length text <= 3)%nat ->
  exists (c' : EnemyChampion) (n : Z),
    enemies (handleHasteChange i text s) !! Z.to_nat i = Some c' /\
    abilityHaste c' = inject_Z n /\ 0 <= n <= 999.
Proof.
  intros Hfive Hi Hlen.
  destruct (fiveSlots_lookup s i Hfive Hi) as [c Hc].
  exists (with_abilityHaste (inject_Z (clampHaste (parseInt text))) c),
    (clampHaste (parseInt text)).
  unfold handleHasteChange, setAbilityHaste. rewrite (validIndex_slot i Hi).
  split; [now apply updateSlot_lookup |]. split; [reflexivity |].
  destruct (clampHaste_spec (parseInt text)) as [Hnn Hcase].
  split; [exact Hnn |].
  destruct (parseInt text) as [p |] eqn:Ep; [| lia].
  pose proof (parseInt_bounds text p Ep) as Hb.
  assert (10 ^ Z.of_nat (String.length text) <= 10 ^ 3)
    by (apply Z.pow_le_mono_r; lia).
  simpl. lia.
Qed.

Lemma haste_field_stores_0_to_999_witness :
  fiveSlots initialState /\ slotIndex 1 /\ (String.length "999" <= 3)%nat /\
  exists c',
    enemies (handleHasteChange 1 "999" initialState) !! 1%nat = Some c' /\
    abilityHaste c' = inject_Z 999.
Proof.
  assert (Hfive : fiveSlots initialState) by reflexivity.
  assert (Hi : slotIndex 1) by (unfold slotIndex; lia).
  assert (Hlen : (String.length "999" <= 3)%nat) by (simpl; lia).
  split; [exact Hfive |]. split; [exact Hi |]. split; [exact Hlen |].
  destruct (haste_field_stores_0_to_999 initialState 1 "999" Hfive Hi Hlen)
    as (c' & n & Hc' & Hn & _).
  exists c'. split; [exact Hc' |].
  vm_compute in Hc'. injection Hc' as <-. reflexivity.
Defined.

(* ------------------------------------------------------------------------- *)
(** ** The in-memory store keeps the derived cooldown too                    *)
(* ------------------------------------------------------------------------- *)

Lemma simplified_updateSlot_Forall (P : Simplified.EnemyChampion -> Prop)
    (s : Simplified.TimerStoreState) (i : Z) f :
  (forall c, P c -> P (f c)) ->
  Forall P (Simplified.enemies s) ->
  Forall P (Simplified.enemies (Simplified.updateSlot i f s)).
Proof.
  intros Hf Hall. unfold Simplified.updateSlot.
  destruct (Simplified.enemies s !! Z.to_nat i) as [c |] eqn:E; [| assumption].
  simpl. apply Forall_insert; [assumption |].
  apply Hf. eapply Forall_lookup_1; eassumption.
Qed.

Lemma simplified_updateSlot_length (s : Simplified.TimerStoreState) (i : Z) f :
  length (Simplified.enemies (Simplified.updateSlot i f s))
  = length (Simplified.enemies s).
Proof.
  unfold Simplified.updateSlot.
  destruct (Simplified.enemies s !! Z.to_nat i); [| reflexivity].
  simpl. apply length_insert.
Qed.

Lemma simplified_step_invariant (a : Simplified.Action) (s : Simplified.TimerStoreState) :
  length (Simplified.enemies s) = 5%nat /\
  Forall simplifiedSlotConsistent (Simplified.enemies s) ->
  length (Simplified.enemies (Simplified.step a s)) = 5%nat /\
  Forall simplifiedSlotConsistent (Simplified.enemies (Simplified.step a s)).
Proof.
  intros [Hlen Hall].
  destruct a; simpl; unfold_simplified_action;
    [.. | split; [reflexivity | repeat constructor]];
    (destruct (validIndex index) as [k |]; [| split; assumption]);
    try (destruct (Simplified.enemies s !! Z.to_nat k) as [champ |];
         [| split; assumption]);
    try (destruct (Simplified.activeUltCooldown champ); [| split; assumption]);
    (split; [now rewrite simplified_updateSlot_length |]);
    (apply simplified_updateSlot_Forall; [| assumption]); intros c Hc;
    try destruct spellSlot; first [exact Hc | reflexivity].
Qed.

(** X20: in the in-memory store as well, every state reached from the
    initial one by its actions has five slots, each with the active cooldown
    derived from its level and base cooldowns. *)
Theorem simplified_activeUltCooldown_always_derived (actions : list Simplified.Action) :
  length (Simplified.enemies (simplifiedRun actions Simplified.initialState)) = 5%nat /\
  Forall simplifiedSlotConsistent
         (Simplified.enemies (simplifiedRun actions Simplified.initialState)).
Proof.
  assert (Hinit : length (Simplified.enemies Simplified.initialState) = 5%nat /\
                  Forall simplifiedSlotConsistent
                         (Simplified.enemies Simplified.initialState))
    by (split; [reflexivity | repeat constructor]).
  revert Hinit. generalize Simplified.initialState as s.
  induction actions as [| a rest IH]; intros s Hs; simpl.
  - exact Hs.
  - apply IH. now apply simplified_step_invariant.
Qed.

(* ------------------------------------------------------------------------- *)
(** ** The polling of the countdown hook                                     *)
(* ------------------------------------------------------------------------- *)

Section Polling.

Local Open Scope Q_scope.

Lemma clearIntervalRef_spec (st : Countdown) :
  noLeakedInterval st ->
  intervalRef (clearIntervalRef st) = None /\
  liveIntervals (clearIntervalRef st) = [] /\
  remaining (clearIntervalRef st) = remaining st /\
  subscribed (clearIntervalRef st) = subscribed st.
Proof.
  unfold noLeakedInterval, clearIntervalRef. intros H.
  destruct (intervalRef st) as [h |] eqn:E; cbn [intervalRef liveIntervals remaining subscribed].
  - rewrite H, filter_cons, filter_nil. repeat split.
    case_decide; [exfalso; auto | reflexivity].
  - rewrite E, H. repeat split.
Qed.

Lemma tick_spec (e now : Q) (st : Countdown) :
  noLeakedInterval st ->
  remaining (tick e now st) = remainingSeconds (Some e) now /\
  subscribed (tick e now st) = subscribed st /\
  noLeakedInterval (tick e now st) /\
  (e <= now ->
     remaining (tick e now st) = 0%Z /\
     intervalRef (tick e now st) = None /\ liveIntervals (tick e now st) = []) /\
  (now < e ->
     (0 < remaining (tick e now st))%Z /\
     intervalRef (tick e now st) = intervalRef st /\
     liveIntervals (tick e now st) = liveIntervals st).
Proof.
  intros Hinv. unfold tick.
  set (diff := Z.max 0 (Qceiling ((e - now) / 1000))).
  assert (Hinv1 : noLeakedInterval (setRemaining diff st)) by exact Hinv.
  destruct (clearIntervalRef_spec _ Hinv1) as (Hr & Hl & Hrem & Hsub).
  destruct (remainingSeconds_running (Some e) now) as (Hpos & Hzero & _).
  change (remainingSeconds (Some e) now) with diff in Hpos, Hzero.
  destruct (diff =? 0)%Z eqn:Ed.
  - apply Z.eqb_eq in Ed.
    split; [now rewrite Hrem |]. split; [exact Hsub |].
    split; [unfold noLeakedInterval; now rewrite Hr, Hl |].
    split.
    + intros _. split; [now rewrite Hrem |]. split; assumption.
    + intros Hlt. assert (Hrun : isRunning (Some e) now = true)
        by (simpl; now apply Qgtb_true).
      apply Hpos in Hrun. lia.
  - apply Z.eqb_neq in Ed.
    split; [reflexivity |]. split; [reflexivity |]. split; [exact Hinv |].
    split.
    + intros Hle. assert (Hrun : isRunning (Some e) now = false)
        by (simpl; now apply Qgtb_false).
      apply Hzero in Hrun. contradiction.
    + intros _. simpl. split; [| split; reflexivity].
      unfold diff in *. lia.
Qed.

Lemma hookStep_invariant (ev : HookEvent) (ps ps' : option Q * Countdown) :
  hookInvariant ps -> hookStep ev ps = Some ps' -> hookInvariant ps'.
Proof.
  destruct ps as [phase st]. unfold hookInvariant. simpl.
  intros (Hleak & Hidle & Hact & Hrem) Hstep.
  destruct ev as [endTime now | h now | active now1 now2 |], phase as [e |];
    simpl in Hstep; try discriminate.
  - (* effect *)
    injection Hstep as <-. simpl.
    destruct (Hidle eq_refl) as [Href Hsub].
    destruct endTime as [e |]; simpl.
    + destruct (tick_spec e now st Hleak) as (Hr & _ & Hl & _).
      assert (Hnone : intervalRef (tick e now st) = None).
      { unfold tick. destruct (_ =? _)%Z; unfold clearIntervalRef; simpl;
          now rewrite ?Href. }
      unfold noLeakedInterval in Hl. rewrite Hnone in Hl.
      split; [unfold noLeakedInterval; simpl; now rewrite Hl |].
      split; [discriminate |]. split; [reflexivity |].
      rewrite Hr. apply remainingSeconds_nonneg.
    + split; [exact Hleak |]. split; [intros _; now split |].
      split; [intros [? [=]] | lia].
  - (* interval fires *)
    destruct (bool_decide _); [| discriminate]. injection Hstep as <-. simpl.
    destruct (tick_spec e now st Hleak) as (Hr & Hs & Hl & _).
    split; [exact Hl |]. split; [discriminate |].
    split; [intros _; rewrite Hs; apply Hact; eauto |].
    rewrite Hr. apply remainingSeconds_nonneg.
  - (* app state *)
    destruct (subscribed st) eqn:Hsub; [| discriminate]. injection Hstep as <-. simpl.
    unfold handleAppState. destruct active; [| repeat split; auto; discriminate].
    destruct (tick_spec e now1 st Hleak) as (Hr & Hs & Hl & _).
    destruct (Qgtb (e - now2) 0 && negb (bool_decide (is_Some (intervalRef (tick e now1 st)))))
      eqn:Eg.
    + apply andb_true_iff in Eg as [_ Eg]. apply negb_true_iff in Eg.
      apply bool_decide_eq_false in Eg.
      assert (Hnone : intervalRef (tick e now1 st) = None).
      { destruct (intervalRef (tick e now1 st)); [exfalso; apply Eg; eauto | reflexivity]. }
      unfold noLeakedInterval in Hl. rewrite Hnone in Hl.
      split; [unfold noLeakedInterval; simpl; now rewrite Hl |].
      split; [discriminate |]. split; [intros _; simpl; congruence |].
      simpl. rewrite Hr. apply remainingSeconds_nonneg.
    + split; [exact Hl |]. split; [discriminate |].
      split; [intros _; congruence |].
      rewrite Hr. apply remainingSeconds_nonneg.
  - (* cleanup *)
    injection Hstep as <-. simpl.
    destruct (clearIntervalRef_spec st Hleak) as (Hr & Hl & Hrm & _).
    split; [unfold noLeakedInterval; simpl; now rewrite Hr, Hl |].
    split; [intros _; now split |]. split; [intros [? [=]] |].
    simpl. now rewrite Hrm.
Qed.

(** X21: however effects, interval firings, foreground notifications and
    cleanups follow one another on a mounted [useCountdown], at most one
    interval is live and it is the one held in [intervalRef]; once the
    cleanup has run (or after an effect for [null]) no interval is live and
    the listener is unsubscribed; the published value is never negative. *)
Theorem countdown_hook_never_leaks_an_interval
    (evs : list HookEvent) (phase : option Q) (st : Countdown) :
  hookRun evs (None, countdownInit) = Some (phase, st) ->
  noLeakedInterval st /\
  (length (liveIntervals st) <= 1)%nat /\
  (phase = None -> liveIntervals st = [] /\ intervalRef st = None /\
                   subscribed st = false) /\
  (0 <= remaining st)%Z.
Proof.
  assert (Hgen : forall evs ps ps',
             hookInvariant ps -> hookRun evs ps = Some ps' -> hookInvariant ps').
  { clear. induction evs as [| ev rest IH]; intros ps ps' Hinv Hrun; simpl in Hrun.
    - now injection Hrun as <-.
    - destruct (hookStep ev ps) as [ps1 |] eqn:E; [| discriminate].
      eapply IH; [| exact Hrun]. eapply hookStep_invariant; eassumption. }
  intros Hrun.
  assert (Hinit : hookInvariant (None, countdownInit)).
  { unfold hookInvariant. simpl. split; [reflexivity |].
    split; [intros _; split; reflexivity |].
    split; [intros [? [=]] | lia]. }
  destruct (Hgen _ _ _ Hinit Hrun) as (Hleak & Hidle & _ & Hrem). simpl in *.
  split; [exact Hleak |]. unfold noLeakedInterval in Hleak.
  split; [rewrite Hleak; destruct (intervalRef st); simpl; lia |].
  split; [| exact Hrem].
  intros ->. destruct (Hidle eq_refl) as [Href Hsub].
  rewrite Hleak, Href. repeat split; assumption.
Qed.

(** A run with a timer ending at 2500: mounted at clock 0, the interval
    fires at 1000 and 3000, the app comes back to the foreground, and the
    end-time changes to [null]. *)
Lemma countdown_hook_never_leaks_an_interval_witness :
  let evs := [EvEffect (Some 2500) 0; EvIntervalFires 0 1000;
              EvIntervalFires 0 3000; EvAppState true 3500 3500;
              EvCleanup; EvEffect None 4000] in
  exists st,
    hookRun evs (None, countdownInit) = Some (None, st) /\
    liveIntervals st = [] /\ remaining st = 0%Z.
Proof.
  intros evs.
  destruct (hookRun evs (None, countdownInit)) as [[phase st] |] eqn:Hrun;
    [| vm_compute in Hrun; discriminate Hrun].
  assert (Hphase : phase = None).
  { vm_compute in Hrun. now injection Hrun as <- _. }
  subst phase. exists st. split; [reflexivity |].
  destruct (countdown_hook_never_leaks_an_interval evs None st Hrun)
    as (_ & _ & Hidle & _).
  split; [exact (proj1 (Hidle eq_refl)) |].
  vm_compute in Hrun. now injection Hrun as <-.
Defined.

(** X22: a tick publishes the countdown of the end-time at the clock it
    reads; at or after the end-time it publishes 0 and stops the polling
    (the interval is cleared), before the end-time it publishes a positive
    value and keeps the interval.  An effect run for an end-time that has
    already passed still sets an interval, which its first firing clears. *)
Theorem countdown_polling_stops_at_expiry (e now : Q) (st : Countdown) :
  noLeakedInterval st ->
  remaining (tick e now st) = remainingSeconds (Some e) now /\
  (e <= now ->
     remaining (tick e now st) = 0%Z /\
     intervalRef (tick e now st) = None /\ liveIntervals (tick e now st) = []) /\
  (now < e ->
     (0 < remaining (tick e now st))%Z /\
     intervalRef (tick e now st) = intervalRef st /\
     liveIntervals (tick e now st) = liveIntervals st) /\
  (e <= now -> intervalRef st = None ->
     forall later, now <= later ->
       exists h,
         intervalRef (runEffect (Some e) now st) = Some h /\
         liveIntervals (runEffect (Some e) now st) = [h] /\
         remaining (runEffect (Some e) now st) = 0%Z /\
         liveIntervals (tick e later (runEffect (Some e) now st)) = []).
Proof.
  intros Hleak.
  destruct (tick_spec e now st Hleak) as (Hr & _ & Hl & Hexp & Hrun).
  split; [exact Hr |]. split; [exact Hexp |]. split; [exact Hrun |].
  intros Hle Hnone later Hlater.
  destruct (Hexp Hle) as (Hz & Href & Hlive).
  exists (nextIntervalId (tick e now st)).
  assert (Hleak' : noLeakedInterval (runEffect (Some e) now st)).
  { unfold noLeakedInterval. simpl. now rewrite Hlive. }
  split; [reflexivity |]. split; [simpl; now rewrite Hlive |].
  split; [exact Hz |].
  destruct (tick_spec e later _ Hleak') as (_ & _ & _ & Hexp' & _).
  apply Hexp'. lra.
Qed.

Lemma countdown_polling_stops_at_expiry_witness :
  let st := runEffect (Some 2500) 0 countdownInit in
  noLeakedInterval st /\
  remaining st = 3%Z /\ liveIntervals st = [0%nat] /\
  remaining (tick 2500 3000 st) = 0%Z /\ liveIntervals (tick 2500 3000 st) = [].
Proof.
  intros st.
  assert (Hleak : noLeakedInterval st) by reflexivity.
  split; [exact Hleak |]. split; [reflexivity |]. split; [reflexivity |].
  destruct (countdown_polling_stops_at_expiry 2500 3000 st Hleak) as (_ & Hexp & _).
  destruct (Hexp ltac:(discriminate)) as (Hz & _ & Hl).
  split; assumption.
Defined.

End Polling.

(* ------------------------------------------------------------------------- *)
(** ** The text in the circle                                                *)
(* ------------------------------------------------------------------------- *)

Lemma readDigits_no_digit (acc : Z) (r : string) :
  startsWithDigit r = false -> readDigits acc r = acc.
Proof. destruct r as [| c r]; simpl; [reflexivity |]. now intros ->. Qed.

Lemma readDigits_string_of_uint (d : Decimal.uint) (acc : nat) (r : string) :
  readDigits (Z.of_nat acc) (NilEmpty.string_of_uint d ++ r)
  = readDigits (Z.of_nat (Nat.of_uint_acc d acc)) r.
Proof.
  revert acc. induction d; intros acc; cbn [NilEmpty.string_of_uint Nat.of_uint_acc];
    [reflexivity | ..];
    cbn [String.append readDigits]; rewrite <- IHd; f_equal;
    rewrite ?Nat2Z.inj_succ, Nat.tail_mul_spec, Nat2Z.inj_mul;
    unfold digitValue; simpl; lia.
Qed.

Lemma to_uint_not_Nil (n : nat) : Nat.to_uint n <> Decimal.Nil.
Proof.
  intros H. pose proof (DecimalNat.Unsigned.of_to n) as Hn.
  rewrite H in Hn. simpl in Hn. subst n. discriminate H.
Qed.

Lemma string_of_uint_head (d : Decimal.uint) :
  d <> Decimal.Nil ->
  exists c rest, NilEmpty.string_of_uint d = String c rest /\ isDigit c = true.
Proof.
  destruct d; [congruence | ..]; intros _; eexists _, _; split; reflexivity.
Qed.

Lemma digit_is_plain (c : ascii) :
  isDigit c = true ->
  isWhiteSpace c = false /\ Ascii.eqb c "-" = false /\ Ascii.eqb c "+" = false.
Proof.
  destruct c as [[] [] [] [] [] [] [] []]; intros H;
    first [discriminate H | repeat split; reflexivity].
Qed.

Lemma sign_match_plain (c : ascii) (rest : string) :
  Ascii.eqb c "-" = false -> Ascii.eqb c "+" = false ->
  match String c rest with
  | String "-"%char r => (-1, r)
  | String "+"%char r => (1, r)
  | _ => (1, String c rest)
  end = (1, String c rest).
Proof.
  intros Em Ep.
  destruct c as [[] [] [] [] [] [] [] []]; try reflexivity;
    simpl in Em, Ep; discriminate.
Qed.

Lemma parseInt_leading_digit (c : ascii) (rest : string) :
  isDigit c = true ->
  parseInt (String c rest) = Some (readDigits 0 (String c rest)).
Proof.
  intros Hc. destruct (digit_is_plain c Hc) as (Hws & Em & Ep).
  unfold parseInt. cbn [trimStart]. rewrite Hws, (sign_match_plain c rest Em Ep).
  cbn [startsWithDigit]. rewrite Hc. now rewrite Z.mul_1_l.
Qed.

Lemma parseInt_numberToString (n : Z) (r : string) :
  0 <= n -> startsWithDigit r = false ->
  parseInt (numberToString n ++ r) = Some n.
Proof.
  intros Hn Hr. unfold numberToString.
  destruct (string_of_uint_head _ (to_uint_not_Nil (Z.to_nat n)))
    as (c & rest & Hs & Hc).
  assert (Happ : (NilEmpty.string_of_uint (Nat.to_uint (Z.to_nat n)) ++ r)%string
                 = String c (rest ++ r)) by now rewrite Hs.
  rewrite Happ, (parseInt_leading_digit c _ Hc), <- Happ.
  change 0 with (Z.of_nat 0). rewrite readDigits_string_of_uint.
  change (Nat.of_uint_acc (Nat.to_uint (Z.to_nat n)) 0)
    with (Nat.of_uint (Nat.to_uint (Z.to_nat n))).
  rewrite DecimalNat.Unsigned.of_to, (readDigits_no_digit _ _ Hr). f_equal. lia.
Qed.

Lemma seconds_part_two_digits (k : Z) :
  0 <= k < 60 ->
  exists d1 d2,
    padStart2 (numberToString k) = String d1 (String d2 "") /\
    isDigit d1 = true /\ isDigit d2 = true /\
    10 * digitValue d1 + digitValue d2 = k.
Proof.
  intros Hk.
  assert (Hall : forallb
            (fun j : nat =>
               match padStart2 (numberToString (Z.of_nat j)) with
               | String d1 (String d2 EmptyString) =>
                   isDigit d1 && isDigit d2
                   && (10 * digitValue d1 + digitValue d2 =? Z.of_nat j)
               | _ => false
               end) (seq 0 60) = true) by (vm_compute; reflexivity).
  rewrite forallb_forall in Hall.
  specialize (Hall (Z.to_nat k) ltac:(apply in_seq; lia)).
  rewrite Z2Nat.id in Hall by lia.
  destruct (padStart2 (numberToString k)) as [| d1 [| d2 [| ? ?]]]; try discriminate.
  apply andb_true_iff in Hall as [Hall H3]. apply andb_true_iff in Hall as [H1 H2].
  apply Z.eqb_eq in H3. exists d1, d2. repeat split; assumption.
Qed.

(** X23: [formatTime] shows 0 for a count that is not positive, the plain
    number below one minute, and from one minute on the whole minutes, a
    colon and the seconds of the minute on exactly two digits; read back
    with [parseInt], the text gives the seconds below one minute and the
    whole minutes from one minute on. *)
Theorem formatTime_shape (seconds : Z) :
  (seconds <= 0 -> formatTime seconds = "0"%string) /\
  (0 < seconds < 60 -> formatTime seconds = numberToString seconds) /\
  (60 <= seconds ->
     exists d1 d2,
       formatTime seconds
         = (numberToString (seconds / 60) ++ ":" ++ String d1 (String d2 ""))%string /\
       isDigit d1 = true /\ isDigit d2 = true /\
       10 * digitValue d1 + digitValue d2 = seconds mod 60) /\
  parseInt (formatTime seconds)
    = Some (if seconds <? 60 then Z.max 0 seconds else seconds / 60).
Proof.
  assert (Hsmall : 0 < seconds < 60 -> formatTime seconds = numberToString seconds).
  { intros H. unfold formatTime.
    destruct (seconds <=? 0) eqn:E; [apply Z.leb_le in E; lia |].
    rewrite Z.div_small by lia. simpl. rewrite Z.rem_small by lia. reflexivity. }
  assert (Hbig : 60 <= seconds ->
     formatTime seconds
     = (numberToString (seconds / 60) ++ ":"
        ++ padStart2 (numberToString (seconds mod 60)))%string).
  { intros H. unfold formatTime.
    destruct (seconds <=? 0) eqn:E; [apply Z.leb_le in E; lia |].
    assert (Hm : 0 < seconds / 60) by (apply Z.div_str_pos; lia).
    destruct (seconds / 60 >? 0) eqn:Eg;
      [| rewrite Z.gtb_ltb in Eg; apply Z.ltb_ge in Eg; lia].
    rewrite Z.rem_mod_nonneg by lia. reflexivity. }
  split; [| split; [exact Hsmall | split]].
  - intros H. unfold formatTime. apply Z.leb_le in H. now rewrite H.
  - intros H. rewrite (Hbig H).
    destruct (seconds_part_two_digits (seconds mod 60))
      as (d1 & d2 & Hp & H1 & H2 & Hv);
      [apply Z.mod_pos_bound; lia |].
    exists d1, d2. rewrite Hp. repeat split; assumption.
  - destruct (seconds <? 60) eqn:E.
    + apply Z.ltb_lt in E. destruct (Z_le_gt_dec seconds 0) as [Hle | Hgt].
      * unfold formatTime. apply Z.leb_le in Hle. rewrite Hle.
        apply Z.leb_le in Hle. rewrite Z.max_l by lia. reflexivity.
      * rewrite Hsmall by lia. rewrite Z.max_r by lia.
        rewrite <- (parseInt_numberToString seconds "" ltac:(lia) eq_refl).
        f_equal. clear. induction (numberToString seconds); simpl; congruence.
    + apply Z.ltb_ge in E. rewrite (Hbig E).
      apply parseInt_numberToString; [| reflexivity].
      apply Z.div_pos; lia.
Qed.

Lemma formatTime_shape_witness :
  (0 < 45 < 60) /\ (60 <= 125) /\
  formatTime 45 = "45"%string /\
  formatTime 125 = "2:05"%string /\
  parseInt (formatTime 125) = Some 2.
Proof.
  split; [lia |]. split; [lia |].
  destruct (formatTime_shape 45) as (_ & Hs & _).
  destruct (formatTime_shape 125) as (_ & _ & _ & Hp).
  split; [rewrite (Hs ltac:(lia)); reflexivity |].
  split; [reflexivity | exact Hp].
Defined.

(* ------------------------------------------------------------------------- *)
(** ** The progress arc                                                      *)
(* ------------------------------------------------------------------------- *)

Section Progress.

Local Open Scope Q_scope.




End Progress.

(* ------------------------------------------------------------------------- *)
(** ** The Data Dragon URLs                                                  *)
(* ------------------------------------------------------------------------- *)

Section Urls.

Local Open Scope string_scope.

Lemma append_assoc (a b c : string) : (a ++ b) ++ c = a ++ (b ++ c).
Proof. induction a as [| x a IH]; simpl; [reflexivity | now rewrite IH]. Qed.

Lemma append_length (a b : string) :
  String.length (a ++ b) = (String.length a + String.length b)%nat.
Proof. induction a as [| x a IH]; simpl; [reflexivity | now rewrite IH]. Qed.

Lemma append_cancel_l (p a b : string) : p ++ a = p ++ b -> a = b.
Proof. induction p as [| x p IH]; simpl; [auto | intros [= H]; auto]. Qed.

Lemma append_cancel_r (a b t : string) : a ++ t = b ++ t -> a = b.
Proof.
  revert b. induction a as [| x a IH]; intros [| y b] H; simpl in H.
  - reflexivity.
  - apply (f_equal String.length) in H. simpl in H. rewrite append_length in H. lia.
  - apply (f_equal String.length) in H. simpl in H. rewrite append_length in H. lia.
  - injection H as -> H. f_equal. now apply IH.
Qed.

(** X25: for a fixed patch version the icon and detail URLs determine the
    champion or spell id they were built from, the list URLs determine the
    version, and the ability-icon URL of [id ++ ".png"] is the
    summoner-spell icon URL of [id]. *)
Theorem data_dragon_urls_are_injective (version a b : string) :
  (getChampionIconUrl version a = getChampionIconUrl version b -> a = b) /\
  (getSummonerSpellIconUrl version a = getSummonerSpellIconUrl version b -> a = b) /\
  (getChampionDetailUrl version a = getChampionDetailUrl version b -> a = b) /\
  (getAbilityIconUrl version a = getAbilityIconUrl version b -> a = b) /\
  (getChampionListUrl a = getChampionListUrl b -> a = b) /\
  (getSummonerSpellListUrl a = getSummonerSpellListUrl b -> a = b) /\
  getAbilityIconUrl version (a ++ ".png") = getSummonerSpellIconUrl version a.
Proof.
  unfold getChampionIconUrl, getSummonerSpellIconUrl, getChampionDetailUrl,
    getAbilityIconUrl, getChampionListUrl, getSummonerSpellListUrl.
  repeat split; intros H;
    repeat (apply append_cancel_l in H); try (now apply append_cancel_r in H);
    assumption.
Qed.

Example champion_icon_url :
  getChampionIconUrl "14.3.1" "Aatrox"
  = "https://ddragon.leagueoflegends.com/cdn/14.3.1/img/champion/Aatrox.png".
Proof. reflexivity. Qed.

Lemma data_dragon_urls_are_injective_witness :
  getSummonerSpellIconUrl "14.3.1" "SummonerFlash"
  = getSummonerSpellIconUrl "14.3.1" "SummonerFlash" /\
  "SummonerFlash" = "SummonerFlash" /\
  getAbilityIconUrl "14.3.1" "SummonerFlash.png"
  = getSummonerSpellIconUrl "14.3.1" "SummonerFlash".
Proof.
  destruct (data_dragon_urls_are_injective "14.3.1" "SummonerFlash" "SummonerFlash")
    as (_ & Hinj & _ & _ & _ & _ & H).
  split; [reflexivity |]. split; [exact (Hinj eq_refl) | exact H].
Defined.

End Urls.

(* ------------------------------------------------------------------------- *)
(** ** Settings and timers                                                   *)
(* ------------------------------------------------------------------------- *)

(** X26: the level toggle, the ability haste and the two summoner-haste
    toggles never change a timer end-time, in any slot of any store: a
    countdown that is running keeps its end-time through every change of
    settings. *)
Theorem settings_never_touch_timers
    (a : Action) (s : TimerStoreState) (j : nat) (f : TimerField) :
  isSettingAction a ->
  timerEndTime f <$> (enemies (step a s) !! j) = timerEndTime f <$> (enemies s !! j).
Proof.
  intros Ha.
  assert (Hupd : forall k g,
            (forall c, timerEndTime f (g c) = timerEndTime f c) ->
            timerEndTime f <$> (enemies (updateSlot k g s) !! j)
            = timerEndTime f <$> (enemies s !! j)).
  { intros k g Hg. destruct (decide (j = Z.to_nat k)) as [-> | Hne].
    - destruct (enemies s !! Z.to_nat k) as [c |] eqn:Hc.
      + rewrite (updateSlot_lookup s k g c Hc). simpl. now rewrite Hg.
      + rewrite (updateSlot_missing s k g Hc), Hc. reflexivity.
    - now rewrite (updateSlot_lookup_ne s k g j Hne). }
  destruct a; simpl in Ha; try contradiction; simpl; unfold_action;
    (destruct (validIndex index) as [k |]; [| reflexivity]);
    apply Hupd; intros c; destruct f; reflexivity.
Qed.

Lemma settings_never_touch_timers_witness :
  let s := startUltTimer 0 1000 (setChampionData 0 luxDetail initialState) in
  isSettingAction (ASetAbilityHaste 0 50) /\
  ultEndTime <$> (enemies (cycleLevel 0 (setAbilityHaste 0 50 s)) !! 0%nat)
  = ultEndTime <$> (enemies s !! 0%nat).
Proof.
  intros s. split; [exact I |].
  exact (eq_trans
           (settings_never_touch_timers (ACycleLevel 0) (setAbilityHaste 0 50 s)
              0%nat UltTimer I)
           (settings_never_touch_timers (ASetAbilityHaste 0 50) s 0%nat UltTimer I)).
Defined.

(** X27: [setChampion] can set the level directly (no cycling needed) and
    the active cooldown follows the new level; a partial update that names no
    field leaves a slot with a derived active cooldown as it is, and repairs
    the active cooldown of any other slot. *)
Theorem setChampion_sets_level_and_rederives
    (s : TimerStoreState) (i : Z) (c : EnemyChampion) :
  slotIndex i -> enemies s !! Z.to_nat i = Some c ->
  (forall l,
     exists c',
       enemies (setChampion i (levelPartial l) s) !! Z.to_nat i = Some c' /\
       currentLevel c' = l /\
       activeUltCooldown c' = deriveActiveUltCooldown l (ultBaseCooldowns c) /\
       sameExceptLevel c c' /\
       ultEndTime c' = ultEndTime c /\ spell1EndTime c' = spell1EndTime c /\
       spell2EndTime c' = spell2EndTime c) /\
  (forall data, exists c',
     enemies (setChampion i data s) !! Z.to_nat i = Some c' /\ slotConsistent c') /\
  (slotConsistent c -> setChampion i emptyPartial s = s).
Proof.
  intros Hi Hc. pose proof (validIndex_slot i Hi) as Hv.
  unfold setChampion. rewrite Hv. split; [| split].
  - intros l. eexists. split; [apply updateSlot_lookup; exact Hc |].
    simpl. repeat split; reflexivity.
  - intros data. eexists. split; [apply updateSlot_lookup; exact Hc |]. reflexivity.
  - intros Hcons. apply updateSlot_id. intros c0 Hc0.
    rewrite Hc in Hc0. injection Hc0 as <-.
    unfold slotConsistent in Hcons. destruct c. simpl in *. now subst.
Qed.

Lemma setChampion_sets_level_and_rederives_witness :
  let s := setChampionData 0 luxDetail initialState in
  slotIndex 0 /\
  exists c c',
    enemies s !! 0%nat = Some c /\ currentLevel c = L6 /\
    enemies (setChampion 0 (levelPartial L16) s) !! 0%nat = Some c' /\
    currentLevel c' = L16 /\ activeUltCooldown c' = Some 40%Q.
Proof.
  intros s.
  assert (Hi : slotIndex 0) by (unfold slotIndex; lia).
  split; [exact Hi |].
  destruct (enemies s !! 0%nat) as [c |] eqn:Hc; [| discriminate Hc].
  assert (Hl : currentLevel c = L6 /\ ultBaseCooldowns c = (80, 60, 40)%Q).
  { vm_compute in Hc. injection Hc as <-. split; reflexivity. }
  destruct (setChampion_sets_level_and_rederives s 0 c Hi Hc) as (Hset & _).
  destruct (Hset L16) as (c' & Hc' & Hlvl & Hact & _).
  exists c, c'. split; [reflexivity |]. split; [exact (proj1 Hl) |].
  split; [exact Hc' |]. split; [exact Hlvl |].
  rewrite Hact, (proj2 Hl). reflexivity.
Defined.


(** The rehydration theorem X14 at a store with one expired and one running
    timer, loaded at clock 3000. *)
Lemma rehydration_leaves_only_running_timers_witness :
  let st := {| enemies := [with_ultEndTime (Some 2000%Q) createEmptyChampion;
                           with_spell1EndTime (Some 9000%Q) createEmptyChampion] |} in
  Forall slotConsistent (enemies st) /\
  exists c0 c1,
    enemies (onRehydrateStorage (Some st) false 3000 initialState) !! 0%nat = Some c0 /\
    enemies (onRehydrateStorage (Some st) false 3000 initialState) !! 1%nat = Some c1 /\
    ultEndTime c0 = None /\
    isRunning (spell1EndTime c1) 3000 = true /\
    Forall slotConsistent (enemies (onRehydrateStorage (Some st) false 3000 initialState)).
Proof.
  intros st.
  assert (Hcons : Forall slotConsistent (enemies st)) by (repeat constructor).
  split; [exact Hcons |].
  destruct (rehydration_leaves_only_running_timers st initialState 3000%Q)
    as (_ & Hrun & Hkeep & _).
  eexists _, _. split; [reflexivity |]. split; [reflexivity |].
  split; [reflexivity |].
  split; [| exact (Hkeep Hcons)].
  destruct (Hrun 1%nat _ Spell1Timer eq_refl) as [Hnone | Hr];
    [discriminate Hnone | exact Hr].
Defined.
